(** * The self-update engine of the notebook monitor service

    A shallow embedding of [auto_updater.py] (class [AutoUpdater]) and the
    properties of its update cycle: version comparison, throttled release
    checks, backup and retention, download with checksum verification,
    installation, validation and rollback.

    Conventions of the embedding.
    - Strings are byte strings ([string]); only ASCII letters have a case
      and only ASCII digits are digits.
    - Instants and file modification times are integers counting
      microseconds since the epoch (the resolution of [datetime]); the
      numbers of [version.json] are integers.
    - Everything outside the class is a field of the record [World]: the
      clock, [requests], [subprocess] ([sc]), [hashlib], [zipfile] reading
      a downloaded archive, [datetime] formatting and parsing, and the log
      file the monitored service writes. Each interaction with the world
      advances a tick counter, so the world may answer differently at
      different moments of a cycle.
    - The installation directory is a finite map from file names to
      contents; [version.json] holds a JSON object or something
      [json.load] rejects. The backup directory maps the name of an
      archive to its entries and modification time, and paths inside the
      backup and scratch directories are file names. Writing, copying,
      deleting a file that exists and removing a directory tree succeed;
      the exceptions that are modelled are the ones the data can cause
      (missing files, unreadable JSON, values of the wrong type, archives
      that are not zip files, a directory where a file is expected) and
      the ones the world can cause (network, service control, reading the
      service log). *)

From Stdlib Require Import ZArith String Ascii List Bool Lia.
From stdpp Require Import base option list gmap fin_maps strings pretty.

Local Open Scope Z_scope.

(** ** Strings, as the Python string methods the updater calls *)

Module PyStr.

(** [str.isspace] on the ASCII range: tab, line feed, vertical tab, form
    feed, carriage return, the four separators 0x1c-0x1f and space. *)
Definition is_space (c : ascii) : bool :=
  let n := N_of_ascii c in
  (((9 <=? n) && (n <=? 13)) || ((28 <=? n) && (n <=? 32)))%N.

Definition digit_of (c : ascii) : option Z :=
  let n := N_of_ascii c in
  if ((48 <=? n) && (n <=? 57))%N then Some (Z.of_N n - 48) else None.

Fixpoint lstrip (p : ascii -> bool) (s : string) : string :=
  match s with
  | String c s' => if p c then lstrip p s' else s
  | EmptyString => EmptyString
  end.

Definition rstrip (p : ascii -> bool) (s : string) : string :=
  String.rev (lstrip p (String.rev s)).

(** [s.strip()] *)
Definition strip (s : string) : string := rstrip is_space (lstrip is_space s).

(** [s.lstrip('v')]: every leading ['v'] goes, not only the first. *)
Definition lstrip_char (c : ascii) (s : string) : string :=
  lstrip (Ascii.eqb c) s.

(** [s.split(sep)] for a one-character separator: never an empty list. *)
Fixpoint split_on (sep : ascii) (s : string) : list string :=
  match s with
  | EmptyString => [EmptyString]
  | String c s' =>
      if Ascii.eqb c sep then EmptyString :: split_on sep s'
      else match split_on sep s' with
           | w :: ws => String c w :: ws
           | [] => [String c EmptyString]
           end
  end.

(** [s.split()]: the maximal runs of non-space characters. *)
Fixpoint split_ws_go (cur : string) (s : string) : list string :=
  match s with
  | EmptyString => if decide (cur = EmptyString) then [] else [String.rev cur]
  | String c s' =>
      if is_space c
      then (if decide (cur = EmptyString) then [] else [String.rev cur])
             ++ split_ws_go EmptyString s'
      else split_ws_go (String c cur) s'
  end.
Definition split_ws (s : string) : list string := split_ws_go EmptyString s.

Definition lower_char (c : ascii) : ascii :=
  let n := N_of_ascii c in
  if ((65 <=? n) && (n <=? 90))%N then ascii_of_N (n + 32) else c.

(** [s.lower()] *)
Fixpoint lower (s : string) : string :=
  match s with
  | EmptyString => EmptyString
  | String c s' => String (lower_char c) (lower s')
  end.

(** [sub in s] *)
Fixpoint contains (sub s : string) : bool :=
  String.prefix sub s ||
  match s with
  | EmptyString => false
  | String _ s' => contains sub s'
  end.

(** [s.endswith(suffix)] *)
Definition endswith (suffix s : string) : bool :=
  String.prefix (String.rev suffix) (String.rev s).

Definition startswith (pre s : string) : bool := String.prefix pre s.

(** Digits with single underscores between them, as [int] reads them:
    [seen] says that the previous character was a digit. *)
Fixpoint parse_digits (s : string) (acc : Z) (seen : bool) : option Z :=
  match s with
  | EmptyString => if seen then Some acc else None
  | String c s' =>
      match digit_of c with
      | Some d => parse_digits s' (10 * acc + d) true
      | None =>
          if Ascii.eqb c "_" && seen then parse_digits s' acc false
          else None
      end
  end.

(** [int(s)] in base ten: surrounding white space, an optional sign,
    digits. [None] stands for [ValueError]. *)
Definition int (s : string) : option Z :=
  match strip s with
  | String "-" r => Z.opp <$> parse_digits r 0 false
  | String "+" r => parse_digits r 0 false
  | r => parse_digits r 0 false
  end.

End PyStr.

(** ** Version comparison *)

(** [version_tuple(v)]: [tuple(map(int, v.split('.')))]; [None] when a
    component makes [int] raise. *)
Definition version_tuple (v : string) : option (list Z) :=
  mapM PyStr.int (PyStr.split_on "." v).

(** Python's [>] on tuples of integers: the first position where the two
    differ decides; when one is a prefix of the other the longer is the
    greater. *)
Fixpoint tuple_gt (a b : list Z) : bool :=
  match a, b with
  | x :: a', y :: b' => if x =? y then tuple_gt a' b' else y <? x
  | _ :: _, [] => true
  | [], _ => false
  end.

(** [AutoUpdater._is_newer_version]: the bare [except] turns every failure
    of the conversion into [False]. *)
Definition _is_newer_version (new_version current_version : string) : bool :=
  match version_tuple new_version with
  | None => false
  | Some n =>
      match version_tuple current_version with
      | None => false
      | Some c => tuple_gt n c
      end
  end.

(** The lexicographic order the specification speaks of, on tuples of
    integers, stated independently of the code. *)
Inductive lex_greater : list Z -> list Z -> Prop :=
  | lex_longer x a : lex_greater (x :: a) []
  | lex_head x y a b : y < x -> lex_greater (x :: a) (y :: b)
  | lex_tail x a b : lex_greater a b -> lex_greater (x :: a) (x :: b).


(** ** Data *)

(** The values found in [version.json] ([json.load]). *)
Inductive jval :=
  | JNull
  | JBool (b : bool)
  | JNum (n : Z)
  | JStr (s : string).

Global Instance jval_eq_dec : EqDecision jval.
Proof. solve_decision. Defined.

(** Truth value of a Python object ([if x:], [not x]). *)
Definition truthy (v : jval) : bool :=
  match v with
  | JNull => false
  | JBool b => b
  | JNum n => negb (n =? 0)
  | JStr s => negb (String.eqb s "")
  end.

Definition truthy_str (o : option string) : bool :=
  match o with
  | Some s => negb (String.eqb s "")
  | None => false
  end.

(** [str(x)], as an f-string formats a value. *)
Definition py_str (v : jval) : string :=
  match v with
  | JNull => "None"
  | JBool true => "True"
  | JBool false => "False"
  | JNum n => pretty n
  | JStr s => s
  end.

(** A number where Python wants one ([bool] is a subclass of [int]);
    [None] stands for [TypeError]. *)
Definition as_number (v : jval) : option Z :=
  match v with
  | JNum n => Some n
  | JBool b => Some (if b then 1 else 0)
  | _ => None
  end.

(** [d.get(k)] and [d.get(k, default)] *)
Definition dict_get (d : gmap string jval) (k : string) : jval :=
  default JNull (d !! k).
Definition dict_get_default (d : gmap string jval) (k : string) (dflt : jval) : jval :=
  default dflt (d !! k).

(** The content of a file of the installation: [Json d] is a file whose
    text is the JSON object [d] (what [json.dump] writes and [json.load]
    reads back), [Bytes b] is any other content. *)
Inductive content :=
  | Bytes (b : string)
  | Json (d : gmap string jval).

(** A backup archive: the entries [zipf.write] added, in order. *)
Definition Archive := list (string * content).

(** A directory tree, as [extractall] lays an update archive out: a
    listing maps a name to a file or to a sub-directory. *)
#[warnings="-register-all"]
Inductive node :=
  | File (b : string)
  | Dir (entries : list (string * node)).

Definition Listing := list (string * node).

(** The scratch directory [temp_update]: downloaded artifacts by file name
    and the directory [extracted], when it exists. *)
Record TempDir := {
  downloads : gmap string string;
  extracted : option Listing
}.

(** The release candidate [check_for_updates] returns. *)
Record UpdateInfo := {
  ui_version : option string;
  ui_download_url : option string;
  ui_release_notes : option string;
  ui_published_at : option string;
  ui_checksum : option string
}.

(** The release feed's answer (the GitHub release object). [None] in a
    field is an absent key. *)
Record Asset := {
  asset_name : option string;
  browser_download_url : option string
}.

Record ReleaseInfo := {
  tag_name : option string;
  body : option string;
  published_at : option string;
  zipball_url : option string;
  assets : list Asset
}.

(** ** The world around the updater *)

Inductive sc_verb := ScStop | ScStart | ScQuery.

(** [subprocess.run(['sc', verb, name], ...)]: it raised (a timeout, no
    [sc] program), or completed. *)
Inductive sc_result :=
  | ScRaised
  | ScDone (returncode : Z) (stdout stderr : string).

(** A streamed download: nothing was received ([get], [raise_for_status]
    or the content-length header raised), the whole body arrived, or the
    stream broke after part of it was written. *)
Inductive stream_result :=
  | StreamError
  | StreamBody (payload : string)
  | StreamBroken (partial : string).

(** [datetime.fromisoformat]: [ValueError], a naive datetime, or an aware
    one denoting an instant. *)
Inductive iso_parse :=
  | IsoInvalid
  | IsoNaive
  | IsoAware (t : Z).

(** One attempt at reading the service log as text. *)
Inductive text_read :=
  | TextLines (lines : list string)
  | TextDecodeError
  | TextOSError.

(** The service's log file as the updater can observe it: what
    [open(..., encoding=e, errors='ignore')] followed by [readlines]
    yields for each encoding, and what reading it in binary mode yields
    ([None]: the read raised). *)
Record LogFile := {
  read_text : string -> text_read;
  read_binary : option string
}.

Record World := {
  clock : nat -> Z;
  isoformat : Z -> string;
  fromisoformat : string -> iso_parse;
  strftime : Z -> string;
  http_get_json : nat -> string -> option ReleaseInfo;
  http_get_text : nat -> string -> option string;
  http_get_stream : nat -> string -> stream_result;
  sc : nat -> sc_verb -> sc_result;
  service_log : nat -> option LogFile;
  sha256_hexdigest : string -> string;
  zip_extractall : string -> Listing -> option Listing;
  decode_utf8_ignore : string -> string
}.

(** ** State *)

Inductive level := DEBUG | INFO | WARNING | ERROR.

Record State := {
  base : gmap string content;          (* files of [base_dir] *)
  backups : gmap string (Archive * Z); (* [backup_dir]: archive, mtime *)
  temp : option TempDir;               (* [temp_dir], when it exists *)
  tick : nat;                          (* interactions with the world so far *)
  requests : list string;              (* URLs requested over the network *)
  journal : list (level * string)      (* what the logger recorded *)
}.

Definition set_base (f : gmap string content -> gmap string content) (st : State) : State :=
  {| base := f (base st); backups := backups st; temp := temp st;
     tick := tick st; requests := requests st; journal := journal st |}.
Definition set_backups (f : gmap string (Archive * Z) -> gmap string (Archive * Z)) (st : State) : State :=
  {| base := base st; backups := f (backups st); temp := temp st;
     tick := tick st; requests := requests st; journal := journal st |}.
Definition set_temp (t : option TempDir) (st : State) : State :=
  {| base := base st; backups := backups st; temp := t;
     tick := tick st; requests := requests st; journal := journal st |}.
Definition bump (st : State) : State :=
  {| base := base st; backups := backups st; temp := temp st;
     tick := S (tick st); requests := requests st; journal := journal st |}.
Definition add_request (u : string) (st : State) : State :=
  {| base := base st; backups := backups st; temp := temp st;
     tick := tick st; requests := requests st ++ [u]; journal := journal st |}.
Definition add_journal (l : level) (msg : string) (st : State) : State :=
  {| base := base st; backups := backups st; temp := temp st;
     tick := tick st; requests := requests st; journal := journal st ++ [(l, msg)] |}.

(** ** Computations: state and exceptions *)

Inductive exn :=
  | ValueError | TypeError | KeyError | IndexError
  | FileNotFoundError | IsADirectoryError | OSError
  | JSONDecodeError | BadZipFile | RequestException
  | UnicodeDecodeError | SubprocessError.

Inductive outcome (A : Type) :=
  | Ret (a : A)
  | Raise (e : exn).
Global Arguments Ret {A} a.
Global Arguments Raise {A} e.

Definition M (A : Type) : Type := State -> outcome A * State.

Global Instance M_ret : MRet M := fun A a st => (Ret a, st).
Global Instance M_bind : MBind M := fun A B k m st =>
  match m st with
  | (Ret a, st') => k a st'
  | (Raise e, st') => (Raise e, st')
  end.

Definition raise {A} (e : exn) : M A := fun st => (Raise e, st).
Definition get_state : M State := fun st => (Ret st, st).
Definition modify (f : State -> State) : M unit := fun st => (Ret tt, f st).

(** [try: m  except Exception as e: h e] *)
Definition try_except {A} (m : M A) (h : exn -> M A) : M A := fun st =>
  match m st with
  | (Ret a, st') => (Ret a, st')
  | (Raise e, st') => h e st'
  end.

(** [try: m  finally: fin]: [fin] runs whatever [m] did; an exception of
    [fin] replaces the outcome of [m]. *)
Definition try_finally {A} (m : M A) (fin : M unit) : M A := fun st =>
  match m st with
  | (r, st') =>
      match fin st' with
      | (Ret _, st'') => (r, st'')
      | (Raise e, st'') => (Raise e, st'')
      end
  end.

(** [self.logger.<level>(msg)] *)
Definition logger (l : level) (msg : string) : M unit := modify (add_journal l msg).

(** One interaction with the world: its index. *)
Definition next_tick : M nat := fun st => (Ret (tick st), bump st).

(** ** The updater *)

Definition VERSION_FILE : string := "version.json".
Definition MAIN_FILE : string := "notebook_monitor_service.py".
Definition USEC : Z := 1000000.
Definition DAY : Z := 86400 * USEC.

Section AutoUpdater.

Context (w : World).

(** [datetime.now(SAO_PAULO_TZ)] *)
Definition datetime_now : M Z := n ← next_tick; mret (clock w n).

(** The modification time the file system stamps on a file when it is
    written. *)
Definition file_mtime : M Z := n ← next_tick; mret (clock w n).

(** [save_version_info]: the write cannot fail here, so the [except]
    branch that answers [False] is never taken. *)
Definition save_version_info (version_info : gmap string jval) : M bool :=
  try_except
    (modify (set_base (insert VERSION_FILE (Json version_info)));;
     mret true)
    (fun _ => logger ERROR "Erro ao salvar informações de versão";;
              mret false).

Definition default_version (now : Z) : gmap string jval :=
  list_to_map
    [("version", JStr "1.0.0");
     ("build_date", JStr (isoformat w now));
     ("commit_hash", JStr "initial");
     ("update_url",
       JStr "https://api.github.com/repos/seu-usuario/monitoramento-notebooks/releases/latest");
     ("auto_update_enabled", JBool true);
     ("update_check_interval", JNum 86400);
     ("last_update_check", JNull);
     ("backup_retention_days", JNum 7)].

Definition load_version_info : M (gmap string jval) :=
  try_except
    (st ← get_state;
     match base st !! VERSION_FILE with
     | Some (Json d) => mret d
     | Some (Bytes _) => raise JSONDecodeError
     | None =>
         now ← datetime_now;
         save_version_info (default_version now);;
         mret (default_version now)
     end)
    (fun _ => logger ERROR "Erro ao carregar informações de versão";;
              mret ∅).

(** [datetime.fromisoformat(x)] *)
Definition py_fromisoformat (x : jval) : M iso_parse :=
  match x with
  | JStr s =>
      match fromisoformat w s with
      | IsoInvalid => raise ValueError
      | p => mret p
      end
  | _ => raise TypeError
  end.

(** [(now - last).total_seconds() < interval]: subtracting a naive
    datetime from an aware one raises, and so does comparing with
    something that is not a number. *)
Definition elapsed_less (now : Z) (last : iso_parse) (interval : jval) : M bool :=
  match last with
  | IsoAware t =>
      match as_number interval with
      | Some n => mret (now - t <? n * USEC)
      | None => raise TypeError
      end
  | _ => raise TypeError
  end.

(** [requests.get(url, timeout=30)], [raise_for_status()], [json()] *)
Definition requests_get_json (url : jval) : M ReleaseInfo :=
  match url with
  | JStr u =>
      modify (add_request u);;
      n ← next_tick;
      match http_get_json w n u with
      | Some r => mret r
      | None => raise RequestException
      end
  | _ => raise TypeError
  end.

(** [requests.get(url, timeout=10).text] *)
Definition requests_get_text (url : option string) : M string :=
  match url with
  | Some u =>
      modify (add_request u);;
      n ← next_tick;
      match http_get_text w n u with
      | Some t => mret t
      | None => raise RequestException
      end
  | None => raise TypeError
  end.

Fixpoint _get_download_url_loop (l : list Asset) (fallback : option string) : option string :=
  match l with
  | [] => fallback
  | a :: rest =>
      if PyStr.endswith ".zip" (default "" (asset_name a))
      then browser_download_url a
      else _get_download_url_loop rest fallback
  end.

Definition _get_download_url (release_info : ReleaseInfo) : option string :=
  _get_download_url_loop (assets release_info) (zipball_url release_info).

Fixpoint _get_checksum_loop (l : list Asset) : M (option string) :=
  match l with
  | [] => mret None
  | a :: rest =>
      let name := PyStr.lower (default "" (asset_name a)) in
      if PyStr.contains "sha256" name || PyStr.contains "checksum" name then
        r ← try_except
              (text ← requests_get_text (browser_download_url a);
               match PyStr.split_ws (PyStr.strip text) with
               | tok :: _ => mret (Some tok)
               | [] => raise IndexError
               end)
              (fun _ => mret None);
        match r with
        | Some tok => mret (Some tok)
        | None => _get_checksum_loop rest
        end
      else _get_checksum_loop rest
  end.

Definition _get_checksum_from_release (release_info : ReleaseInfo) : M (option string) :=
  _get_checksum_loop (assets release_info).

(** The call [self._is_newer_version(latest_version, current_version)]
    of [check_for_updates]: [current_version] comes from the record, and
    when it is not a string [split] raises inside [_is_newer_version],
    whose [except] answers [False]. *)
Definition is_newer_than_record (latest_version : string) (current_version : jval) : bool :=
  match current_version with
  | JStr c => _is_newer_version latest_version c
  | _ => false
  end.

Definition check_for_updates : M (option UpdateInfo) :=
  try_except
    (version_info ← load_version_info;
     if negb (truthy (dict_get_default version_info "auto_update_enabled" (JBool true)))
     then mret None
     else
       let last_check := dict_get version_info "last_update_check" in
       throttled ←
         (if truthy last_check then
            last_check_time ← py_fromisoformat last_check;
            now ← datetime_now;
            let interval :=
              dict_get_default version_info "update_check_interval" (JNum 86400) in
            early ← elapsed_less now last_check_time interval;
            if (early : bool)
            then logger INFO "Ainda não é hora de verificar atualizações";;
                 mret true
            else mret false
          else mret false);
       if (throttled : bool) then mret None
       else
         let update_url := dict_get version_info "update_url" in
         if negb (truthy update_url)
         then logger WARNING "URL de atualização não configurada";;
              mret None
         else
           logger INFO "Verificando atualizações em";;
           release_info ← requests_get_json update_url;
           now ← datetime_now;
           let version_info :=
             <["last_update_check" := JStr (isoformat w now)]> version_info in
           save_version_info version_info;;
           let current_version :=
             dict_get_default version_info "version" (JStr "0.0.0") in
           let latest_version :=
             PyStr.lstrip_char "v" (default "" (tag_name release_info)) in
           if is_newer_than_record latest_version current_version
           then
             logger INFO "Nova versão disponível";;
             checksum ← _get_checksum_from_release release_info;
             mret (Some {| ui_version := Some latest_version;
                           ui_download_url := _get_download_url release_info;
                           ui_release_notes := Some (default "" (body release_info));
                           ui_published_at := published_at release_info;
                           ui_checksum := checksum |})
           else
             logger INFO "Versão atual está atualizada";;
             mret None)
    (fun _ => logger ERROR "Erro ao verificar atualizações";;
              mret None).

(** *** Backups *)

Definition files_to_backup : list string :=
  [MAIN_FILE; VERSION_FILE; ".env"; "requirements.txt"; "database_schema.sql"].

(** [backup_dir.glob('backup_*.zip')] *)
Definition glob_backup (name : string) : bool :=
  PyStr.startswith "backup_" name && PyStr.endswith ".zip" name
  && (11 <=? String.length name)%nat.

(** One turn of the pruning loop: [unlink] an archive older than the
    cut-off and record it. *)
Definition prune_step (cutoff : Z) (name : string) (f : Archive * Z) (st : State) : State :=
  if glob_backup name && (snd f <? cutoff)
  then add_journal INFO "Backup antigo removido" (set_backups (delete name) st)
  else st.

Definition _cleanup_old_backups : M unit :=
  try_except
    (version_info ← load_version_info;
     let retention_days :=
       dict_get_default version_info "backup_retention_days" (JNum 7) in
     now ← datetime_now;
     match as_number retention_days with
     | None => raise TypeError
     | Some days =>
         let cutoff := now - days * DAY in
         modify (fun st => map_fold (prune_step cutoff) st (backups st))
     end)
    (fun _ => logger ERROR "Erro ao limpar backups antigos").

(** The loop of [create_backup] over [files_to_backup]: every file that
    exists is added to the archive under its own name. *)
Fixpoint zip_write_existing (names : list string) (acc : Archive) : M Archive :=
  match names with
  | [] => mret acc
  | file_name :: rest =>
      st ← get_state;
      match base st !! file_name with
      | Some c =>
          logger DEBUG "Adicionado ao backup";;
          zip_write_existing rest (acc ++ [(file_name, c)])
      | None => zip_write_existing rest acc
      end
  end.

(** [create_backup] answers the name of the archive inside [backup_dir]. *)
Definition create_backup : M (option string) :=
  try_except
    (version_info ← load_version_info;
     let current_version := dict_get_default version_info "version" (JStr "unknown") in
     now ← datetime_now;
     let backup_name :=
       "backup_v" +:+ py_str current_version +:+ "_" +:+ strftime w now +:+ ".zip" in
     logger INFO "Criando backup em";;
     archive ← zip_write_existing files_to_backup [];
     mtime ← file_mtime;
     modify (set_backups (insert backup_name (archive, mtime)));;
     logger INFO "Backup criado com sucesso";;
     _cleanup_old_backups;;
     mret (Some backup_name))
    (fun _ => logger ERROR "Erro ao criar backup";;
              mret None).

(** [zipf.extractall(self.base_dir)] for a backup archive *)
Definition extract_over (archive : Archive) (files : gmap string content) : gmap string content :=
  foldl (fun m e => <[e.1 := e.2]> m) files archive.

(** *** Download *)

Definition empty_temp : TempDir := {| downloads := ∅; extracted := None |}.

(** [self.temp_dir.mkdir(exist_ok=True)] *)
Definition mkdir_temp : M TempDir :=
  st ← get_state;
  match temp st with
  | Some td => mret td
  | None => modify (set_temp (Some empty_temp));; mret empty_temp
  end.

(** [open(download_file, 'wb')] and the writes: the directory has to
    exist. *)
Definition write_download (name data : string) : M unit :=
  st ← get_state;
  match temp st with
  | Some td =>
      modify (set_temp (Some {| downloads := <[name := data]> (downloads td);
                                extracted := extracted td |}))
  | None => raise FileNotFoundError
  end.

Definition unlink_download (name : string) : M unit :=
  st ← get_state;
  match temp st with
  | Some td =>
      match downloads td !! name with
      | Some _ =>
          modify (set_temp (Some {| downloads := delete name (downloads td);
                                    extracted := extracted td |}))
      | None => raise FileNotFoundError
      end
  | None => raise FileNotFoundError
  end.

Definition read_download (name : string) : M string :=
  st ← get_state;
  match temp st with
  | Some td =>
      match downloads td !! name with
      | Some data => mret data
      | None => raise FileNotFoundError
      end
  | None => raise FileNotFoundError
  end.

Definition _verify_checksum (file_path expected_checksum : string) : M bool :=
  try_except
    (data ← read_download file_path;
     let actual_checksum := sha256_hexdigest w data in
     mret (bool_decide (PyStr.lower actual_checksum = PyStr.lower expected_checksum)))
    (fun _ => logger ERROR "Erro ao verificar checksum";;
              mret false).

Definition download_file_name (update_info : UpdateInfo) : string :=
  "update_v" +:+ default "unknown" (ui_version update_info) +:+ ".zip".

(** [requests.get(url, stream=True, timeout=300)] and the loop writing
    the chunks (the progress messages are left out). *)
Definition stream_to_file (url download_file : string) : M unit :=
  modify (add_request url);;
  n ← next_tick;
  match http_get_stream w n url with
  | StreamError => raise RequestException
  | StreamBody payload => write_download download_file payload
  | StreamBroken partial =>
      write_download download_file partial;;
      raise RequestException
  end.

Definition download_update (update_info : UpdateInfo) : M (option string) :=
  try_except
    (let download_url := ui_download_url update_info in
     if negb (truthy_str download_url)
     then logger ERROR "URL de download não encontrada";;
          mret None
     else
       mkdir_temp;;
       let download_file := download_file_name update_info in
       logger INFO "Baixando atualização de";;
       stream_to_file (default "" download_url) download_file;;
       logger INFO "Download concluído";;
       let expected_checksum := ui_checksum update_info in
       if truthy_str expected_checksum then
         ok ← _verify_checksum download_file (default "" expected_checksum);
         if negb ok
         then logger ERROR "Checksum da atualização não confere";;
              unlink_download download_file;;
              mret None
         else mret (Some download_file)
       else mret (Some download_file))
    (fun _ => logger ERROR "Erro ao baixar atualização";;
              mret None).

(** *** Service control *)

(** [time.sleep]: time passes. *)
Definition sleep : M unit := next_tick;; mret tt.

Definition subprocess_run (verb : sc_verb) : M (Z * string * string) :=
  n ← next_tick;
  match sc w n verb with
  | ScRaised => raise SubprocessError
  | ScDone rc out err => mret (rc, out, err)
  end.

Definition _stop_service : M bool :=
  try_except
    ('(returncode, _, stderr) ← subprocess_run ScStop;
     sleep;;
     mret ((returncode =? 0)
           || PyStr.contains "service is not started" (PyStr.lower stderr)))
    (fun _ => logger ERROR "Erro ao parar serviço";;
              mret false).

Definition _start_service : M bool :=
  try_except
    ('(returncode, _, _) ← subprocess_run ScStart;
     mret (returncode =? 0))
    (fun _ => logger ERROR "Erro ao iniciar serviço";;
              mret false).

Definition _is_service_running : M bool :=
  try_except
    ('(_, stdout, _) ← subprocess_run ScQuery;
     mret (PyStr.contains "RUNNING" stdout))
    (fun _ => logger ERROR "Erro ao verificar status do serviço";;
              mret false).

(** *** Installation *)

Definition files_to_update : list string :=
  [MAIN_FILE; "requirements.txt"; "database_schema.sql"].

Fixpoint lookup_entry (name : string) (l : Listing) : option node :=
  match l with
  | [] => None
  | (n, x) :: rest => if String.eqb n name then Some x else lookup_entry name rest
  end.

(** [name in files], for the [files] of one step of [os.walk] *)
Definition in_files (name : string) (l : Listing) : bool :=
  match lookup_entry name l with
  | Some (File _) => true
  | _ => false
  end.

(** [os.walk], top-down, stopping at the first directory whose files
    include [name]: the path below the top and the listing of that
    directory. *)
Fixpoint walk_node (name : string) (x : node) : option (list string * Listing) :=
  match x with
  | File _ => None
  | Dir l =>
      if in_files name l then Some ([], l)
      else
        (fix subdirs (ds : Listing) : option (list string * Listing) :=
           match ds with
           | [] => None
           | (n, y) :: rest =>
               match walk_node name y with
               | Some (path, found) => Some (n :: path, found)
               | None => subdirs rest
               end
           end) l
  end.

(** The search among the entries of one directory (the inner loop of
    [walk_node]), as a function of its own. *)
Fixpoint walk_entries (name : string) (ds : Listing) : option (list string * Listing) :=
  match ds with
  | [] => None
  | (n, y) :: rest =>
      match walk_node name y with
      | Some (path, found) => Some (n :: path, found)
      | None => walk_entries name rest
      end
  end.

(** [_find_main_directory]: when no directory holds the main file, the
    extraction directory itself. *)
Definition _find_main_directory (extract_dir : Listing) : list string * Listing :=
  default ([], extract_dir) (walk_node MAIN_FILE (Dir extract_dir)).

(** The loop of [install_update] over [files_to_update]. [exists()]
    holds of a directory too, and [shutil.copy2] raises on one. *)
Fixpoint copy_updated (main_dir : Listing) (names : list string) : M unit :=
  match names with
  | [] => mret tt
  | file_name :: rest =>
      match lookup_entry file_name main_dir with
      | Some (File b) =>
          modify (set_base (insert file_name (Bytes b)));;
          logger INFO "Arquivo atualizado";;
          copy_updated main_dir rest
      | Some (Dir _) => raise IsADirectoryError
      | None => copy_updated main_dir rest
      end
  end.

Definition jopt (o : option string) : jval :=
  match o with
  | Some s => JStr s
  | None => JNull
  end.

(** [extract_dir.mkdir(exist_ok=True)]: [temp_dir] has to exist. The
    answer is what [extracted] holds already. *)
Definition mkdir_extracted : M Listing :=
  st ← get_state;
  match temp st with
  | None => raise FileNotFoundError
  | Some td =>
      let old := default [] (extracted td) in
      modify (set_temp (Some {| downloads := downloads td; extracted := Some old |}));;
      mret old
  end.

Definition set_extracted (tree : Listing) : M unit :=
  st ← get_state;
  match temp st with
  | None => raise FileNotFoundError
  | Some td =>
      modify (set_temp (Some {| downloads := downloads td; extracted := Some tree |}))
  end.

(** [update_file] is the name of the artifact inside [temp_dir].
    [_find_main_directory] always answers a path, and a path is never
    false, so the branch [if not main_dir] is not taken. *)
Definition install_update (update_file : string) (update_info : UpdateInfo) : M bool :=
  try_except
    (logger INFO "Iniciando instalação da atualização";;
     stopped ← _stop_service;
     if negb stopped
     then logger ERROR "Falha ao parar o serviço";;
          mret false
     else
       old ← mkdir_extracted;
       data ← read_download update_file;
       match zip_extractall w data old with
       | None => raise BadZipFile
       | Some tree =>
           set_extracted tree;;
           let main_dir := _find_main_directory tree in
           copy_updated main_dir.2 files_to_update;;
           version_info ← load_version_info;
           let version_info := <["version" := jopt (ui_version update_info)]> version_info in
           now ← datetime_now;
           let version_info := <["build_date" := JStr (isoformat w now)]> version_info in
           now ← datetime_now;
           let version_info := <["last_update" := JStr (isoformat w now)]> version_info in
           save_version_info version_info;;
           logger INFO "Atualização instalada com sucesso";;
           mret true
       end)
    (fun _ => logger ERROR "Erro ao instalar atualização";;
              mret false).

(** *** Validation *)

Definition encodings : list string := ["utf-8"; "latin-1"; "cp1252"; "iso-8859-1"].

Definition critical_patterns : list string :=
  ["CRITICAL"; "FATAL"; "Exception"; "Error"; "Failed to start"; "Connection failed"].

(** [l[-n:]] *)
Definition last_n {A} (n : nat) (l : list A) : list A := drop (length l - n) l.

(** The loop over the encodings: the first read that succeeds ends it, a
    [UnicodeDecodeError] moves on to the next encoding, anything else
    propagates; [lines] stays empty when no read succeeded. *)
Fixpoint read_log_lines (lf : LogFile) (encs : list string) : M (list string) :=
  match encs with
  | [] => mret []
  | encoding :: rest =>
      match read_text lf encoding with
      | TextLines lines => mret (last_n 50 lines)
      | TextDecodeError => read_log_lines lf rest
      | TextOSError => raise OSError
      end
  end.

Definition has_pattern (line : string) : bool :=
  existsb (fun pattern => PyStr.contains pattern line) critical_patterns.

Definition _has_critical_errors_in_logs : M bool :=
  try_except
    (n ← next_tick;
     match service_log w n with
     | None => mret false
     | Some lf =>
         lines ← read_log_lines lf encodings;
         tail ← (match lines with
                 | [] =>
                     try_except
                       (match read_binary lf with
                        | Some content =>
                            let text_content := decode_utf8_ignore w content in
                            mret (Some (last_n 50 (PyStr.split_on "010" text_content)))
                        | None => raise OSError
                        end)
                       (fun _ => logger WARNING "Não foi possível ler o arquivo de log";;
                                 mret None)
                 | _ => mret (Some lines)
                 end);
         match tail with
         | None => mret false
         | Some lines =>
             datetime_now;;
             mret (existsb has_pattern lines)
         end
     end)
    (fun _ => logger ERROR "Erro ao verificar logs";;
              mret true).

Definition validate_update : M bool :=
  try_except
    (logger INFO "Validando atualização";;
     started ← _start_service;
     if negb started
     then logger ERROR "Falha ao iniciar serviço após atualização";;
          mret false
     else
       sleep;;
       running ← _is_service_running;
       if negb running
       then logger ERROR "Serviço não está rodando após atualização";;
            mret false
       else
         critical ← _has_critical_errors_in_logs;
         if (critical : bool)
         then logger ERROR "Erros críticos encontrados nos logs";;
              mret false
         else logger INFO "Validação da atualização bem-sucedida";;
              mret true)
    (fun _ => logger ERROR "Erro na validação da atualização";;
              mret false).

(** *** Rollback *)

(** [backup_path] is the name of the archive inside [backup_dir]. *)
Definition rollback_update (backup_path : string) : M bool :=
  try_except
    (logger WARNING "Iniciando rollback da atualização";;
     _stop_service;;
     st ← get_state;
     match backups st !! backup_path with
     | None => raise FileNotFoundError
     | Some (archive, _) =>
         modify (set_base (extract_over archive));;
         started ← _start_service;
         if (started : bool)
         then logger INFO "Rollback concluído com sucesso";;
              mret true
         else logger ERROR "Falha ao iniciar serviço após rollback";;
              mret false
     end)
    (fun _ => logger ERROR "Erro no rollback";;
              mret false).

(** *** The update cycle *)

Definition cleanup_temp_files : M unit :=
  try_except
    (st ← get_state;
     match temp st with
     | Some _ =>
         modify (set_temp None);;
         logger INFO "Arquivos temporários removidos"
     | None => mret tt
     end)
    (fun _ => logger ERROR "Erro ao remover arquivos temporários").

(** The [except Exception] clause of [perform_update]; [backup_path] is
    the value the local variable has when the exception arrives. *)
Definition on_exception (backup_path : option string) (e : exn) : M bool :=
  logger ERROR "Erro no processo de atualização";;
  match backup_path with
  | Some p => rollback_update p;; mret false
  | None => mret false
  end.

(** The steps after [backup_path] has been assigned. *)
Definition update_from_backup (update_info : UpdateInfo) (backup_path : string) : M bool :=
  update_file ← download_update update_info;
  match update_file with
  | None =>
      logger ERROR "Falha ao baixar atualização";;
      mret false
  | Some update_file =>
      installed ← install_update update_file update_info;
      if negb installed
      then logger ERROR "Falha ao instalar atualização";;
           mret false
      else
        valid ← validate_update;
        if negb valid
        then
          logger ERROR "Validação da atualização falhou";;
          rolled_back ← rollback_update backup_path;
          (if (rolled_back : bool)
           then logger INFO "Rollback realizado com sucesso"
           else logger ERROR "Falha no rollback - intervenção manual necessária");;
          mret false
        else
          logger INFO "=== Atualização concluída com sucesso ===";;
          mret true
  end.

Definition perform_update : M bool :=
  try_finally
    (try_except
       (logger INFO "=== Iniciando processo de atualização ===";;
        update_info ← check_for_updates;
        match update_info with
        | None =>
            logger INFO "Nenhuma atualização disponível";;
            mret true
        | Some update_info =>
            match ui_version update_info with
            | Some _ => logger INFO "Nova versão encontrada"
            | None => raise KeyError
            end;;
            backup_path ← create_backup;
            match backup_path with
            | None =>
                logger ERROR "Falha ao criar backup";;
                mret false
            | Some backup_path =>
                try_except
                  (update_from_backup update_info backup_path)
                  (on_exception (Some backup_path))
            end
        end)
       (on_exception None))
    cleanup_temp_files.

End AutoUpdater.

(** ** The scheduler ([update_scheduler.py])

    One turn of the loop of [UpdateScheduler._run_scheduler]. The flag
    [self.running] is written by another thread: [running k] is what the
    [k]-th test of the flag inside the turn reads. The turn answers the
    durations, in seconds, it asked [time.sleep] for; [fuel] bounds the
    number of slices ([None] when it runs out). *)

Section UpdateScheduler.

Context (w : World).

(** [while sleep_time < interval and self.running:
      time.sleep(min(60, interval - sleep_time)); sleep_time += 60] *)
Fixpoint sleep_in_slices (fuel : nat) (running : nat -> bool) (k : nat)
    (interval sleep_time : Z) (slept : list Z) : M (option (list Z)) :=
  match fuel with
  | O => mret None
  | S fuel' =>
      if (sleep_time <? interval) && running k then
        sleep;;
        sleep_in_slices fuel' running (S k) interval (sleep_time + 60)
          (slept ++ [Z.min 60 (interval - sleep_time)])
      else mret (Some slept)
  end.

Definition scheduler_turn (fuel : nat) (running : nat -> bool) : M (option (list Z)) :=
  try_except
    (version_info ← load_version_info w;
     (if truthy (dict_get_default version_info "auto_update_enabled" (JBool true)) then
        logger DEBUG "Verificando atualizações...";;
        success ← perform_update w;
        if (success : bool)
        then logger INFO "Verificação de atualização concluída"
        else logger WARNING "Problema na verificação de atualização"
      else mret tt);;
     let interval := dict_get_default version_info "update_check_interval" (JNum 86400) in
     match as_number interval with
     | Some n => sleep_in_slices fuel running 0 n 0 []
     | None => raise TypeError
     end)
    (fun _ => logger ERROR "Erro no agendador de atualizações";;
              sleep;;
              mret (Some [300])).

End UpdateScheduler.

(** The seconds slept in all. *)
Definition seconds (l : list Z) : Z := foldr Z.add 0 l.

(** ** A concrete installation and world

    The running example of the end-to-end scenarios: version 1.0.0 is
    installed, the feed publishes v1.1.0 with a zip asset and a checksum
    asset, service control succeeds and the service log is clean. The
    library functions are stand-ins that suffice for the scenarios (one
    digest for every payload, timestamps written as [T] and a number of
    microseconds). The variations below change one collaborator at a
    time. *)

Module Demo.

Definition release : ReleaseInfo :=
  {| tag_name := Some "v1.1.0";
     body := Some "notes";
     published_at := Some "2024-02-01T10:00:00Z";
     zipball_url := Some "https://feed/zipball";
     assets :=
       [ {| asset_name := Some "monitor-1.1.0.zip";
            browser_download_url := Some "https://feed/monitor.zip" |};
         {| asset_name := Some "monitor-1.1.0.zip.SHA256";
            browser_download_url := Some "https://feed/monitor.sha" |} ] |}.

Definition clean_log : LogFile :=
  {| read_text := fun _ => TextLines ["INFO service started"];
     read_binary := Some "INFO service started" |}.

Definition critical_log : LogFile :=
  {| read_text := fun _ => TextLines ["INFO service started"; "CRITICAL database unreachable"];
     read_binary := Some "CRITICAL database unreachable" |}.

Definition unreadable_log : LogFile :=
  {| read_text := fun _ => TextDecodeError; read_binary := None |}.

(** The archive the feed serves: one top-level directory, as in a
    source archive. *)
Definition update_tree : Listing :=
  [("monitor-1.1.0",
    Dir [("README.md", File "readme");
         (MAIN_FILE, File "new code");
         ("requirements.txt", File "requests>=2.31")])].

(** An archive without any of the files the installer looks for. *)
Definition docs_tree : Listing := [("docs", Dir [("README.md", File "readme")])].

(** An archive with a directory named like an updatable file. *)
Definition odd_tree : Listing := [("requirements.txt", Dir [("base.txt", File "requests")])].

Definition parse_iso (s : string) : iso_parse :=
  match s with
  | String "T" r =>
      match PyStr.int r with
      | Some t => IsoAware t
      | None => IsoInvalid
      end
  | _ => IsoInvalid
  end.

(** Every interaction takes one microsecond; timestamps are written as
    [T] followed by the microsecond count. *)
Definition world : World :=
  {| clock := fun n => 1700000000000000 + Z.of_nat n;
     isoformat := fun t => "T" +:+ pretty t;
     fromisoformat := parse_iso;
     strftime := fun t => pretty t;
     http_get_json := fun _ _ => Some release;
     http_get_text := fun _ _ => Some "ABCDEF  monitor-1.1.0.zip";
     http_get_stream := fun _ _ => StreamBody "PK-1.1.0";
     sc := fun _ verb =>
             match verb with
             | ScQuery => ScDone 0 "STATE : 4 RUNNING" ""
             | _ => ScDone 0 "" ""
             end;
     service_log := fun _ => Some clean_log;
     sha256_hexdigest := fun _ => "abcdef";
     zip_extractall := fun _ _ => Some update_tree;
     decode_utf8_ignore := fun s => s |}.

Definition with_log (lf : option LogFile) (w : World) : World :=
  {| clock := clock w; isoformat := isoformat w; fromisoformat := fromisoformat w;
     strftime := strftime w; http_get_json := http_get_json w;
     http_get_text := http_get_text w; http_get_stream := http_get_stream w;
     sc := sc w; service_log := fun _ => lf;
     sha256_hexdigest := sha256_hexdigest w; zip_extractall := zip_extractall w;
     decode_utf8_ignore := decode_utf8_ignore w |}.

Definition with_tree (t : Listing) (w : World) : World :=
  {| clock := clock w; isoformat := isoformat w; fromisoformat := fromisoformat w;
     strftime := strftime w; http_get_json := http_get_json w;
     http_get_text := http_get_text w; http_get_stream := http_get_stream w;
     sc := sc w; service_log := service_log w;
     sha256_hexdigest := sha256_hexdigest w; zip_extractall := fun _ _ => Some t;
     decode_utf8_ignore := decode_utf8_ignore w |}.

Definition with_digest (d : string) (w : World) : World :=
  {| clock := clock w; isoformat := isoformat w; fromisoformat := fromisoformat w;
     strftime := strftime w; http_get_json := http_get_json w;
     http_get_text := http_get_text w; http_get_stream := http_get_stream w;
     sc := sc w; service_log := service_log w;
     sha256_hexdigest := fun _ => d; zip_extractall := zip_extractall w;
     decode_utf8_ignore := decode_utf8_ignore w |}.

(** The feed cannot be reached. *)
Definition offline (w : World) : World :=
  {| clock := clock w; isoformat := isoformat w; fromisoformat := fromisoformat w;
     strftime := strftime w; http_get_json := fun _ _ => None;
     http_get_text := fun _ _ => None; http_get_stream := fun _ _ => StreamError;
     sc := sc w; service_log := service_log w;
     sha256_hexdigest := sha256_hexdigest w; zip_extractall := zip_extractall w;
     decode_utf8_ignore := decode_utf8_ignore w |}.

Definition record (retention : Z) (last_check : jval) : gmap string jval :=
  list_to_map
    [("version", JStr "1.0.0");
     ("update_url", JStr "https://feed/latest");
     ("auto_update_enabled", JBool true);
     ("update_check_interval", JNum 86400);
     ("last_update_check", last_check);
     ("backup_retention_days", JNum retention)].

Definition installation (r : gmap string jval) : State :=
  {| base := list_to_map [(VERSION_FILE, Json r);
                          (MAIN_FILE, Bytes "old code");
                          (".env", Bytes "SECRET=1")];
     backups := ∅;
     temp := None;
     tick := 0;
     requests := [];
     journal := [] |}.


Definition with_backups (b : gmap string (Archive * Z)) (st : State) : State :=
  set_backups (fun _ => b) st.

(** The installation once the artifact is in the scratch directory. *)
Definition downloaded (st : State) : State :=
  set_temp (Some {| downloads := {[ "update_v1.1.0.zip" := "PK-1.1.0" ]};
                    extracted := None |}) st.

Definition candidate : UpdateInfo :=
  {| ui_version := Some "1.1.0";
     ui_download_url := Some "https://feed/monitor.zip";
     ui_release_notes := Some "notes";
     ui_published_at := Some "2024-02-01T10:00:00Z";
     ui_checksum := Some "ABCDEF" |}.

End Demo.

(** ** Further installations and worlds

    Variations of the running example for the paths a cycle can take:
    an interrupted download, a candidate without a checksum, an archive
    that can only be installed by half, a long service log, and records
    that switch the updater off or carry an interval that is not a
    number. *)

Module Cases.

(** A backup archive of two files. *)
Definition two_files : Archive :=
  [(MAIN_FILE, Bytes "old code"); (".env", Bytes "SECRET=1")].

(** The connection breaks after [partial] has been received. *)
Definition broken_stream (partial : string) (w : World) : World :=
  {| clock := clock w; isoformat := isoformat w; fromisoformat := fromisoformat w;
     strftime := strftime w; http_get_json := http_get_json w;
     http_get_text := http_get_text w;
     http_get_stream := fun _ _ => StreamBroken partial;
     sc := sc w; service_log := service_log w;
     sha256_hexdigest := sha256_hexdigest w; zip_extractall := zip_extractall w;
     decode_utf8_ignore := decode_utf8_ignore w |}.

(** A candidate of a release without a checksum asset. *)
Definition unsigned : UpdateInfo :=
  {| ui_version := Some "1.1.0";
     ui_download_url := Some "https://feed/monitor.zip";
     ui_release_notes := Some "notes";
     ui_published_at := None;
     ui_checksum := None |}.

(** A release whose first zip asset has no download URL. *)
Definition release_without_url : ReleaseInfo :=
  {| tag_name := Some "v2.0";
     body := None;
     published_at := None;
     zipball_url := Some "https://feed/zipball";
     assets :=
       [ {| asset_name := Some "notes.txt";
            browser_download_url := Some "https://feed/notes.txt" |};
         {| asset_name := Some "monitor.zip";
            browser_download_url := None |};
         {| asset_name := Some "other.zip";
            browser_download_url := Some "https://feed/other.zip" |} ] |}.

(** An archive with the main file next to a directory named like an
    updatable file. *)
Definition half_tree : Listing :=
  [(MAIN_FILE, File "new code");
   ("requirements.txt", Dir [("base.txt", File "requests")])].

(** A log whose only marker is older than the last fifty lines. *)
Definition heartbeats : list string := replicate 50 "INFO heartbeat".
Definition long_log : LogFile :=
  {| read_text := fun _ => TextLines ("CRITICAL database unreachable" :: heartbeats);
     read_binary := None |}.

Definition switched_off : gmap string jval :=
  <["auto_update_enabled" := JBool false]>
    (<["update_check_interval" := JNum 90]> (Demo.record 7 JNull)).

Definition bad_interval : gmap string jval :=
  <["update_check_interval" := JStr "daily"]> (Demo.record 7 JNull).

(** The record holds something [json.load] rejects. *)
Definition corrupt (st : State) : State :=
  set_base (insert VERSION_FILE (Bytes "{")) st.

End Cases.

(** What the persisted record says is installed: the [version] entry of
    what [load_version_info] would answer. *)
Definition recorded_version (st : State) : jval :=
  match base st !! VERSION_FILE with
  | Some (Json d) => dict_get d "version"
  | Some (Bytes _) => JNull
  | None => JStr "1.0.0"
  end.

Definition recorded_last_check (st : State) : jval :=
  match base st !! VERSION_FILE with
  | Some (Json d) => dict_get d "last_update_check"
  | _ => JNull
  end.

(** The log file cannot be read: every text read fails to decode and the
    binary read raises. *)
Definition unreadable (lf : LogFile) : Prop :=
  (forall enc, enc ∈ encodings -> read_text lf enc = TextDecodeError)
  /\ read_binary lf = None.

(** The entries a backup of the files [files] holds: every name of
    [names] that is there, with its content, in order. *)
Definition archive_of (files : gmap string content) (names : list string) : Archive :=
  omap (fun name => pair name <$> files !! name) names.

(** The throttle of [check_for_updates] lets the check through, having
    read the clock [reads] times: there is no last check, or the last
    check is an aware timestamp at least the interval before the moment
    [now] at which the clock is read. *)
Inductive throttle_open (w : World) (version_info : gmap string jval) (now : Z) : nat -> Prop :=
  | never_checked :
      truthy (dict_get version_info "last_update_check") = false ->
      throttle_open w version_info now 0
  | interval_elapsed s t n :
      dict_get version_info "last_update_check" = JStr s -> s <> "" ->
      fromisoformat w s = IsoAware t ->
      as_number (dict_get_default version_info "update_check_interval" (JNum 86400)) = Some n ->
      n * USEC <= now - t ->
      throttle_open w version_info now 1.

(** [in_tree top d]: [d] is the listing of [top] itself or of a directory
    somewhere below it. *)
Inductive in_tree : Listing -> Listing -> Prop :=
  | in_tree_top l : in_tree l l
  | in_tree_sub l n sub d : (n, Dir sub) ∈ l -> in_tree sub d -> in_tree l d.

(** No directory of the listing bears one of the names. *)
Definition no_directory_named (names : list string) (l : Listing) : Prop :=
  forall name sub, name ∈ names -> lookup_entry name l <> Some (Dir sub).

(** What copying the files [names] that exist in [d] makes of one file of
    the installation. *)
Definition copied (d : Listing) (names : list string) (files : gmap string content)
    (name : string) : option content :=
  match lookup_entry name d with
  | Some (File b) => if decide (name ∈ names) then Some (Bytes b) else files !! name
  | _ => files !! name
  end.

(** ** Relating the states before and after a computation *)

(** [respects R m]: whatever state [m] starts in and however it ends, the
    final state is related to the initial one by [R]. *)
Definition respects (R : relation State) {A} (m : M A) : Prop :=
  forall st, R st (m st).2.

(** The relation of two states that agree on one observation. *)
Definition same {X} (proj : State -> X) : relation State :=
  fun st st' => proj st' = proj st.

(** [m] never raises. *)
Definition total {A} (m : M A) : Prop :=
  forall st, exists a, (m st).1 = Ret a.

(** * Properties *)

(** ** Version comparison *)

Lemma tuple_gt_lex a b : tuple_gt a b = true <-> lex_greater a b.
Proof.
  revert b. induction a as [|x a IH]; intros [|y b]; simpl.
  - split; [discriminate | inversion 1].
  - split; [discriminate | inversion 1].
  - split; [constructor | reflexivity].
  - destruct (Z.eqb_spec x y) as [->|Hne].
    + rewrite IH. split; [apply lex_tail|].
      inversion 1; subst; [lia | assumption].
    + rewrite Z.ltb_lt. split; [apply lex_head|].
      inversion 1; subst; [assumption | congruence].
Qed.




(** ** Reasoning about computations *)

Global Instance same_preorder {X} (proj : State -> X) : PreOrder (same proj).
Proof.
  split; [intros st; reflexivity|].
  intros a b c Hab Hbc. unfold same in *. congruence.
Qed.

Lemma run_eq {A} (x : outcome A * State) (r : outcome A) : x.1 = r -> x = (r, x.2).
Proof. destruct x as [r' st]. simpl. intros ->. reflexivity. Qed.

Section Respects.

Context (R : relation State) `{!PreOrder R}.

Lemma respects_ret {A} (a : A) : respects R (mret a).
Proof. intros st. reflexivity. Qed.

Lemma respects_raise {A} (e : exn) : respects R (@raise A e).
Proof. intros st. reflexivity. Qed.

Lemma respects_get_state : respects R get_state.
Proof. intros st. reflexivity. Qed.

Lemma respects_modify f : (forall st, R st (f st)) -> respects R (modify f).
Proof. intros H st. apply H. Qed.

Lemma respects_bind {A B} (m : M A) (k : A -> M B) :
  respects R m -> (forall a, respects R (k a)) -> respects R (m ≫= k).
Proof.
  intros Hm Hk st. specialize (Hm st).
  unfold mbind, M_bind. destruct (m st) as [[a|e] st1]; simpl in *.
  - etransitivity; [exact Hm | apply Hk].
  - exact Hm.
Qed.

Lemma respects_try_except {A} (m : M A) (h : exn -> M A) :
  respects R m -> (forall e, respects R (h e)) -> respects R (try_except m h).
Proof.
  intros Hm Hh st. specialize (Hm st).
  unfold try_except. destruct (m st) as [[a|e] st1]; simpl in *.
  - exact Hm.
  - etransitivity; [exact Hm | apply Hh].
Qed.

Lemma respects_try_finally {A} (m : M A) (fin : M unit) :
  respects R m -> respects R fin -> respects R (try_finally m fin).
Proof.
  intros Hm Hf st. specialize (Hm st).
  unfold try_finally. destruct (m st) as [r st1]; simpl in *.
  specialize (Hf st1). destruct (fin st1) as [[[]|e] st2]; simpl in *;
    etransitivity; eassumption.
Qed.

End Respects.

Create HintDb respects.

Ltac head_of t :=
  lazymatch t with
  | ?f _ => head_of f
  | _ => t
  end.

(** One step of a proof of [respects]: follow the structure of the
    computation, splitting on what it inspects. *)
Ltac respects_step :=
  lazymatch goal with
  | |- respects _ (mret _) => apply respects_ret; typeclasses eauto
  | |- respects _ (raise _) => apply respects_raise; typeclasses eauto
  | |- respects _ get_state => apply respects_get_state; typeclasses eauto
  | |- respects _ (mbind _ _) => apply respects_bind; [typeclasses eauto | | intros ?]
  | |- respects _ (try_except _ _) =>
      apply respects_try_except; [typeclasses eauto | | intros ?]
  | |- respects _ (try_finally _ _) =>
      apply respects_try_finally; [typeclasses eauto | | ]
  | |- respects _ (match ?x with _ => _ end) => destruct x
  | |- respects _ (let _ := _ in _) => cbv zeta
  | |- respects _ (modify _) =>
      apply respects_modify; intros ?; unfold same; cbn; try reflexivity
  | |- respects _ (logger _ _) => unfold logger
  | |- respects _ next_tick =>
      let st := fresh "st" in intros st; unfold same; cbn; try reflexivity
  | |- respects _ ?m =>
      first [ solve [eauto with respects]
            | let h := head_of m in unfold h ]
  end.

Ltac respects_auto := repeat respects_step.

(** Unfolding the primitive computations. *)
Ltac munfold :=
  repeat (progress unfold mbind, M_bind, mret, M_ret, try_except, try_finally,
            raise, modify, get_state, logger, next_tick, datetime_now,
            file_mtime, sleep in * ).

Ltac msimpl :=
  munfold;
  cbn [base backups temp tick requests journal set_base set_backups set_temp
       bump add_request add_journal fst snd downloads extracted
       from_option id negb] in *.

Section Totality.

Lemma total_ret {A} (a : A) : total (mret a).
Proof. intros st. exists a. reflexivity. Qed.

Lemma total_modify f : total (modify f).
Proof. intros st. exists tt. reflexivity. Qed.

Lemma total_bind {A B} (m : M A) (k : A -> M B) :
  total m -> (forall a, total (k a)) -> total (m ≫= k).
Proof.
  intros Hm Hk st. destruct (Hm st) as [a Ha].
  unfold mbind, M_bind. destruct (m st) as [[a'|e] st1]; simpl in Ha; [|discriminate].
  apply Hk.
Qed.

Lemma total_try_except {A} (m : M A) (h : exn -> M A) :
  (forall e, total (h e)) -> total (try_except m h).
Proof.
  intros Hh st. unfold try_except.
  destruct (m st) as [[a|e] st1]; [exists a; reflexivity | apply Hh].
Qed.

Lemma total_try_finally {A} (m : M A) (fin : M unit) :
  total m -> total fin -> total (try_finally m fin).
Proof.
  intros Hm Hf st. unfold try_finally.
  destruct (Hm st) as [a Ha]. destruct (m st) as [r st1]. simpl in Ha. subst r.
  destruct (Hf st1) as [u Hu]. destruct (fin st1) as [[[]|e] st2]; simpl in Hu;
    [exists a; reflexivity | discriminate].
Qed.

End Totality.

Ltac total_step :=
  lazymatch goal with
  | |- total (mret _) => apply total_ret
  | |- total (modify _) => apply total_modify
  | |- total (logger _ _) => apply total_modify
  | |- total (mbind _ _) => apply total_bind; [|intros ?]
  | |- total (try_except _ _) => apply total_try_except; intros ?
  | |- total (try_finally _ _) => apply total_try_finally
  | |- total (match ?x with _ => _ end) => destruct x
  end.

(** ** Scoped cleanup of the scratch directory *)

Section Cleanup.

Context (w : World).



Lemma rollback_update_total p : total (rollback_update w p).
Proof. unfold rollback_update. repeat total_step. Qed.

Lemma on_exception_total bp e : total (on_exception w bp e).
Proof.
  unfold on_exception. repeat total_step. apply rollback_update_total.
Qed.

Lemma cleanup_temp_files_total : total cleanup_temp_files.
Proof. unfold cleanup_temp_files. repeat total_step. Qed.

Lemma perform_update_total : total (perform_update w).
Proof.
  unfold perform_update. apply total_try_finally;
    [apply total_try_except, on_exception_total | apply cleanup_temp_files_total].
Qed.

End Cleanup.



(** ** The log check of the validator *)

Section LogCheck.

Context (w : World).

(** The loop over the encodings leaves the state alone; it ends with the
    tail of the first successful read, with no lines when every read
    failed to decode, and with an exception when a read failed
    otherwise. *)
Lemma read_log_lines_spec lf encs st :
  exists r, read_log_lines lf encs st = (r, st) /\
    match r with
    | Ret lines =>
        (lines = [] /\ forall enc, enc ∈ encs -> read_text lf enc = TextDecodeError)
        \/ (exists enc ls, enc ∈ encs /\ read_text lf enc = TextLines ls
                           /\ lines = last_n 50 ls)
    | Raise _ => exists enc, enc ∈ encs /\ read_text lf enc = TextOSError
    end.
Proof.
  induction encs as [|enc encs IH]; simpl.
  - eexists; split; [reflexivity|]. left. split; [reflexivity|]. inversion 1.
  - destruct (read_text lf enc) eqn:Henc.
    + eexists; split; [reflexivity|]. right. exists enc, lines.
      repeat split; [left | assumption].
    + destruct IH as (r & -> & Hr). eexists; split; [reflexivity|].
      destruct r as [lines|e].
      * destruct Hr as [[-> Hall]|(enc' & ls & Hin & Hread & ->)].
        -- left. split; [reflexivity|]. intros enc' Hin.
           apply elem_of_cons in Hin as [->|Hin]; auto.
        -- right. exists enc', ls. repeat split; [right|]; assumption.
      * destruct Hr as (enc' & Hin & Hread). exists enc'. split; [right|]; assumption.
    + eexists; split; [reflexivity|]. exists enc. split; [left | assumption].
Qed.

Lemma last_n_subseteq {A} n (l : list A) x : x ∈ last_n n l -> x ∈ l.
Proof. unfold last_n. intros H. eapply subseteq_drop, H. Qed.

Lemma log_missing st :
  service_log w (tick st) = None ->
  _has_critical_errors_in_logs w st = (Ret false, bump st).
Proof.
  intros H. unfold _has_critical_errors_in_logs. msimpl. rewrite H. reflexivity.
Qed.

Lemma log_unreadable st lf :
  service_log w (tick st) = Some lf ->
  (forall enc, enc ∈ encodings -> read_text lf enc = TextDecodeError) ->
  read_binary lf = None ->
  _has_critical_errors_in_logs w st
  = (Ret false, add_journal WARNING "Não foi possível ler o arquivo de log" (bump st)).
Proof.
  intros Hlog Htext Hbin. unfold _has_critical_errors_in_logs. msimpl.
  rewrite Hlog.
  destruct (read_log_lines_spec lf encodings (bump st)) as (r & -> & Hr).
  destruct r as [lines|e].
  - destruct Hr as [[-> _]|(enc & ls & Hin & Hread & _)].
    + rewrite Hbin. reflexivity.
    + rewrite (Htext enc Hin) in Hread. discriminate.
  - destruct Hr as (enc & Hin & Hread).
    rewrite (Htext enc Hin) in Hread. discriminate.
Qed.

(** The check answers true only when a read raised something else than
    a decoding error (the outer handler) or a line it obtained carries a
    marker. *)
Lemma log_critical_only st :
  (_has_critical_errors_in_logs w st).1 = Ret true ->
  exists lf, service_log w (tick st) = Some lf /\
    ((exists enc, enc ∈ encodings /\ read_text lf enc = TextOSError)
     \/ (exists enc ls line, enc ∈ encodings /\ read_text lf enc = TextLines ls
                             /\ line ∈ ls /\ has_pattern line = true)
     \/ (exists content line,
           read_binary lf = Some content
           /\ line ∈ PyStr.split_on "010" (decode_utf8_ignore w content)
           /\ has_pattern line = true)).
Proof.
  unfold _has_critical_errors_in_logs. msimpl.
  destruct (service_log w (tick st)) as [lf|]; [|discriminate].
  intros H. exists lf. split; [reflexivity|].
  destruct (read_log_lines_spec lf encodings (bump st)) as (r & Hrun & Hr).
  rewrite Hrun in H. destruct r as [lines|e].
  - destruct Hr as [[-> _]|(enc & ls & Hin & Hread & ->)].
    + destruct (read_binary lf) as [content|]; [|discriminate].
      cbn in H. injection H as H. apply existsb_exists in H as (line & Hl & Hp).
      right. right. exists content, line. repeat split; [|assumption].
      apply list_elem_of_In in Hl. eapply last_n_subseteq, Hl.
    + destruct (last_n 50 ls) as [|l0 tl] eqn:Hlast.
      * destruct (read_binary lf) as [content|]; [|discriminate].
        cbn in H. injection H as H. apply existsb_exists in H as (line & Hl & Hp).
        right. right. exists content, line. repeat split; [|assumption].
        apply list_elem_of_In in Hl. eapply last_n_subseteq, Hl.
      * cbn in H. injection H as H.
        change (existsb has_pattern (l0 :: tl) = true) in H.
        apply existsb_exists in H as (line & Hl & Hp).
        right. left. exists enc, ls, line. repeat split; try assumption.
        apply list_elem_of_In in Hl. rewrite <- Hlast in Hl.
        eapply last_n_subseteq, Hl.
  - destruct Hr as (enc & Hin & Hread). left. exists enc. auto.
Qed.

End LogCheck.

Lemma validate_update_log_step (w : World) (st : State) out err rc out' err' :
  sc w (tick st) ScStart = ScDone 0 out err ->
  sc w (2 + tick st)%nat ScQuery = ScDone rc out' err' ->
  PyStr.contains "RUNNING" out' = true ->
  (service_log w (3 + tick st)%nat = None
   \/ exists lf, service_log w (3 + tick st)%nat = Some lf /\ unreadable lf) ->
  (validate_update w st).1 = Ret true.
Proof.
  intros Hstart Hquery Hrun Hlog. cbn [Nat.add] in *.
  unfold validate_update, _start_service, _is_service_running, subprocess_run.
  msimpl. rewrite Hstart. cbn. rewrite Hquery. cbn. rewrite Hrun. cbn.
  match goal with
  | |- context [_has_critical_errors_in_logs w ?s] => set (st3 := s)
  end.
  assert (tick st3 = S (S (S (tick st)))) as Htick by reflexivity.
  rewrite <- Htick in Hlog.
  destruct Hlog as [Hnone|(lf & Hsome & Htext & Hbin)].
  - rewrite (log_missing w st3 Hnone). reflexivity.
  - rewrite (log_unreadable w st3 lf Hsome Htext Hbin). reflexivity.
Qed.

(** C10. When the service log does not exist, and when it exists but
    cannot be read (each of the four text reads fails to decode and the
    binary read raises), [_has_critical_errors_in_logs] answers false, so
    a validation whose start and query steps succeeded passes; the check
    answers true only when a read raised another exception, which its
    outer handler turns into true, or when a line it read carries one of
    the markers. *)
Theorem log_check_passes_without_log (w : World) (st : State) :
  (service_log w (tick st) = None ->
   (_has_critical_errors_in_logs w st).1 = Ret false)
  /\ (forall lf, service_log w (tick st) = Some lf -> unreadable lf ->
                 (_has_critical_errors_in_logs w st).1 = Ret false)
  /\ (forall out err rc out' err',
        sc w (tick st) ScStart = ScDone 0 out err ->
        sc w (2 + tick st)%nat ScQuery = ScDone rc out' err' ->
        PyStr.contains "RUNNING" out' = true ->
        (service_log w (3 + tick st)%nat = None
         \/ exists lf, service_log w (3 + tick st)%nat = Some lf /\ unreadable lf) ->
        (validate_update w st).1 = Ret true)
  /\ ((_has_critical_errors_in_logs w st).1 = Ret true ->
      exists lf, service_log w (tick st) = Some lf /\
        ((exists enc, enc ∈ encodings /\ read_text lf enc = TextOSError)
         \/ (exists enc ls line, enc ∈ encodings /\ read_text lf enc = TextLines ls
                                 /\ line ∈ ls /\ has_pattern line = true)
         \/ (exists content line,
               read_binary lf = Some content
               /\ line ∈ PyStr.split_on "010" (decode_utf8_ignore w content)
               /\ has_pattern line = true))).
Proof.
  split; [|split; [|split]].
  - intros H. rewrite (log_missing w st H). reflexivity.
  - intros lf Hsome [Htext Hbin]. rewrite (log_unreadable w st lf Hsome Htext Hbin).
    reflexivity.
  - apply validate_update_log_step.
  - apply log_critical_only.
Qed.

Lemma log_check_passes_without_log_witness :
  (_has_critical_errors_in_logs (Demo.with_log None Demo.world)
     (Demo.installation (Demo.record 7 JNull))).1 = Ret false
  /\ (validate_update (Demo.with_log (Some Demo.unreadable_log) Demo.world)
        (Demo.installation (Demo.record 7 JNull))).1 = Ret true.
Proof.
  split.
  - apply (proj1 (log_check_passes_without_log _ _)). reflexivity.
  - eapply (proj1 (proj2 (proj2 (log_check_passes_without_log _ _)))).
    + reflexivity.
    + reflexivity.
    + vm_compute. reflexivity.
    + right. exists Demo.unreadable_log. split; [reflexivity|].
      split; [intros enc _|]; reflexivity.
Defined.

(** ** The version record *)

Section VersionStore.

Context (w : World).

Lemma load_version_info_eq st :
  load_version_info w st =
  match base st !! VERSION_FILE with
  | Some (Json d) => (Ret d, st)
  | Some (Bytes _) =>
      (Ret ∅, add_journal ERROR "Erro ao carregar informações de versão" st)
  | None =>
      (Ret (default_version w (clock w (tick st))),
       set_base (insert VERSION_FILE (Json (default_version w (clock w (tick st)))))
                (bump st))
  end.
Proof.
  unfold load_version_info, save_version_info. msimpl.
  destruct (base st !! VERSION_FILE) as [[b|d]|]; reflexivity.
Qed.

Lemma save_version_info_eq d st :
  save_version_info d st = (Ret true, set_base (insert VERSION_FILE (Json d)) st).
Proof. reflexivity. Qed.

Lemma load_version_info_total : total (load_version_info w).
Proof.
  intros st. rewrite load_version_info_eq.
  destruct (base st !! VERSION_FILE) as [[b|d]|]; eexists; reflexivity.
Qed.

Lemma load_version_info_backups : respects (same backups) (load_version_info w).
Proof.
  intros st. rewrite load_version_info_eq.
  destruct (base st !! VERSION_FILE) as [[b|d]|]; reflexivity.
Qed.

Lemma load_version_info_temp : respects (same temp) (load_version_info w).
Proof.
  intros st. rewrite load_version_info_eq.
  destruct (base st !! VERSION_FILE) as [[b|d]|]; reflexivity.
Qed.

Lemma load_version_info_requests : respects (same requests) (load_version_info w).
Proof.
  intros st. rewrite load_version_info_eq.
  destruct (base st !! VERSION_FILE) as [[b|d]|]; reflexivity.
Qed.


End VersionStore.

Global Hint Resolve load_version_info_backups load_version_info_temp
  load_version_info_requests : respects.

(** ** Retention *)

Section Retention.

Context (w : World).

Lemma prune_fold_spec cutoff st0 (m : gmap string (Archive * Z)) :
  let r := map_fold (prune_step cutoff) st0 m in
  (forall k, backups r !! k =
             match m !! k with
             | Some f => if glob_backup k && (f.2 <? cutoff) then None
                         else backups st0 !! k
             | None => backups st0 !! k
             end)
  /\ base r = base st0 /\ temp r = temp st0 /\ tick r = tick st0
  /\ requests r = requests st0.
Proof.
  apply (map_fold_weak_ind
           (fun r m =>
              (forall k, backups r !! k =
                         match m !! k with
                         | Some f => if glob_backup k && (f.2 <? cutoff) then None
                                     else backups st0 !! k
                         | None => backups st0 !! k
                         end)
              /\ base r = base st0 /\ temp r = temp st0 /\ tick r = tick st0
              /\ requests r = requests st0)).
  - split; [|auto]. intros k. rewrite lookup_empty. reflexivity.
  - intros i x m' r Hi (Hb & Hbase & Htemp & Htick & Hreq).
    unfold prune_step.
    destruct (glob_backup i && (x.2 <? cutoff)) eqn:Hexp; cbn.
    + split; [|auto]. intros k. destruct (decide (i = k)) as [->|Hne].
      * rewrite lookup_delete_eq, lookup_insert_eq, Hexp. reflexivity.
      * rewrite lookup_delete_ne, lookup_insert_ne by assumption. apply Hb.
    + split; [|auto]. intros k. destruct (decide (i = k)) as [->|Hne].
      * rewrite lookup_insert_eq, Hexp. rewrite Hb, Hi. reflexivity.
      * rewrite lookup_insert_ne by assumption. apply Hb.
Qed.

(** What [_cleanup_old_backups] does, by the retention value it reads. *)
Lemma _cleanup_old_backups_eq st :
  _cleanup_old_backups w st =
  let '(r, st1) := load_version_info w st in
  match r with
  | Ret version_info =>
      match as_number (dict_get_default version_info "backup_retention_days" (JNum 7)) with
      | Some days =>
          (Ret tt,
           map_fold (prune_step (clock w (tick st1) - days * DAY)) (bump st1)
                    (backups st1))
      | None =>
          (Ret tt, add_journal ERROR "Erro ao limpar backups antigos" (bump st1))
      end
  | Raise e => (Ret tt, add_journal ERROR "Erro ao limpar backups antigos" st1)
  end.
Proof.
  unfold _cleanup_old_backups. msimpl.
  destruct (load_version_info w st) as [[vi|e] st1]; [|reflexivity].
  destruct (as_number _); reflexivity.
Qed.

Lemma _cleanup_old_backups_total : total (_cleanup_old_backups w).
Proof. unfold _cleanup_old_backups. repeat total_step. Qed.

(** Pruning deletes the expired archives and leaves the others. *)
Lemma _cleanup_old_backups_prunes st version_info st1 days :
  load_version_info w st = (Ret version_info, st1) ->
  as_number (dict_get_default version_info "backup_retention_days" (JNum 7)) = Some days ->
  forall k,
    backups (_cleanup_old_backups w st).2 !! k =
    match backups st !! k with
    | Some f =>
        if glob_backup k && (f.2 <? clock w (tick st1) - days * DAY) then None
        else Some f
    | None => None
    end.
Proof.
  intros Hload Hdays k. rewrite _cleanup_old_backups_eq, Hload, Hdays.
  pose proof (load_version_info_backups w st) as Hb.
  unfold same in Hb. rewrite Hload in Hb. cbn in Hb.
  destruct (prune_fold_spec (clock w (tick st1) - days * DAY) (bump st1) (backups st1))
    as (Hk & _).
  cbn. rewrite Hk. cbn. rewrite Hb.
  destruct (backups st !! k) as [f|]; [|reflexivity].
  destruct (glob_backup k && _); reflexivity.
Qed.


End Retention.

(** ** Backup and restore *)

Section Backup.

Context (w : World).

Lemma zip_write_existing_spec names acc st :
  exists st',
    zip_write_existing names acc st = (Ret (acc ++ archive_of (base st) names), st')
    /\ base st' = base st /\ backups st' = backups st /\ temp st' = temp st
    /\ tick st' = tick st /\ requests st' = requests st.
Proof.
  revert acc st. induction names as [|n names IH]; intros acc st; simpl.
  - exists st. unfold archive_of. simpl. rewrite app_nil_r. repeat split; reflexivity.
  - msimpl. unfold archive_of in *. simpl.
    destruct (base st !! n) as [c|] eqn:Hn; simpl.
    + destruct (IH (acc ++ [(n, c)]) (add_journal DEBUG "Adicionado ao backup" st))
        as (st' & Hrun & Hrest).
      exists st'. msimpl. rewrite Hrun, <- app_assoc.
      split; [reflexivity | exact Hrest].
    + destruct (IH acc st) as (st' & Hrun & Hrest).
      exists st'. rewrite Hrun. split; [reflexivity | exact Hrest].
Qed.

Lemma load_version_info_present st c :
  base st !! VERSION_FILE = Some c -> base (load_version_info w st).2 = base st.
Proof.
  intros H. rewrite load_version_info_eq, H. destruct c; reflexivity.
Qed.

Lemma load_version_info_creates st :
  is_Some (base (load_version_info w st).2 !! VERSION_FILE).
Proof.
  rewrite load_version_info_eq.
  destruct (base st !! VERSION_FILE) as [[b|d]|] eqn:H; cbn.
  - rewrite H. eauto.
  - rewrite H. eauto.
  - rewrite lookup_insert_eq. eauto.
Qed.

(** Pruning only ever deletes archives. *)
Lemma _cleanup_old_backups_shrinks st k x :
  backups (_cleanup_old_backups w st).2 !! k = Some x -> backups st !! k = Some x.
Proof.
  rewrite _cleanup_old_backups_eq.
  pose proof (load_version_info_backups w st) as Hb. unfold same in Hb.
  destruct (load_version_info w st) as [[vi|e] st1]; cbn in Hb; [|cbn; congruence].
  destruct (as_number _) as [days|]; [|cbn; congruence].
  destruct (prune_fold_spec (clock w (tick st1) - days * DAY) (bump st1) (backups st1))
    as (Hk & _).
  cbn. rewrite Hk. cbn. rewrite Hb.
  destruct (backups st !! k) as [f|]; [|discriminate].
  destruct (glob_backup k && _); [discriminate | trivial].
Qed.

Lemma _cleanup_old_backups_base st c :
  base st !! VERSION_FILE = Some c -> base (_cleanup_old_backups w st).2 = base st.
Proof.
  intros H. rewrite _cleanup_old_backups_eq.
  pose proof (load_version_info_present st c H) as Hb.
  destruct (load_version_info w st) as [[vi|e] st1]; cbn in Hb; [|exact Hb].
  destruct (as_number _) as [days|]; [|exact Hb].
  destruct (prune_fold_spec (clock w (tick st1) - days * DAY) (bump st1) (backups st1))
    as (_ & Hbase & _).
  cbn. rewrite Hbase. exact Hb.
Qed.

Lemma _cleanup_old_backups_temp : respects (same temp) (_cleanup_old_backups w).
Proof.
  intros st. unfold same. rewrite _cleanup_old_backups_eq.
  pose proof (load_version_info_temp w st) as Hb. unfold same in Hb.
  destruct (load_version_info w st) as [[vi|e] st1]; cbn in Hb; [|exact Hb].
  destruct (as_number _) as [days|]; [|exact Hb].
  destruct (prune_fold_spec (clock w (tick st1) - days * DAY) (bump st1) (backups st1))
    as (_ & _ & Ht & _).
  cbn. rewrite Ht. exact Hb.
Qed.

(** [create_backup] always answers a name. The files of the installation
    are as [load_version_info] leaves them, and the archive under that
    name, when pruning has not deleted it already, holds the well-known
    files that exist. *)
Lemma create_backup_spec st :
  exists name st',
    create_backup w st = (Ret (Some name), st')
    /\ base st' = base (load_version_info w st).2
    /\ temp st' = temp st
    /\ (forall a m, backups st' !! name = Some (a, m) ->
                    a = archive_of (base st') files_to_backup)
    /\ (forall k x, k <> name -> backups st' !! k = Some x -> backups st !! k = Some x).
Proof.
  unfold create_backup. msimpl.
  pose proof (load_version_info_total w st) as [vi Hvi].
  pose proof (load_version_info_backups w st) as Hlb.
  pose proof (load_version_info_temp w st) as Hlt.
  pose proof (load_version_info_creates st) as [c Hc].
  unfold same in *.
  destruct (load_version_info w st) as [r st1]. cbn [fst snd] in *. subst r.
  match goal with
  | |- context [zip_write_existing ?ns ?acc ?s] =>
      destruct (zip_write_existing_spec ns acc s)
        as (st3 & -> & Hbase3 & Hbk3 & Htemp3 & Htick3 & Hreq3)
  end.
  msimpl.
  match goal with
  | |- context [_cleanup_old_backups w ?s] => set (st4 := s)
  end.
  pose proof (_cleanup_old_backups_total w st4) as [[] Hu].
  pose proof (_cleanup_old_backups_shrinks st4) as Hshrink.
  pose proof (_cleanup_old_backups_temp st4) as Htemp5.
  assert (base st4 = base st1) as Hbase4 by (subst st4; cbn; exact Hbase3).
  assert (base (_cleanup_old_backups w st4).2 = base st1) as Hbase5.
  { rewrite (_cleanup_old_backups_base st4 c); [exact Hbase4|].
    rewrite Hbase4. exact Hc. }
  unfold same in Htemp5.
  destruct (_cleanup_old_backups w st4) as [r5 st5]. cbn [fst snd] in *. subst r5.
  eexists _, st5. split; [reflexivity|].
  split; [exact Hbase5|]. split; [subst st4; cbn in *; congruence|]. split.
  - intros a m Ha. apply Hshrink in Ha. subst st4. cbn in Ha.
    rewrite lookup_insert_eq in Ha. injection Ha as <- _.
    rewrite Hbase5. reflexivity.
  - intros k x Hne Hk. apply Hshrink in Hk. subst st4. cbn in Hk.
    rewrite lookup_insert_ne in Hk by congruence. congruence.
Qed.

(** The archive [create_backup] writes outlives the pruning that follows
    when the retention, in days, covers the time between the moment the
    archive is stamped and the moment pruning reads the clock. *)
Lemma create_backup_keeps_archive st d days :
  let st1 := (load_version_info w st).2 in
  base st1 !! VERSION_FILE = Some (Json d) ->
  as_number (dict_get_default d "backup_retention_days" (JNum 7)) = Some days ->
  clock w (S (S (tick st1))) - days * DAY <= clock w (S (tick st1)) ->
  exists name st',
    create_backup w st = (Ret (Some name), st') /\ is_Some (backups st' !! name).
Proof.
  intros st1 Hd Hdays Hclock. subst st1.
  unfold create_backup. msimpl.
  pose proof (load_version_info_total w st) as [vi Hvi].
  destruct (load_version_info w st) as [r st1]. cbn [fst snd] in *. subst r.
  match goal with
  | |- context [zip_write_existing ?ns ?acc ?s] =>
      destruct (zip_write_existing_spec ns acc s)
        as (st3 & -> & Hbase3 & Hbk3 & Htemp3 & Htick3 & Hreq3)
  end.
  msimpl.
  match goal with
  | |- context [_cleanup_old_backups w ?s] => set (st4 := s)
  end.
  assert (load_version_info w st4 = (Ret d, st4)) as Hload4.
  { rewrite load_version_info_eq. subst st4. cbn [base add_journal set_backups bump].
    rewrite Hbase3. cbn [base add_journal bump]. rewrite Hd. reflexivity. }
  pose proof (_cleanup_old_backups_prunes w st4 d st4 days Hload4 Hdays) as Hprune.
  pose proof (_cleanup_old_backups_total w st4) as [[] Hu].
  destruct (_cleanup_old_backups w st4) as [r5 st5]. cbn [fst snd] in *. subst r5.
  eexists _, st5. split; [reflexivity|].
  rewrite Hprune. subst st4. cbn [backups tick add_journal set_backups bump].
  rewrite lookup_insert_eq. cbn [snd]. rewrite Htick3. cbn [tick add_journal bump].
  assert ((clock w (S (tick st1)) <? clock w (S (S (tick st1))) - days * DAY) = false)
    as -> by (apply Z.ltb_ge; lia).
  rewrite andb_false_r. eauto.
Qed.

End Backup.




(** ** Download and checksum *)

Section Download.

Context (w : World).

Lemma truthy_str_Some s : s <> "" -> truthy_str (Some s) = true.
Proof. intros H. simpl. apply negb_true_iff, String.eqb_neq, H. Qed.

(** Verification compares the digest of the file with the expected
    checksum, both in lower case. *)
Lemma _verify_checksum_eq st td name data expected :
  temp st = Some td -> downloads td !! name = Some data ->
  _verify_checksum w name expected st
  = (Ret (bool_decide (PyStr.lower (sha256_hexdigest w data) = PyStr.lower expected)), st).
Proof.
  intros Ht Hd. unfold _verify_checksum, read_download. msimpl.
  rewrite Ht, Hd. reflexivity.
Qed.

Lemma mkdir_temp_eq st :
  mkdir_temp st
  = (Ret (default empty_temp (temp st)),
     set_temp (Some (default empty_temp (temp st))) st).
Proof.
  unfold mkdir_temp. msimpl. destruct st as [b bk [td|] t r j]; reflexivity.
Qed.

Lemma write_download_eq name data st td :
  temp st = Some td ->
  write_download name data st
  = (Ret tt,
     set_temp (Some {| downloads := <[name := data]> (downloads td);
                       extracted := extracted td |}) st).
Proof. intros H. unfold write_download. msimpl. rewrite H. reflexivity. Qed.

Lemma unlink_download_eq name st td data :
  temp st = Some td -> downloads td !! name = Some data ->
  unlink_download name st
  = (Ret tt, set_temp (Some {| downloads := delete name (downloads td);
                               extracted := extracted td |}) st).
Proof.
  intros Ht Hd. unfold unlink_download. msimpl. rewrite Ht, Hd. reflexivity.
Qed.

Lemma download_update_verified st update_info url expected payload :
  ui_download_url update_info = Some url -> url <> "" ->
  ui_checksum update_info = Some expected -> expected <> "" ->
  http_get_stream w (tick st) url = StreamBody payload ->
  exists st' td,
    temp st' = Some td
    /\ download_update w update_info st =
       (if bool_decide (PyStr.lower (sha256_hexdigest w payload) = PyStr.lower expected)
        then Ret (Some (download_file_name update_info)) else Ret None, st')
    /\ downloads td !! download_file_name update_info =
       (if bool_decide (PyStr.lower (sha256_hexdigest w payload) = PyStr.lower expected)
        then Some payload else None).
Proof.
  intros Hurl Hne Hsum Hne' Hget.
  unfold download_update, stream_to_file.
  rewrite Hurl, Hsum, !truthy_str_Some by assumption. msimpl.
  rewrite mkdir_temp_eq. msimpl. rewrite Hget.
erewrite write_download_eq by reflexivity. msimpl.
  erewrite _verify_checksum_eq; [|reflexivity|apply lookup_insert_eq].
  destruct (bool_decide _); msimpl.
  - eexists _, _. refine (conj _ (conj eq_refl _)); [reflexivity|]. apply lookup_insert_eq.
  - erewrite unlink_download_eq; [|reflexivity|apply lookup_insert_eq].
    eexists _, _. refine (conj _ (conj eq_refl _)); [reflexivity|]. apply lookup_delete_eq.
Qed.

End Download.

(** C2. A candidate with a download URL and a (non-empty) expected
    checksum, whose download completes: when the SHA-256 digest of the
    received bytes and the expected checksum differ once both are in lower
    case, [download_update] answers failure and the scratch directory holds
    no file under the artifact's name; when they agree, verification
    passes, and the artifact is answered and holds the received bytes. *)
Theorem download_update_checksum (w : World) (st : State) (update_info : UpdateInfo)
    (url expected payload : string) :
  ui_download_url update_info = Some url -> url <> "" ->
  ui_checksum update_info = Some expected -> expected <> "" ->
  http_get_stream w (tick st) url = StreamBody payload ->
  let name := download_file_name update_info in
  let r := download_update w update_info st in
  (PyStr.lower (sha256_hexdigest w payload) <> PyStr.lower expected ->
   r.1 = Ret None
   /\ exists td, temp r.2 = Some td /\ downloads td !! name = None)
  /\ (PyStr.lower (sha256_hexdigest w payload) = PyStr.lower expected ->
      (_verify_checksum w name expected r.2).1 = Ret true
      /\ r.1 = Ret (Some name)
      /\ exists td, temp r.2 = Some td /\ downloads td !! name = Some payload).
Proof.
  intros Hurl Hne Hsum Hne' Hget name r.
  destruct (download_update_verified w st update_info url expected payload
              Hurl Hne Hsum Hne' Hget) as (st' & td & Ht & Hrun & Hfile).
  subst r name. rewrite Hrun. cbn [fst snd]. split; intros Hcmp.
  - rewrite bool_decide_eq_false_2 in * by assumption. eauto.
  - rewrite bool_decide_eq_true_2 in * by assumption.
    rewrite (_verify_checksum_eq w st' td _ payload expected Ht Hfile).
    rewrite bool_decide_eq_true_2 by assumption. eauto.
Qed.

Lemma download_update_checksum_witness :
  (download_update (Demo.with_digest "0badc0de" Demo.world) Demo.candidate
     (Demo.installation (Demo.record 7 JNull))).1 = Ret None
  /\ (download_update Demo.world Demo.candidate
        (Demo.installation (Demo.record 7 JNull))).1 = Ret (Some "update_v1.1.0.zip").
Proof.
  split.
  - refine (proj1 (proj1 (download_update_checksum
              (Demo.with_digest "0badc0de" Demo.world)
              (Demo.installation (Demo.record 7 JNull)) Demo.candidate
              "https://feed/monitor.zip" "ABCDEF" "PK-1.1.0"
              eq_refl _ eq_refl _ eq_refl) _)); discriminate.
  - refine (proj1 (proj2 (proj2 (download_update_checksum
              Demo.world
              (Demo.installation (Demo.record 7 JNull)) Demo.candidate
              "https://feed/monitor.zip" "ABCDEF" "PK-1.1.0"
              eq_refl _ eq_refl _ eq_refl) _))); first [discriminate | reflexivity].
Defined.

(** ** What each step of a cycle leaves alone *)

Section Frames.

Context (w : World).

Lemma _get_checksum_loop_base l : respects (same base) (_get_checksum_loop w l).
Proof. induction l as [|a l IH]; simpl; respects_auto. Qed.

Lemma _get_checksum_loop_backups l : respects (same backups) (_get_checksum_loop w l).
Proof. induction l as [|a l IH]; simpl; respects_auto. Qed.

Lemma _get_checksum_loop_temp l : respects (same temp) (_get_checksum_loop w l).
Proof. induction l as [|a l IH]; simpl; respects_auto. Qed.

Hint Resolve _get_checksum_loop_base _get_checksum_loop_backups
  _get_checksum_loop_temp : respects.

Lemma _get_checksum_loop_total l : total (_get_checksum_loop w l).
Proof.
  induction l as [|a l IH]; simpl; [apply total_ret|].
  destruct (_ || _); [|exact IH].
  apply total_bind; [apply total_try_except; intros; apply total_ret|].
  intros [tok|]; [apply total_ret | exact IH].
Qed.

Lemma check_for_updates_backups : respects (same backups) (check_for_updates w).
Proof. unfold check_for_updates. respects_auto. Qed.

Lemma check_for_updates_temp : respects (same temp) (check_for_updates w).
Proof. unfold check_for_updates. respects_auto. Qed.

Lemma download_update_backups ui : respects (same backups) (download_update w ui).
Proof. unfold download_update. respects_auto. Qed.

Lemma download_update_base ui : respects (same base) (download_update w ui).
Proof. unfold download_update. respects_auto. Qed.

Lemma copy_updated_backups d l : respects (same backups) (copy_updated d l).
Proof. induction l as [|n l IH]; simpl; respects_auto. Qed.

Hint Resolve copy_updated_backups : respects.

Lemma install_update_backups f ui : respects (same backups) (install_update w f ui).
Proof. unfold install_update. respects_auto. Qed.

Lemma read_log_lines_respects R `{!PreOrder R} lf l : respects R (read_log_lines lf l).
Proof. induction l as [|e l IH]; simpl; respects_auto. Qed.

Lemma validate_update_backups : respects (same backups) (validate_update w).
Proof.
  unfold validate_update. respects_auto;
    apply read_log_lines_respects; typeclasses eauto.
Qed.

Lemma validate_update_base : respects (same base) (validate_update w).
Proof.
  unfold validate_update. respects_auto;
    apply read_log_lines_respects; typeclasses eauto.
Qed.

Lemma validate_update_temp : respects (same temp) (validate_update w).
Proof.
  unfold validate_update. respects_auto;
    apply read_log_lines_respects; typeclasses eauto.
Qed.

Lemma rollback_update_backups p : respects (same backups) (rollback_update w p).
Proof. unfold rollback_update. respects_auto. Qed.

Lemma cleanup_temp_files_base : respects (same base) cleanup_temp_files.
Proof. unfold cleanup_temp_files. respects_auto. Qed.

Lemma cleanup_temp_files_backups : respects (same backups) cleanup_temp_files.
Proof. unfold cleanup_temp_files. respects_auto. Qed.

End Frames.

(** ** The gates of the release check *)

Section Gates.

Context (w : World).

(** Until the feed is asked, nothing is requested: every way through
    the three gates that ends before the request answers [None] and
    leaves the list of requests as it was. *)
Lemma check_for_updates_disabled st version_info st1 :
  load_version_info w st = (Ret version_info, st1) ->
  truthy (dict_get_default version_info "auto_update_enabled" (JBool true)) = false ->
  check_for_updates w st = (Ret None, st1).
Proof.
  intros Hload Hoff. unfold check_for_updates. msimpl.
  rewrite Hload, Hoff. reflexivity.
Qed.

Lemma check_for_updates_throttled st version_info st1 s t n :
  load_version_info w st = (Ret version_info, st1) ->
  dict_get version_info "last_update_check" = JStr s -> s <> "" ->
  fromisoformat w s = IsoAware t ->
  as_number (dict_get_default version_info "update_check_interval" (JNum 86400)) = Some n ->
  clock w (tick st1) - t < n * USEC ->
  (check_for_updates w st).1 = Ret None
  /\ requests (check_for_updates w st).2 = requests st1.
Proof.
  intros Hload Hlast Hne Hiso Hint Hlt.
  unfold check_for_updates, py_fromisoformat, elapsed_less. msimpl.
  rewrite Hload.
  destruct (truthy (dict_get_default version_info "auto_update_enabled" (JBool true)));
    [|split; reflexivity].
  cbn [negb]. rewrite Hlast. cbn [truthy].
  apply String.eqb_neq in Hne. rewrite Hne. cbn [negb].
  rewrite Hiso. msimpl. rewrite Hint. msimpl.
  apply Z.ltb_lt in Hlt. rewrite Hlt. split; reflexivity.
Qed.

Lemma check_for_updates_no_url st version_info st1 :
  load_version_info w st = (Ret version_info, st1) ->
  truthy (dict_get version_info "update_url") = false ->
  (check_for_updates w st).1 = Ret None
  /\ requests (check_for_updates w st).2 = requests st1.
Proof.
  intros Hload Hurl.
  unfold check_for_updates, py_fromisoformat, elapsed_less. msimpl.
  rewrite Hload, Hurl.
  repeat (case_match; msimpl; simplify_eq); split; reflexivity.
Qed.

End Gates.

(** C5. [check_for_updates] answers [None] and requests nothing over the
    network when the record it loads has auto-update switched off, or has
    a last check (an aware timestamp) less than the check interval before
    the moment the clock is read, or has no feed URL; in particular a
    check made less than a second after the last one, with an interval of
    86400 seconds, answers [None] without a request. *)
Theorem check_for_updates_skips_network (w : World) (st : State)
    (version_info : gmap string jval) (st1 : State) :
  load_version_info w st = (Ret version_info, st1) ->
  (truthy (dict_get_default version_info "auto_update_enabled" (JBool true)) = false
   \/ (exists s t n,
         dict_get version_info "last_update_check" = JStr s /\ s <> ""
         /\ fromisoformat w s = IsoAware t
         /\ as_number (dict_get_default version_info "update_check_interval" (JNum 86400))
            = Some n
         /\ clock w (tick st1) - t < n * USEC)
   \/ truthy (dict_get version_info "update_url") = false
   -> (check_for_updates w st).1 = Ret None
      /\ requests (check_for_updates w st).2 = requests st)
  /\ (forall s t,
        dict_get version_info "last_update_check" = JStr s -> s <> "" ->
        fromisoformat w s = IsoAware t ->
        dict_get_default version_info "update_check_interval" (JNum 86400) = JNum 86400 ->
        t <= clock w (tick st1) < t + USEC ->
        (check_for_updates w st).1 = Ret None
        /\ requests (check_for_updates w st).2 = requests st).
Proof.
  intros Hload.
  assert (requests st1 = requests st) as Hreq.
  { pose proof (load_version_info_requests w st) as H. unfold same in H.
    rewrite Hload in H. exact H. }
  split.
  - intros [Hoff|[(s & t & n & Hlast & Hne & Hiso & Hint & Hlt)|Hurl]].
    + rewrite (check_for_updates_disabled w st version_info st1 Hload Hoff).
      split; [reflexivity | exact Hreq].
    + rewrite <- Hreq.
      apply (check_for_updates_throttled w st version_info st1 s t n); assumption.
    + rewrite <- Hreq. apply (check_for_updates_no_url w st version_info st1); assumption.
  - intros s t Hlast Hne Hiso Hint Hnow. rewrite <- Hreq.
    apply (check_for_updates_throttled w st version_info st1 s t 86400);
      try assumption.
    + rewrite Hint. reflexivity.
    + unfold USEC in *. lia.
Qed.

Lemma check_for_updates_skips_network_witness :
  let st := Demo.installation (Demo.record 7 (JStr "T1700000000000000")) in
  (check_for_updates Demo.world st).1 = Ret None
  /\ requests (check_for_updates Demo.world st).2 = [].
Proof.
  refine (proj2 (check_for_updates_skips_network Demo.world
                   (Demo.installation (Demo.record 7 (JStr "T1700000000000000")))
                   _ _ eq_refl)
                "T1700000000000000" 1700000000000000 eq_refl _ _ eq_refl _).
  - discriminate.
  - vm_compute. reflexivity.
  - vm_compute. split; [discriminate | reflexivity].
Defined.

(** ** The timestamp of the last check *)

Section LastCheck.

Context (w : World).

(** The feed does not answer: nothing is persisted beyond what loading
    the record did. *)
Lemma check_for_updates_feed_down st version_info st1 :
  (forall n u, http_get_json w n u = None) ->
  load_version_info w st = (Ret version_info, st1) ->
  (check_for_updates w st).1 = Ret None
  /\ base (check_for_updates w st).2 = base st1.
Proof.
  intros Hfeed Hload.
  unfold check_for_updates, py_fromisoformat, elapsed_less, requests_get_json.
  msimpl. rewrite Hload.
  repeat (case_match; msimpl; simplify_eq;
          try match goal with
              | H : http_get_json w _ _ = Some _ |- _ =>
                  rewrite Hfeed in H; discriminate H
              end);
    split; reflexivity.
Qed.

Lemma load_version_info_last_check st :
  recorded_last_check (load_version_info w st).2 = recorded_last_check st.
Proof.
  rewrite load_version_info_eq. unfold recorded_last_check.
  destruct (base st !! VERSION_FILE) as [[b|d]|] eqn:H; cbn [snd].
  - cbn. rewrite H. reflexivity.
  - rewrite H. reflexivity.
  - cbn. rewrite lookup_insert_eq. reflexivity.
Qed.

(** The feed answers: the record is persisted with the time read right
    after the answer, whatever the answer says. *)
Lemma check_for_updates_feed_up st version_info st1 reads u release_info :
  load_version_info w st = (Ret version_info, st1) ->
  truthy (dict_get_default version_info "auto_update_enabled" (JBool true)) = true ->
  throttle_open w version_info (clock w (tick st1)) reads ->
  dict_get version_info "update_url" = JStr u -> u <> "" ->
  http_get_json w (reads + tick st1)%nat u = Some release_info ->
  let now := clock w (S (reads + tick st1)) in
  let saved := <["last_update_check" := JStr (isoformat w now)]> version_info in
  let latest := PyStr.lstrip_char "v" (default "" (tag_name release_info)) in
  let newer := is_newer_than_record latest (dict_get_default saved "version" (JStr "0.0.0")) in
  base (check_for_updates w st).2 = <[VERSION_FILE := Json saved]> (base st1)
  /\ exists r, (check_for_updates w st).1 = Ret r
               /\ (newer = false -> r = None)
               /\ (newer = true -> exists ui, r = Some ui /\ ui_version ui = Some latest).
Proof.
  intros Hload Hon Hopen Hurl Hne Hfeed now saved latest newer.
  apply String.eqb_neq in Hne.
  unfold check_for_updates, py_fromisoformat, elapsed_less, requests_get_json,
    _get_checksum_from_release.
  msimpl. rewrite Hload, Hon. msimpl.
  destruct Hopen as [Hnone|s t n Hlast Hs Hiso Hint Hle].
  - rewrite Hnone, Hurl. cbn [truthy]. rewrite Hne. msimpl.
    cbn [Nat.add] in *. rewrite Hfeed. msimpl.
    fold now. fold saved. fold latest. fold newer.
    rewrite save_version_info_eq.
    destruct newer; msimpl.
    + pose proof (_get_checksum_loop_total w (assets release_info)) as Htot.
      pose proof (_get_checksum_loop_base w (assets release_info)) as Hbase.
      match goal with
      | |- context [_get_checksum_loop w _ ?s] =>
          specialize (Htot s); specialize (Hbase s); unfold same in Hbase;
          destruct (_get_checksum_loop w (assets release_info) s) as [r5 st5]
      end.
      destruct Htot as [c Hc]. cbn [fst snd] in *. subst r5.
      split; [exact Hbase|]. eexists. split; [reflexivity|].
      split; [discriminate|]. intros _. eexists. split; reflexivity.
    + split; [reflexivity|]. eexists. split; [reflexivity|].
      split; [reflexivity | discriminate].
  - rewrite Hlast, Hurl. cbn [truthy]. apply String.eqb_neq in Hs. rewrite Hs, Hne.
    msimpl. rewrite Hiso. msimpl. rewrite Hint. msimpl.
    assert ((clock w (tick st1) - t <? n * USEC) = false) as -> by (apply Z.ltb_ge; lia).
    msimpl. cbn [Nat.add] in *. rewrite Hfeed. msimpl.
    fold now. fold saved. fold latest. fold newer.
    rewrite save_version_info_eq.
    destruct newer; msimpl.
    + pose proof (_get_checksum_loop_total w (assets release_info)) as Htot.
      pose proof (_get_checksum_loop_base w (assets release_info)) as Hbase.
      match goal with
      | |- context [_get_checksum_loop w _ ?s] =>
          specialize (Htot s); specialize (Hbase s); unfold same in Hbase;
          destruct (_get_checksum_loop w (assets release_info) s) as [r5 st5]
      end.
      destruct Htot as [c Hc]. cbn [fst snd] in *. subst r5.
      split; [exact Hbase|]. eexists. split; [reflexivity|].
      split; [discriminate|]. intros _. eexists. split; reflexivity.
    + split; [reflexivity|]. eexists. split; [reflexivity|].
      split; [reflexivity | discriminate].
Qed.

End LastCheck.

(** C3. When the feed cannot be reached, [check_for_updates] answers
    [None] and leaves the persisted record as loading found (or created)
    it, so the recorded last check keeps its value; when auto-update is on,
    the throttle lets the check through, a feed URL is configured and the
    feed answers, the record is persisted with the last check set to the
    time read right after the answer, whether the answer carries a newer
    version (a candidate with that version is returned) or not ([None] is
    returned). *)
Theorem check_for_updates_last_check (w : World) (st : State)
    (version_info : gmap string jval) (st1 : State) :
  load_version_info w st = (Ret version_info, st1) ->
  ((forall n u, http_get_json w n u = None) ->
   (check_for_updates w st).1 = Ret None
   /\ base (check_for_updates w st).2 = base st1
   /\ recorded_last_check (check_for_updates w st).2 = recorded_last_check st)
  /\ (forall reads u release_info,
        truthy (dict_get_default version_info "auto_update_enabled" (JBool true)) = true ->
        throttle_open w version_info (clock w (tick st1)) reads ->
        dict_get version_info "update_url" = JStr u -> u <> "" ->
        http_get_json w (reads + tick st1)%nat u = Some release_info ->
        let now := clock w (S (reads + tick st1)) in
        let saved := <["last_update_check" := JStr (isoformat w now)]> version_info in
        let latest := PyStr.lstrip_char "v" (default "" (tag_name release_info)) in
        let newer :=
          is_newer_than_record latest (dict_get_default saved "version" (JStr "0.0.0")) in
        base (check_for_updates w st).2 !! VERSION_FILE = Some (Json saved)
        /\ recorded_last_check (check_for_updates w st).2 = JStr (isoformat w now)
        /\ exists r, (check_for_updates w st).1 = Ret r
                     /\ (newer = false -> r = None)
                     /\ (newer = true ->
                         exists ui, r = Some ui /\ ui_version ui = Some latest)).
Proof.
  intros Hload. split.
  - intros Hfeed.
    destruct (check_for_updates_feed_down w st version_info st1 Hfeed Hload) as [Hr Hb].
    split; [exact Hr|]. split; [exact Hb|].
    unfold recorded_last_check at 1. rewrite Hb.
    pose proof (load_version_info_last_check w st) as Hl. rewrite Hload in Hl. exact Hl.
  - intros reads u release_info Hon Hopen Hurl Hne Hfeed now saved latest newer.
    destruct (check_for_updates_feed_up w st version_info st1 reads u release_info
                Hload Hon Hopen Hurl Hne Hfeed) as [Hb Hr].
    fold now saved latest newer in Hb, Hr.
    split; [rewrite Hb; apply lookup_insert_eq|]. split; [|exact Hr].
    unfold recorded_last_check. rewrite Hb, lookup_insert_eq.
    unfold dict_get, saved. rewrite lookup_insert_eq. reflexivity.
Qed.

Lemma check_for_updates_last_check_witness :
  let st := Demo.installation (Demo.record 7 (JStr "T1600000000000000")) in
  ((check_for_updates (Demo.offline Demo.world) st).1 = Ret None
   /\ recorded_last_check (check_for_updates (Demo.offline Demo.world) st).2
      = JStr "T1600000000000000")
  /\ recorded_last_check (check_for_updates Demo.world st).2 = JStr "T1700000000000002".
Proof.
  split.
  - pose proof (proj1 (check_for_updates_last_check (Demo.offline Demo.world)
                         (Demo.installation (Demo.record 7 (JStr "T1600000000000000")))
                         _ _ eq_refl) (fun _ _ => eq_refl)) as (H1 & _ & H2).
    split; [exact H1 | exact H2].
  - refine (proj1 (proj2 (proj2 (check_for_updates_last_check Demo.world
                         (Demo.installation (Demo.record 7 (JStr "T1600000000000000")))
                         _ _ eq_refl) 1%nat "https://feed/latest" Demo.release
                         eq_refl _ eq_refl _ eq_refl))).
    + apply (interval_elapsed _ _ _ "T1600000000000000" 1600000000000000 86400);
        first [discriminate | vm_compute; reflexivity | vm_compute; discriminate].
    + discriminate.
Defined.

(** ** Installation *)

Lemma node_rect_nested (P : node -> Prop) :
  (forall b, P (File b)) ->
  (forall l, Forall (fun e => P e.2) l -> P (Dir l)) ->
  forall x, P x.
Proof.
  intros HFile HDir. fix IH 1. intros [b|l].
  - apply HFile.
  - apply HDir. induction l as [|e l IHl]; constructor.
    + apply IH.
    + exact IHl.
Qed.


Section FindMain.

Lemma walk_node_Dir name l :
  walk_node name (Dir l)
  = if in_files name l then Some ([], l) else walk_entries name l.
Proof.
  simpl. destruct (in_files name l); [reflexivity|].
  induction l as [|[n y] l IH]; simpl; [reflexivity|].
  destruct (walk_node name y) as [[path found]|]; [reflexivity | exact IH].
Qed.

Lemma walk_entries_found name l :
  Forall (fun e => forall path d, walk_node name e.2 = Some (path, d) ->
            exists l', e.2 = Dir l' /\ in_tree l' d /\ in_files name d = true) l ->
  forall path d, walk_entries name l = Some (path, d) ->
    (exists n sub, (n, Dir sub) ∈ l /\ in_tree sub d) /\ in_files name d = true.
Proof.
  induction 1 as [|[n y] l Hy Hl IH]; intros path d H; simpl in H; [discriminate|].
  destruct (walk_node name y) as [[p f]|] eqn:Hw.
  - injection H as <- <-.
    destruct (Hy _ _ Hw) as (sub & Hsub & Ht & Hf). simpl in Hsub. subst y.
    split; [|exact Hf]. exists n, sub. split; [left | exact Ht].
  - destruct (IH _ _ H) as [(n' & sub & Hin & Ht) Hf].
    split; [|exact Hf]. exists n', sub. split; [right; exact Hin | exact Ht].
Qed.

(** A directory the search answers lies in the tree and holds the
    file. *)
Lemma walk_node_found name x :
  forall path d, walk_node name x = Some (path, d) ->
    exists l, x = Dir l /\ in_tree l d /\ in_files name d = true.
Proof.
  induction x as [b|l IH] using node_rect_nested; intros path d H.
  - discriminate.
  - exists l. split; [reflexivity|]. rewrite walk_node_Dir in H.
    destruct (in_files name l) eqn:Hin.
    + injection H as <- <-. split; [constructor | exact Hin].
    + destruct (walk_entries_found name l IH _ _ H) as [(n & sub & Hn & Ht) Hf].
      split; [|exact Hf]. eapply in_tree_sub; eassumption.
Qed.

Lemma walk_entries_none name l :
  walk_entries name l = None -> forall e, e ∈ l -> walk_node name e.2 = None.
Proof.
  induction l as [|[n y] l IH]; intros H e He; [inversion He|]. simpl in H.
  destruct (walk_node name y) as [[p f]|] eqn:Hw; [discriminate|].
  apply elem_of_cons in He as [->|He]; [exact Hw | exact (IH H e He)].
Qed.

(** When the search answers nothing, no directory of the tree holds the
    file. *)
Lemma walk_node_none name x :
  forall l, x = Dir l -> walk_node name x = None ->
    forall d, in_tree l d -> in_files name d = false.
Proof.
  induction x as [b|l0 IH] using node_rect_nested; intros l Hx H d Hd;
    [discriminate|].
  injection Hx as ->. rewrite walk_node_Dir in H.
  destruct (in_files name l) eqn:Hin; [discriminate|].
  inversion Hd as [|? n sub ? Hn Hsub]; subst; [exact Hin|].
  rewrite Forall_forall in IH.
  apply (IH (n, Dir sub) Hn sub eq_refl); [|exact Hsub].
  apply (walk_entries_none name l H (n, Dir sub) Hn).
Qed.

(** [_find_main_directory] answers a directory of the tree that holds
    the main file, or, when no directory of the tree holds it, the
    extraction directory itself. *)
Lemma _find_main_directory_spec top :
  let found := _find_main_directory top in
  in_tree top found.2
  /\ (in_files MAIN_FILE found.2 = true
      \/ ((forall d, in_tree top d -> in_files MAIN_FILE d = false)
          /\ found = ([], top))).
Proof.
  unfold _find_main_directory.
  destruct (walk_node MAIN_FILE (Dir top)) as [[path d]|] eqn:H; cbn.
  - destruct (walk_node_found _ _ _ _ H) as (l & Hl & Ht & Hf).
    injection Hl as <-. split; [exact Ht | left; exact Hf].
  - split; [constructor|]. right. split; [|reflexivity].
    apply (walk_node_none MAIN_FILE (Dir top) top eq_refl H).
Qed.

End FindMain.

Section Install.

Context (w : World).

Lemma copy_updated_spec d names st :
  no_directory_named names d ->
  exists st',
    copy_updated d names st = (Ret tt, st')
    /\ (forall name, base st' !! name = copied d names (base st) name)
    /\ backups st' = backups st /\ temp st' = temp st /\ tick st' = tick st.
Proof.
  revert st. induction names as [|n names IH]; intros st Hno.
  - exists st. split; [reflexivity|]. split; [|auto].
    intros name. unfold copied. destruct (lookup_entry name d) as [[b|sub]|]; reflexivity.
  - assert (no_directory_named names d) as Hno'.
    { intros name sub Hin. apply Hno. right. exact Hin. }
    simpl. destruct (lookup_entry n d) as [[b|sub]|] eqn:Hn.
    + msimpl.
      destruct (IH (add_journal INFO "Arquivo atualizado"
                      (set_base (insert n (Bytes b)) st)) Hno')
        as (st' & Hrun & Hbase & Hrest).
      exists st'. split; [exact Hrun|]. split; [|exact Hrest].
      intros name. rewrite Hbase. unfold copied. cbn [base add_journal set_base].
      destruct (decide (name = n)) as [->|Hne].
      * rewrite Hn, lookup_insert_eq.
        destruct (decide (n ∈ names)); destruct (decide (n ∈ n :: names)) as [|Hnot];
          try reflexivity; exfalso; apply Hnot; left.
      * rewrite lookup_insert_ne by congruence.
        destruct (lookup_entry name d) as [[b'|sub']|]; try reflexivity.
        destruct (decide (name ∈ names)) as [Hin|Hnin];
          destruct (decide (name ∈ n :: names)) as [Hin'|Hnin']; try reflexivity.
        -- exfalso. apply Hnin'. right. exact Hin.
        -- exfalso. apply elem_of_cons in Hin' as [?|?]; auto.
    + exfalso. eapply Hno; [left | exact Hn].
    + destruct (IH st Hno') as (st' & Hrun & Hbase & Hrest).
      exists st'. split; [exact Hrun|]. split; [|exact Hrest].
      intros name. rewrite Hbase. unfold copied.
      destruct (lookup_entry name d) as [[b'|sub']|] eqn:Hd; try reflexivity.
      destruct (decide (name ∈ names)) as [Hin|Hnin];
        destruct (decide (name ∈ n :: names)) as [Hin'|Hnin']; try reflexivity.
      * exfalso. apply Hnin'. right. exact Hin.
      * exfalso. apply elem_of_cons in Hin' as [->|?]; [congruence | auto].
Qed.

Lemma _stop_service_eq st rc out err :
  sc w (tick st) ScStop = ScDone rc out err ->
  _stop_service w st
  = (Ret ((rc =? 0) || PyStr.contains "service is not started" (PyStr.lower err)),
     bump (bump st)).
Proof.
  intros H. unfold _stop_service, subprocess_run. msimpl. rewrite H. reflexivity.
Qed.

Lemma mkdir_extracted_eq st td :
  temp st = Some td ->
  mkdir_extracted st
  = (Ret (default [] (extracted td)),
     set_temp (Some {| downloads := downloads td;
                       extracted := Some (default [] (extracted td)) |}) st).
Proof. intros H. unfold mkdir_extracted. msimpl. rewrite H. reflexivity. Qed.

Lemma read_download_eq st td name data :
  temp st = Some td -> downloads td !! name = Some data ->
  read_download name st = (Ret data, st).
Proof. intros Ht Hd. unfold read_download. msimpl. rewrite Ht, Hd. reflexivity. Qed.

Lemma set_extracted_eq st td tree :
  temp st = Some td ->
  set_extracted tree st
  = (Ret tt, set_temp (Some {| downloads := downloads td; extracted := Some tree |}) st).
Proof. intros H. unfold set_extracted. msimpl. rewrite H. reflexivity. Qed.

Lemma copied_version_file d files :
  copied d files_to_update files VERSION_FILE = files !! VERSION_FILE.
Proof.
  unfold copied. destruct (lookup_entry VERSION_FILE d) as [[b|sub]|]; reflexivity.
Qed.

(** The installation, when the service stops, the artifact is in the
    scratch directory and is a zip archive, and no directory of the
    located root is named like an updatable file. *)
Lemma install_update_spec st update_file update_info rc out err td data tree :
  sc w (tick st) ScStop = ScDone rc out err ->
  (rc =? 0) || PyStr.contains "service is not started" (PyStr.lower err) = true ->
  temp st = Some td -> downloads td !! update_file = Some data ->
  zip_extractall w data (default [] (extracted td)) = Some tree ->
  no_directory_named files_to_update (_find_main_directory tree).2 ->
  exists st',
    install_update w update_file update_info st = (Ret true, st')
    /\ (forall name, name <> VERSION_FILE ->
          base st' !! name
          = copied (_find_main_directory tree).2 files_to_update (base st) name)
    /\ (exists d n,
          base st' !! VERSION_FILE = Some (Json d)
          /\ (tick st <= n)%nat
          /\ dict_get d "version" = jopt (ui_version update_info)
          /\ dict_get d "build_date" = JStr (isoformat w (clock w n))
          /\ dict_get d "last_update" = JStr (isoformat w (clock w (S n)))).
Proof.
  intros Hsc Hstop Ht Hd Hzip Hno.
  unfold install_update. msimpl.
  erewrite _stop_service_eq by exact Hsc. rewrite Hstop. msimpl.
  erewrite mkdir_extracted_eq by exact Ht. msimpl.
  erewrite read_download_eq; [|reflexivity|exact Hd].
  rewrite Hzip. erewrite set_extracted_eq by reflexivity. msimpl.
  match goal with
  | |- context [copy_updated ?d ?ns ?s] =>
      destruct (copy_updated_spec d ns s Hno) as (stc & -> & Hbase & _ & _ & Htick)
  end.
  cbn [base tick set_temp bump add_journal] in Hbase, Htick.
  rewrite load_version_info_eq.
  destruct (base stc !! VERSION_FILE) as [[b|d0]|] eqn:Hv; msimpl;
    rewrite save_version_info_eq; msimpl;
    (eexists; split; [reflexivity|]; cbn [base set_base bump add_journal]; split;
     [ intros name Hne; rewrite ?lookup_insert_ne by congruence; apply Hbase
     | eexists _, _; split; [apply lookup_insert_eq|];
       cbn [tick bump add_journal set_base]; rewrite ?Htick;
       split; [| unfold dict_get;
                 rewrite lookup_insert_ne, lookup_insert_ne, lookup_insert_eq by discriminate;
                 rewrite lookup_insert_ne, lookup_insert_eq by discriminate;
                 rewrite lookup_insert_eq; repeat split; reflexivity ]]); lia.
Qed.

End Install.

Lemma copied_nothing d names files :
  (forall name, name ∈ names -> lookup_entry name d = None) ->
  forall name, copied d names files name = files !! name.
Proof.
  intros Hnone name. unfold copied.
  destruct (lookup_entry name d) as [[b|sub]|] eqn:Hd; try reflexivity.
  destruct (decide (name ∈ names)) as [Hin|]; [|reflexivity].
  rewrite (Hnone name Hin) in Hd. discriminate.
Qed.

(** C6 (as amended). Once the service has stopped and the artifact has
    been extracted, the root [install_update] works from is a directory
    of the extracted tree that holds the main service file, or, when no
    directory of the tree holds it, the extraction directory itself.
    Provided no directory of that root is named like an updatable file,
    each file of the installation other than the version record ends up
    as [copied] says: replaced by the root's file of the same name when it
    is one of the updatable files and exists there, untouched otherwise;
    the version record holds the candidate's version and two fresh
    timestamps; and the answer is success. All of this holds when none of
    the updatable files exists at the root: then no file is touched. *)
Theorem install_update_copies_existing (w : World) (st : State) (update_file : string)
    (update_info : UpdateInfo) (rc : Z) (out err : string) (td : TempDir)
    (data : string) (tree : Listing) :
  sc w (tick st) ScStop = ScDone rc out err ->
  (rc =? 0) || PyStr.contains "service is not started" (PyStr.lower err) = true ->
  temp st = Some td -> downloads td !! update_file = Some data ->
  zip_extractall w data (default [] (extracted td)) = Some tree ->
  let root := (_find_main_directory tree).2 in
  (in_tree tree root
   /\ (in_files MAIN_FILE root = true
       \/ ((forall d, in_tree tree d -> in_files MAIN_FILE d = false)
           /\ _find_main_directory tree = ([], tree))))
  /\ (no_directory_named files_to_update root ->
      exists st',
        install_update w update_file update_info st = (Ret true, st')
        /\ (forall name, name <> VERSION_FILE ->
              base st' !! name = copied root files_to_update (base st) name)
        /\ ((forall name, name ∈ files_to_update -> lookup_entry name root = None) ->
            forall name, name <> VERSION_FILE -> base st' !! name = base st !! name)
        /\ recorded_version st' = jopt (ui_version update_info)
        /\ exists d n,
             base st' !! VERSION_FILE = Some (Json d)
             /\ (tick st <= n)%nat
             /\ dict_get d "version" = jopt (ui_version update_info)
             /\ dict_get d "build_date" = JStr (isoformat w (clock w n))
             /\ dict_get d "last_update" = JStr (isoformat w (clock w (S n)))).
Proof.
  intros Hsc Hstop Ht Hd Hzip root. split.
  - apply _find_main_directory_spec.
  - intros Hno.
    destruct (install_update_spec w st update_file update_info rc out err td data tree
                Hsc Hstop Ht Hd Hzip Hno) as (st' & Hrun & Hfiles & d & n & Hv & Hrec).
    exists st'. split; [exact Hrun|]. split; [exact Hfiles|]. split; [|split].
    + intros Hnone name Hne. rewrite (Hfiles name Hne). apply copied_nothing, Hnone.
    + unfold recorded_version. rewrite Hv. apply Hrec.
    + exists d, n. split; [exact Hv | exact Hrec].
Qed.

Lemma install_update_copies_existing_witness :
  let w := Demo.with_tree Demo.docs_tree Demo.world in
  let st := Demo.downloaded (Demo.installation (Demo.record 7 JNull)) in
  exists st',
    install_update w "update_v1.1.0.zip" Demo.candidate st = (Ret true, st')
    /\ base st' !! MAIN_FILE = Some (Bytes "old code")
    /\ recorded_version st' = JStr "1.1.0".
Proof.
  intros w st.
  destruct (proj2 (install_update_copies_existing w st "update_v1.1.0.zip" Demo.candidate
                     0 "" "" _ "PK-1.1.0" Demo.docs_tree
                     eq_refl eq_refl eq_refl eq_refl eq_refl))
    as (st' & Hrun & _ & Hsame & Hver & _).
  - intros name sub Hin.
    repeat (apply elem_of_cons in Hin as [->|Hin]); try discriminate. inversion Hin.
  - exists st'. split; [exact Hrun|]. split; [|exact Hver].
    rewrite Hsame; [reflexivity | | discriminate].
    intros name Hin.
    repeat (apply elem_of_cons in Hin as [->|Hin]); try reflexivity. inversion Hin.
Defined.

(** The claim C6 as stated fails when a directory of the root bears the
    name of an updatable file: none of the expected files exists, yet
    [install_update] answers failure and the version record is not
    advanced ([exists()] holds of the directory and [shutil.copy2] raises
    on it). *)
Lemma install_update_directory_named_like_file :
  let w := Demo.with_tree Demo.odd_tree Demo.world in
  let st := Demo.downloaded (Demo.installation (Demo.record 7 JNull)) in
  (forall name, name ∈ files_to_update -> in_files name Demo.odd_tree = false)
  /\ (_find_main_directory Demo.odd_tree).2 = Demo.odd_tree
  /\ (install_update w "update_v1.1.0.zip" Demo.candidate st).1 = Ret false
  /\ recorded_version (install_update w "update_v1.1.0.zip" Demo.candidate st).2
     = JStr "1.0.0".
Proof.
  intros w st. split; [|split; [|split]]; try (vm_compute; reflexivity).
  intros name Hin.
  repeat (apply elem_of_cons in Hin as [->|Hin]); try reflexivity. inversion Hin.
Qed.

(** ** Restoring a backup *)

Section Restore.

Context (w : World).

Lemma extract_over_cons n c a m :
  extract_over ((n, c) :: a) m = extract_over a (<[n := c]> m).
Proof. reflexivity. Qed.

Lemma extract_over_other a m n :
  n ∉ a.*1 -> extract_over a m !! n = m !! n.
Proof.
  revert m. induction a as [|[x c] a IH]; intros m Hn; [reflexivity|].
  rewrite extract_over_cons, IH.
  - apply lookup_insert_ne. intros ->. apply Hn. left.
  - intros Hin. apply Hn. right. exact Hin.
Qed.

Lemma archive_of_cons files x names :
  archive_of files (x :: names)
  = match files !! x with
    | Some c => (x, c) :: archive_of files names
    | None => archive_of files names
    end.
Proof. unfold archive_of. simpl. destruct (files !! x); reflexivity. Qed.

Lemma archive_of_names files names : (archive_of files names).*1 ⊆ names.
Proof.
  induction names as [|x names IH]; [done|].
  rewrite archive_of_cons. destruct (files !! x).
  - intros n Hn. rewrite fmap_cons in Hn.
    apply elem_of_cons in Hn as [->|Hn]; [left | right; apply IH, Hn].
  - intros n Hn. right. apply IH, Hn.
Qed.

(** Extracting a backup of [files] writes back what [files] held. *)
Lemma extract_over_archive_of files names m n c :
  NoDup names -> n ∈ names -> files !! n = Some c ->
  extract_over (archive_of files names) m !! n = Some c.
Proof.
  intros Hnd. revert m. induction Hnd as [|x names Hx Hnd IH]; intros m Hn Hc;
    [inversion Hn|].
  rewrite archive_of_cons.
  apply elem_of_cons in Hn as [->|Hn].
  - rewrite Hc, extract_over_cons, extract_over_other.
    + apply lookup_insert_eq.
    + intros Hin. apply Hx. eapply archive_of_names, Hin.
  - destruct (files !! x) as [cx|].
    + rewrite extract_over_cons. apply IH; assumption.
    + apply IH; assumption.
Qed.

Lemma files_to_backup_NoDup : NoDup files_to_backup.
Proof. apply (bool_decide_unpack (NoDup files_to_backup)). vm_compute. exact I. Qed.

Lemma rollback_update_present st p a m :
  backups st !! p = Some (a, m) ->
  exists ok st',
    rollback_update w p st = (Ret ok, st')
    /\ base st' = extract_over a (base st)
    /\ backups st' = backups st.
Proof.
  intros Hp. unfold rollback_update, _stop_service, _start_service, subprocess_run.
  msimpl.
  destruct (sc w (tick st) ScStop) as [|rc out err]; msimpl; rewrite Hp; msimpl;
    match goal with
    | |- context [sc w ?n ScStart] => destruct (sc w n ScStart) as [|rc' out' err']
    end; msimpl;
    try destruct (rc' =? 0); msimpl;
    eexists _, _; (split; [reflexivity|]); split; reflexivity.
Qed.

Lemma rollback_update_absent st p :
  backups st !! p = None ->
  exists st',
    rollback_update w p st = (Ret false, st') /\ base st' = base st.
Proof.
  intros Hp. unfold rollback_update, _stop_service, _start_service, subprocess_run.
  msimpl.
  destruct (sc w (tick st) ScStop) as [|rc out err]; msimpl; rewrite Hp; msimpl;
    eexists; split; reflexivity.
Qed.

End Restore.



(** ** Rollback after a failed validation *)

Section Rollback.

Context (w : World).

(** A candidate comes with a version, and when one is returned the
    record has just been persisted, with the version it had. *)
Lemma check_for_updates_candidate st ui st1 :
  check_for_updates w st = (Ret (Some ui), st1) ->
  is_Some (ui_version ui)
  /\ exists d, base st1 !! VERSION_FILE = Some (Json d)
               /\ dict_get d "version" = recorded_version st.
Proof.
  intros H.
  unfold check_for_updates, py_fromisoformat, elapsed_less, requests_get_json,
    _get_checksum_from_release in H.
  msimpl. rewrite load_version_info_eq in H. unfold recorded_version.
  repeat (case_match; msimpl; simplify_eq).
  all: match goal with
       | H : _get_checksum_loop w ?l ?s = (_, ?s') |- _ =>
           pose proof (_get_checksum_loop_base w l s) as Hb;
           unfold same in Hb; rewrite H in Hb; cbn [snd] in Hb
       end.
  all: match goal with
       | H : save_version_info _ _ = _ |- _ =>
           rewrite save_version_info_eq in H; simplify_eq
       end.
  all: cbn [base add_journal set_base] in Hb.
  all: split; [eexists; reflexivity|].
  all: eexists; split; [rewrite Hb; apply lookup_insert_eq|].
  all: unfold dict_get; rewrite lookup_insert_ne by discriminate; reflexivity.
Qed.

Lemma same_eq {X} (proj : State -> X) {A} (m : M A) st r st' :
  respects (same proj) m -> m st = (r, st') -> proj st' = proj st.
Proof. intros Hm H. specialize (Hm st). rewrite H in Hm. exact Hm. Qed.

(** The cycle in which everything up to validation succeeded and
    validation failed, step by step. *)
Lemma perform_update_rolls_back st0 ui st1 p st2 f st3 st4 st5 ok st6 :
  check_for_updates w
    (add_journal INFO "=== Iniciando processo de atualização ===" st0)
  = (Ret (Some ui), st1) ->
  create_backup w (add_journal INFO "Nova versão encontrada" st1)
  = (Ret (Some p), st2) ->
  download_update w ui st2 = (Ret (Some f), st3) ->
  install_update w f ui st3 = (Ret true, st4) ->
  validate_update w st4 = (Ret false, st5) ->
  rollback_update w p (add_journal ERROR "Validação da atualização falhou" st5)
  = (Ret ok, st6) ->
  (perform_update w st0).1 = Ret false
  /\ base (perform_update w st0).2 = base st6.
Proof.
  intros Hcheck Hbackup Hdl Hinst Hval Hroll.
  destruct (check_for_updates_candidate _ _ _ Hcheck) as [[v Hv] _].
  unfold perform_update, update_from_backup, try_finally. msimpl.
  rewrite Hcheck, Hv. msimpl. rewrite Hbackup. msimpl. rewrite Hdl. msimpl.
  rewrite Hinst. msimpl. rewrite Hval. msimpl. rewrite Hroll.
  destruct ok; msimpl.
  all: match goal with
       | |- context [cleanup_temp_files ?s] =>
           pose proof (cleanup_temp_files_base s) as Hb;
           pose proof (cleanup_temp_files_total s) as [[] Hu];
           unfold same in Hb;
           destruct (cleanup_temp_files s) as [r7 st7]
       end.
  all: cbn [fst snd] in Hu; subst r7; msimpl; split; [reflexivity|].
  all: rewrite Hb; reflexivity.
Qed.

End Rollback.

(** C1 (as amended). In a cycle in which [check_for_updates] finds a
    candidate, [create_backup] answers an archive that is still in the
    backup directory (its own pruning has not deleted it), download and
    installation succeed and validation fails, [perform_update] calls
    [rollback_update] on that archive; the rollback extracts every entry
    of the archive over the installation directory; after the cycle the
    version record is the one the archive holds, so the recorded version
    is again the one recorded before the cycle; and [perform_update]
    answers failure. *)
Theorem perform_update_rollback_restores_version (w : World) (st0 : State)
    (ui : UpdateInfo) (st1 : State) (p : string) (st2 : State) (f : string)
    (st3 st4 st5 : State) :
  check_for_updates w
    (add_journal INFO "=== Iniciando processo de atualização ===" st0)
  = (Ret (Some ui), st1) ->
  create_backup w (add_journal INFO "Nova versão encontrada" st1)
  = (Ret (Some p), st2) ->
  is_Some (backups st2 !! p) ->
  download_update w ui st2 = (Ret (Some f), st3) ->
  install_update w f ui st3 = (Ret true, st4) ->
  validate_update w st4 = (Ret false, st5) ->
  exists a m ok st6,
    backups st2 !! p = Some (a, m)
    /\ a = archive_of (base st1) files_to_backup
    /\ rollback_update w p (add_journal ERROR "Validação da atualização falhou" st5)
       = (Ret ok, st6)
    /\ base st6 = extract_over a (base st5)
    /\ (perform_update w st0).1 = Ret false
    /\ base (perform_update w st0).2 = base st6
    /\ base (perform_update w st0).2 !! VERSION_FILE = base st1 !! VERSION_FILE
    /\ recorded_version (perform_update w st0).2 = recorded_version st0.
Proof.
  intros Hcheck Hbackup [[a m] Hp] Hdl Hinst Hval.
  destruct (check_for_updates_candidate w _ _ _ Hcheck) as [_ (d & Hd & Hver)].
  destruct (create_backup_spec w (add_journal INFO "Nova versão encontrada" st1))
    as (p' & st2' & Hrun & Hbase & _ & Harch & _).
  rewrite Hbackup in Hrun. injection Hrun as <- <-.
  rewrite (load_version_info_present w _ (Json d)) in Hbase by exact Hd.
  cbn [base add_journal] in Hbase.
  pose proof (Harch a m Hp) as Ha. rewrite Hbase in Ha.
  assert (backups st5 !! p = Some (a, m)) as Hp5.
  { rewrite (same_eq backups _ _ _ _ (validate_update_backups w) Hval).
    rewrite (same_eq backups _ _ _ _ (install_update_backups w f ui) Hinst).
    rewrite (same_eq backups _ _ _ _ (download_update_backups w ui) Hdl).
    exact Hp. }
  destruct (rollback_update_present w
              (add_journal ERROR "Validação da atualização falhou" st5) p a m Hp5)
    as (ok & st6 & Hroll & Hb6 & _).
  cbn [base add_journal] in Hb6.
  destruct (perform_update_rolls_back w st0 ui st1 p st2 f st3 st4 st5 ok st6
              Hcheck Hbackup Hdl Hinst Hval Hroll) as [Hres Hfinal].
  assert (base st6 !! VERSION_FILE = Some (Json d)) as Hv6.
  { rewrite Hb6, Ha.
    apply extract_over_archive_of; [apply files_to_backup_NoDup | | exact Hd].
    right. left. }
  exists a, m, ok, st6. repeat split; try assumption.
  - rewrite Hfinal, Hv6, Hd. reflexivity.
  - unfold recorded_version at 1. rewrite Hfinal, Hv6. exact Hver.
Qed.

Lemma perform_update_rollback_restores_version_witness :
  let w := Demo.with_log (Some Demo.critical_log) Demo.world in
  let st0 := Demo.installation (Demo.record 7 JNull) in
  (perform_update w st0).1 = Ret false
  /\ recorded_version (perform_update w st0).2 = JStr "1.0.0".
Proof.
  intros w st0.
  pose (r1 := check_for_updates w
                (add_journal INFO "=== Iniciando processo de atualização ===" st0)).
  pose (r2 := create_backup w (add_journal INFO "Nova versão encontrada" r1.2)).
  pose (r3 := download_update w Demo.candidate r2.2).
  pose (r4 := install_update w "update_v1.1.0.zip" Demo.candidate r3.2).
  pose (r5 := validate_update w r4.2).
  assert (r1.1 = Ret (Some Demo.candidate)) as H1 by (vm_compute; reflexivity).
  assert (r2.1 = Ret (Some "backup_v1.0.0_1700000000000003.zip")) as H2
    by (vm_compute; reflexivity).
  assert (is_Some (backups r2.2 !! "backup_v1.0.0_1700000000000003.zip")) as Hs
    by (apply (proj1 (not_eq_None_Some _)); vm_compute; discriminate).
  assert (r3.1 = Ret (Some "update_v1.1.0.zip")) as H3 by (vm_compute; reflexivity).
  assert (r4.1 = Ret true) as H4 by (vm_compute; reflexivity).
  assert (r5.1 = Ret false) as H5 by (vm_compute; reflexivity).
  destruct (perform_update_rollback_restores_version w st0 _ _ _ _ _ _ _ _
              (run_eq r1 _ H1) (run_eq r2 _ H2) Hs (run_eq r3 _ H3)
              (run_eq r4 _ H4) (run_eq r5 _ H5))
    as (a & m & ok & st6 & _ & _ & _ & _ & Hres & _ & _ & Hver).
  split; [exact Hres | exact Hver].
Defined.

(** The claim C1 as stated fails when the retention is zero days: the
    archive [create_backup] has just written is older than the moment its
    own pruning reads the clock, so it is deleted at once; the cycle goes
    on, validation fails, [rollback_update] finds no archive and fails,
    and the version record still holds the candidate's version. *)
Lemma perform_update_rollback_without_backup :
  let w := Demo.with_log (Some Demo.critical_log) Demo.world in
  let st0 := Demo.installation (Demo.record 0 JNull) in
  let r1 := check_for_updates w
              (add_journal INFO "=== Iniciando processo de atualização ===" st0) in
  let r2 := create_backup w (add_journal INFO "Nova versão encontrada" r1.2) in
  let r3 := download_update w Demo.candidate r2.2 in
  let r4 := install_update w "update_v1.1.0.zip" Demo.candidate r3.2 in
  let r5 := validate_update w r4.2 in
  r1.1 = Ret (Some Demo.candidate)
  /\ r2.1 = Ret (Some "backup_v1.0.0_1700000000000003.zip")
  /\ r3.1 = Ret (Some "update_v1.1.0.zip")
  /\ r4.1 = Ret true
  /\ r5.1 = Ret false
  /\ backups r2.2 !! "backup_v1.0.0_1700000000000003.zip" = None
  /\ recorded_version st0 = JStr "1.0.0"
  /\ (perform_update w st0).1 = Ret false
  /\ recorded_version (perform_update w st0).2 = JStr "1.1.0".
Proof. vm_compute. repeat split; reflexivity. Qed.

(** * Further properties of the updater and of the scheduler *)

(** ** The version record, written and read back *)



(** X2. A [version.json] that [json.load] rejects is never repaired:
    [load_version_info] answers an empty record and leaves the file as it
    is, so [check_for_updates] (no feed URL in an empty record) answers
    [None] without a request, and the installation stays as it was. *)
Theorem unreadable_version_file_disables_updates (w : World) (st : State) (b : string) :
  base st !! VERSION_FILE = Some (Bytes b) ->
  (load_version_info w st).1 = Ret ∅
  /\ base (load_version_info w st).2 = base st
  /\ (check_for_updates w st).1 = Ret None
  /\ requests (check_for_updates w st).2 = requests st
  /\ base (check_for_updates w st).2 = base st.
Proof.
  intros Hb.
  assert (load_version_info w st
          = (Ret ∅, add_journal ERROR "Erro ao carregar informações de versão" st)) as Hl.
  { rewrite load_version_info_eq, Hb. reflexivity. }
  rewrite Hl. cbn [fst snd]. split; [reflexivity|]. split; [reflexivity|].
  unfold check_for_updates. msimpl. rewrite Hl. cbn.
  repeat split; reflexivity.
Qed.

Lemma unreadable_version_file_disables_updates_witness :
  let st := Cases.corrupt (Demo.installation (Demo.record 7 JNull)) in
  (check_for_updates Demo.world st).1 = Ret None
  /\ requests (check_for_updates Demo.world st).2 = [].
Proof.
  intros st.
  destruct (unreadable_version_file_disables_updates Demo.world st "{")
    as (_ & _ & Hnone & Hreq & _).
  - apply lookup_insert_eq.
  - split; [exact Hnone | exact Hreq].
Defined.

(** ** The release feed's answer *)

(** X3. [_get_download_url] answers the download URL of the first asset
    whose name ends in ".zip", also when that asset has no URL (the
    answer is then [None]: neither a later zip asset nor the zipball is
    considered); without such an asset it answers the release's
    [zipball_url]. *)
Theorem get_download_url_first_zip (release_info : ReleaseInfo) :
  ((forall a, a ∈ assets release_info ->
      PyStr.endswith ".zip" (default "" (asset_name a)) = false) ->
   _get_download_url release_info = zipball_url release_info)
  /\ (forall before a after,
        assets release_info = before ++ a :: after ->
        (forall b, b ∈ before ->
           PyStr.endswith ".zip" (default "" (asset_name b)) = false) ->
        PyStr.endswith ".zip" (default "" (asset_name a)) = true ->
        _get_download_url release_info = browser_download_url a).
Proof.
  unfold _get_download_url. generalize (zipball_url release_info) as fb.
  generalize (assets release_info) as l. intros l fb. split.
  - induction l as [|x l IH]; intros H; [reflexivity|]. simpl.
    rewrite (H x) by left. apply IH. intros a Ha. apply H. right. exact Ha.
  - intros before a after -> Hb Ha.
    induction before as [|x before IH]; simpl.
    + rewrite Ha. reflexivity.
    + rewrite (Hb x) by left. apply IH. intros b Hin. apply Hb. right. exact Hin.
Qed.

Lemma get_download_url_first_zip_witness :
  _get_download_url Cases.release_without_url = None.
Proof.
  apply (proj2 (get_download_url_first_zip Cases.release_without_url)
           [ {| asset_name := Some "notes.txt";
                browser_download_url := Some "https://feed/notes.txt" |} ]
           {| asset_name := Some "monitor.zip"; browser_download_url := None |}
           [ {| asset_name := Some "other.zip";
                browser_download_url := Some "https://feed/other.zip" |} ]).
  - reflexivity.
  - intros b Hb. apply list_elem_of_singleton in Hb. subst b. vm_compute. reflexivity.
  - vm_compute. reflexivity.
Defined.

Lemma list_ascii_rev_app s1 s2 :
  list_ascii_of_string (String.rev_app s1 s2)
  = rev (list_ascii_of_string s1) ++ list_ascii_of_string s2.
Proof.
  revert s2. induction s1 as [|c s1 IH]; intros s2; simpl; [reflexivity|].
  rewrite IH. simpl. rewrite <- app_assoc. reflexivity.
Qed.

(** The words [split] yields are not empty and hold no white space. *)
Lemma split_ws_go_tokens s cur tok :
  (forall c, In c (list_ascii_of_string cur) -> PyStr.is_space c = false) ->
  tok ∈ PyStr.split_ws_go cur s ->
  tok <> EmptyString
  /\ forall c, In c (list_ascii_of_string tok) -> PyStr.is_space c = false.
Proof.
  assert (forall cur, cur <> EmptyString ->
            (forall c, In c (list_ascii_of_string cur) -> PyStr.is_space c = false) ->
            String.rev cur <> EmptyString
            /\ forall c, In c (list_ascii_of_string (String.rev cur)) ->
                         PyStr.is_space c = false) as Hrev.
  { intros cur0 Hne Hcur. unfold String.rev. split.
    - intros Heq. apply (f_equal list_ascii_of_string) in Heq.
      rewrite list_ascii_rev_app in Heq. simpl in Heq. rewrite app_nil_r in Heq.
      destruct cur0 as [|c0 cur0]; [congruence|]. simpl in Heq.
      destruct (rev (list_ascii_of_string cur0)); discriminate Heq.
    - intros c. rewrite list_ascii_rev_app. simpl. rewrite app_nil_r, <- in_rev.
      apply Hcur. }
  revert cur. induction s as [|c s IH]; intros cur Hcur Hin; simpl in Hin.
  - destruct (decide (cur = EmptyString)) as [|Hne].
    + apply elem_of_nil in Hin. contradiction.
    + apply list_elem_of_singleton in Hin. subst tok. apply Hrev; assumption.
  - destruct (PyStr.is_space c) eqn:Hc.
    + apply elem_of_app in Hin. destruct Hin as [Hin|Hin].
      * destruct (decide (cur = EmptyString)) as [|Hne].
        -- apply elem_of_nil in Hin. contradiction.
        -- apply list_elem_of_singleton in Hin. subst tok. apply Hrev; assumption.
      * apply (IH EmptyString); [intros ? []|exact Hin].
    + apply (IH (String c cur)); [|exact Hin].
      intros c' [<-|Hc']; [exact Hc | apply Hcur; exact Hc'].
Qed.

Lemma _get_checksum_loop_answers (w : World) l st :
  exists r,
    (_get_checksum_loop w l st).1 = Ret r
    /\ (forall c, r = Some c ->
          c <> EmptyString
          /\ forall ch, In ch (list_ascii_of_string c) -> PyStr.is_space ch = false)
    /\ ((forall a, a ∈ l ->
           PyStr.contains "sha256" (PyStr.lower (default "" (asset_name a))) = false
           /\ PyStr.contains "checksum" (PyStr.lower (default "" (asset_name a))) = false) ->
        r = None /\ (_get_checksum_loop w l st).2 = st).
Proof.
  revert st. induction l as [|a l IH]; intros st.
  - exists None. split; [reflexivity|]. split; [discriminate|]. intros _. split; reflexivity.
  - cbn [_get_checksum_loop].
    destruct (PyStr.contains "sha256" (PyStr.lower (default "" (asset_name a)))
              || PyStr.contains "checksum" (PyStr.lower (default "" (asset_name a))))
      eqn:Hname.
    + assert (forall (P : Prop),
                ((forall a0, a0 ∈ a :: l ->
                    PyStr.contains "sha256"
                      (PyStr.lower (default "" (asset_name a0))) = false
                    /\ PyStr.contains "checksum"
                         (PyStr.lower (default "" (asset_name a0))) = false) -> P)) as Hno.
      { intros P H. destruct (H a) as [H1 H2]; [left|].
        rewrite H1, H2 in Hname. discriminate Hname. }
      assert (forall st1,
                exists r, (_get_checksum_loop w l st1).1 = Ret r
                  /\ (forall c, r = Some c ->
                        c <> EmptyString
                        /\ forall ch, In ch (list_ascii_of_string c) ->
                                      PyStr.is_space ch = false)) as Hrest.
      { intros st1. destruct (IH st1) as (r & Hr & Hgood & _). eauto. }
      unfold requests_get_text. msimpl.
      destruct (browser_download_url a) as [u|]; msimpl.
      * destruct (http_get_text w (tick st) u) as [text|]; msimpl.
        -- destruct (PyStr.split_ws (PyStr.strip text)) as [|tok toks] eqn:Htok; msimpl.
           ++ destruct (Hrest (bump (add_request u st))) as (r & Hr & Hgood).
              exists r. split; [exact Hr|]. split; [exact Hgood|].
              apply Hno.
           ++ exists (Some tok). split; [reflexivity|]. split; [|apply Hno].
              intros c [= <-]. apply (split_ws_go_tokens (PyStr.strip text) EmptyString).
              ** intros ? [].
              ** unfold PyStr.split_ws in Htok. rewrite Htok. left.
        -- destruct (Hrest (bump (add_request u st))) as (r & Hr & Hgood).
           exists r. split; [exact Hr|]. split; [exact Hgood|]. apply Hno.
      * destruct (Hrest st) as (r & Hr & Hgood).
        exists r. split; [exact Hr|]. split; [exact Hgood|]. apply Hno.
    + destruct (IH st) as (r & Hr & Hgood & Hnone).
      exists r. split; [exact Hr|]. split; [exact Hgood|].
      intros H. apply Hnone. intros a0 Ha0. apply H. right. exact Ha0.
Qed.

(** X4. [_get_checksum_from_release] never raises; a checksum it answers
    is a word: not the empty string and without white space (so a
    checksum it found is never skipped by [download_update] as absent);
    and when no asset name contains "sha256" or "checksum", in any
    letter case, it answers [None] without a request or any other
    change. *)
Theorem get_checksum_from_release_answers (w : World) (release_info : ReleaseInfo)
    (st : State) :
  exists r,
    (_get_checksum_from_release w release_info st).1 = Ret r
    /\ (forall c, r = Some c ->
          c <> EmptyString
          /\ forall ch, In ch (list_ascii_of_string c) -> PyStr.is_space ch = false)
    /\ ((forall a, a ∈ assets release_info ->
           PyStr.contains "sha256" (PyStr.lower (default "" (asset_name a))) = false
           /\ PyStr.contains "checksum" (PyStr.lower (default "" (asset_name a))) = false) ->
        r = None /\ (_get_checksum_from_release w release_info st).2 = st).
Proof. apply _get_checksum_loop_answers. Qed.

(** ** Versions *)

Lemma tuple_gt_irrefl a : tuple_gt a a = false.
Proof.
  induction a as [|x a IH]; simpl; [reflexivity|]. rewrite Z.eqb_refl. exact IH.
Qed.

Lemma tuple_gt_asym a b : tuple_gt a b = true -> tuple_gt b a = false.
Proof.
  revert b. induction a as [|x a IH]; intros [|y b]; simpl; try congruence.
  destruct (Z.eqb_spec x y) as [->|Hne].
  - rewrite Z.eqb_refl. apply IH.
  - intros H. apply Z.ltb_lt in H.
    destruct (Z.eqb_spec y x); [lia|]. apply Z.ltb_ge. lia.
Qed.

Lemma tuple_gt_trans a b c :
  tuple_gt a b = true -> tuple_gt b c = true -> tuple_gt a c = true.
Proof.
  revert b c. induction a as [|x a IH]; intros [|y b] [|z c]; simpl; try congruence.
  destruct (Z.eqb_spec x y) as [->|Hxy].
  - destruct (Z.eqb_spec y z) as [->|Hyz]; [apply IH|]. intros _ H. exact H.
  - intros Hyx. apply Z.ltb_lt in Hyx.
    destruct (Z.eqb_spec y z) as [->|Hyz].
    + intros _. destruct (Z.eqb_spec x z); [lia|]. apply Z.ltb_lt. lia.
    + intros Hzy. apply Z.ltb_lt in Hzy.
      destruct (Z.eqb_spec x z); [lia|]. apply Z.ltb_lt. lia.
Qed.

Lemma tuple_gt_total a b : tuple_gt a b = false -> tuple_gt b a = false -> a = b.
Proof.
  revert b. induction a as [|x a IH]; intros [|y b]; simpl; try congruence.
  destruct (Z.eqb_spec x y) as [->|Hxy].
  - rewrite Z.eqb_refl. intros H1 H2. f_equal. apply IH; assumption.
  - destruct (Z.eqb_spec y x); [congruence|].
    intros H1 H2. apply Z.ltb_ge in H1, H2. lia.
Qed.

(** X5. [_is_newer_version] is a strict order on version strings: no
    version is newer than itself, two versions are never each newer than
    the other, and newer-than is transitive; two well-formed versions of
    which neither is newer have the same components (as "1.2" and
    "01.+2" have). *)
Theorem is_newer_version_strict_order :
  (forall v, _is_newer_version v v = false)
  /\ (forall a b, _is_newer_version a b = true -> _is_newer_version b a = false)
  /\ (forall a b c, _is_newer_version a b = true -> _is_newer_version b c = true ->
                    _is_newer_version a c = true)
  /\ (forall a b ta tb, version_tuple a = Some ta -> version_tuple b = Some tb ->
                        _is_newer_version a b = false -> _is_newer_version b a = false ->
                        ta = tb).
Proof.
  unfold _is_newer_version. split; [|split; [|split]].
  - intros v. destruct (version_tuple v); [apply tuple_gt_irrefl | reflexivity].
  - intros a b. destruct (version_tuple a), (version_tuple b); try congruence.
    apply tuple_gt_asym.
  - intros a b c.
    destruct (version_tuple a), (version_tuple b), (version_tuple c); try congruence.
    apply tuple_gt_trans.
  - intros a b ta tb -> ->. apply tuple_gt_total.
Qed.

Lemma is_newer_version_strict_order_witness :
  _is_newer_version "1.10" "1.2" = true
  /\ _is_newer_version "1.2" "1.10" = false
  /\ [1; 2] = [1; 2].
Proof.
  split; [|split].
  - apply (proj1 (proj2 (proj2 is_newer_version_strict_order)) "1.10" "1.9" "1.2");
      vm_compute; reflexivity.
  - apply (proj1 (proj2 is_newer_version_strict_order)). vm_compute. reflexivity.
  - apply (proj2 (proj2 (proj2 is_newer_version_strict_order)) "1.2" "01.+2");
      vm_compute; reflexivity.
Defined.

Lemma default_version_version (w : World) now :
  default_version w now !! "version" = Some (JStr "1.0.0").
Proof. reflexivity. Qed.

(** X6. A candidate [check_for_updates] answers is never a downgrade:
    its version and the version of the record that was loaded ("0.0.0"
    when the record has no version entry) are both well-formed, and the
    candidate's is strictly greater; and its checksum, when it has one,
    is not the empty string. *)
Theorem check_for_updates_candidate_is_newer (w : World) (st : State)
    (ui : UpdateInfo) (st1 : State) :
  check_for_updates w st = (Ret (Some ui), st1) ->
  exists version_info v cur n c,
    (load_version_info w st).1 = Ret version_info
    /\ dict_get_default version_info "version" (JStr "0.0.0") = JStr cur
    /\ ui_version ui = Some v
    /\ version_tuple v = Some n
    /\ version_tuple cur = Some c
    /\ lex_greater n c
    /\ ui_checksum ui <> Some EmptyString.
Proof.
  intros H.
  unfold check_for_updates, py_fromisoformat, elapsed_less, requests_get_json,
    _get_checksum_from_release in H.
  msimpl. rewrite load_version_info_eq in H. rewrite load_version_info_eq.
  repeat (case_match; msimpl; simplify_eq).
  all: match goal with
       | H : is_newer_than_record _ _ = true |- _ => rename H into Hnew
       end.
  all: match goal with
       | H : _get_checksum_loop ?w' ?l ?s = (_, ?s') |- _ =>
           destruct (_get_checksum_loop_answers w' l s) as (r & Hr & Hgood & _);
           rewrite H in Hr; cbn [fst] in Hr; simplify_eq
       end.
  all: unfold is_newer_than_record, dict_get_default in Hnew.
  all: rewrite lookup_insert_ne in Hnew by discriminate.
  all: unfold dict_get_default.
  all: match type of Hnew with
       | context [default _ ?x] => destruct x as [[| | |cur]|] eqn:Hcur
       end; cbn [default from_option id] in Hnew; try discriminate Hnew.
  all: unfold _is_newer_version in Hnew.
  all: match type of Hnew with
       | context [version_tuple ?v] => destruct (version_tuple v) as [n|] eqn:Hn
       end; try discriminate Hnew.
  all: match type of Hnew with
       | context [match version_tuple ?v with _ => _ end] =>
           destruct (version_tuple v) as [c|] eqn:Hc
       end; try discriminate Hnew.
  all: apply tuple_gt_lex in Hnew.
  all: eexists _, _, _, n, c.
  all: repeat split.
  all: try (rewrite Hcur; reflexivity).
  all: try eassumption; try reflexivity.
  all: try (cbn [ui_checksum]; intros ->; destruct (Hgood _ eq_refl) as [Hne _];
            congruence).
  all: rewrite default_version_version in Hcur; simplify_eq; exact Hc.
Qed.

Lemma check_for_updates_candidate_is_newer_witness :
  exists version_info v cur n c,
    (load_version_info Demo.world (Demo.installation (Demo.record 7 JNull))).1
    = Ret version_info
    /\ dict_get_default version_info "version" (JStr "0.0.0") = JStr cur
    /\ ui_version Demo.candidate = Some v
    /\ version_tuple v = Some n
    /\ version_tuple cur = Some c
    /\ lex_greater n c
    /\ ui_checksum Demo.candidate <> Some EmptyString.
Proof.
  assert ((check_for_updates Demo.world (Demo.installation (Demo.record 7 JNull))).1
          = Ret (Some Demo.candidate)) as H by (vm_compute; reflexivity).
  exact (check_for_updates_candidate_is_newer Demo.world
           (Demo.installation (Demo.record 7 JNull)) Demo.candidate _
           (run_eq _ _ H)).
Defined.

(** ** Backup archives *)

Lemma rev_app_append a b acc :
  String.rev_app (a +:+ b) acc = String.rev_app b (String.rev_app a acc).
Proof.
  revert acc. induction a as [|x a IH]; intros acc; simpl; [reflexivity|]. apply IH.
Qed.

Lemma rev_app_acc b acc : String.rev_app b acc = String.rev b +:+ acc.
Proof.
  unfold String.rev. revert acc. induction b as [|x b IH]; intros acc; simpl;
    [reflexivity|].
  rewrite (IH (String x acc)), (IH (String x EmptyString)).
  generalize (String.rev_app b EmptyString) as r. intros r.
  induction r as [|y r IHr]; [reflexivity|].
  change (String y (r +:+ String x acc) = String y ((r +:+ String x EmptyString) +:+ acc)).
  rewrite IHr. reflexivity.
Qed.

Lemma prefix_append p s : String.prefix p (p +:+ s) = true.
Proof.
  induction p as [|x p IH]; simpl; [destruct s; reflexivity|].
  destruct (ascii_dec x x); [exact IH | congruence].
Qed.

Lemma endswith_append a b : PyStr.endswith b (a +:+ b) = true.
Proof.
  unfold PyStr.endswith, String.rev at 2. rewrite rev_app_append.
  simpl. rewrite rev_app_acc. apply prefix_append.
Qed.

Lemma append_assoc (a b c : string) : a +:+ (b +:+ c) = (a +:+ b) +:+ c.
Proof.
  induction a as [|x a IH]; [reflexivity|].
  change (String x (a +:+ (b +:+ c)) = String x ((a +:+ b) +:+ c)).
  rewrite IH. reflexivity.
Qed.

Lemma length_append (a b : string) :
  String.length (a +:+ b) = (String.length a + String.length b)%nat.
Proof.
  induction a as [|x a IH]; [reflexivity|].
  change (S (String.length (a +:+ b)) = S (String.length a + String.length b)).
  rewrite IH. reflexivity.
Qed.

(** The names [create_backup] gives its archives match [backup_*.zip]. *)
Lemma glob_backup_name v t : glob_backup ("backup_v" +:+ v +:+ "_" +:+ t +:+ ".zip") = true.
Proof.
  unfold glob_backup. apply andb_true_intro. split; [apply andb_true_intro; split|].
  - reflexivity.
  - rewrite !append_assoc. apply endswith_append.
  - apply Nat.leb_le. rewrite !length_append. simpl. lia.
Qed.

Lemma elem_of_archive_of files names n c :
  (n, c) ∈ archive_of files names <-> n ∈ names /\ files !! n = Some c.
Proof.
  unfold archive_of. rewrite list_elem_of_omap. split.
  - intros (x & Hx & Hf). destruct (files !! x) as [cx|] eqn:Hcx; [|discriminate].
    simpl in Hf. injection Hf as -> ->. split; assumption.
  - intros [Hn Hc]. exists n. split; [exact Hn|]. rewrite Hc. reflexivity.
Qed.

Section BackupName.

Context (w : World).

Lemma create_backup_name st :
  exists d,
    (load_version_info w st).1 = Ret d
    /\ (create_backup w st).1
       = Ret (Some ("backup_v" +:+ py_str (dict_get_default d "version" (JStr "unknown"))
                    +:+ "_" +:+ strftime w (clock w (tick (load_version_info w st).2))
                    +:+ ".zip")).
Proof.
  unfold create_backup. msimpl.
  pose proof (load_version_info_total w st) as [vi Hvi].
  destruct (load_version_info w st) as [r st1]. cbn [fst snd] in *. subst r.
  exists vi. split; [reflexivity|].
  match goal with
  | |- context [zip_write_existing ?ns ?acc ?s] =>
      destruct (zip_write_existing_spec ns acc s)
        as (st3 & -> & Hbase3 & Hbk3 & Htemp3 & Htick3 & Hreq3)
  end.
  msimpl.
  match goal with
  | |- context [_cleanup_old_backups w ?s] =>
      pose proof (_cleanup_old_backups_total w s) as [[] Hu];
      destruct (_cleanup_old_backups w s) as [r5 st5]
  end.
  cbn [fst snd] in *. subst r5. reflexivity.
Qed.

End BackupName.

(** X7. [create_backup] (whose writes succeed here) answers an archive
    name, built from the version of the record it loads ("unknown"
    without a version entry) and the time it reads next; the name matches
    the pattern
    [backup_*.zip] by which [_cleanup_old_backups] finds the archives to
    prune, so the updater's own archives are subject to retention; and
    the archive under that name holds exactly the files of the backup set
    that exist, each with the content the installation has. *)
Theorem create_backup_archive (w : World) (st : State) :
  exists d name st',
    (load_version_info w st).1 = Ret d
    /\ name = "backup_v" +:+ py_str (dict_get_default d "version" (JStr "unknown"))
              +:+ "_" +:+ strftime w (clock w (tick (load_version_info w st).2))
              +:+ ".zip"
    /\ create_backup w st = (Ret (Some name), st')
    /\ glob_backup name = true
    /\ (forall a m, backups st' !! name = Some (a, m) ->
          forall n c, (n, c) ∈ a <-> n ∈ files_to_backup /\ base st' !! n = Some c).
Proof.
  destruct (create_backup_name w st) as (d & Hd & Hname).
  destruct (create_backup_spec w st) as (name & st' & Hrun & _ & _ & Harch & _).
  rewrite Hrun in Hname. cbn [fst] in Hname. injection Hname as Hname.
  exists d, name, st'. split; [exact Hd|]. split; [exact Hname|].
  split; [exact Hrun|]. split; [rewrite Hname; apply glob_backup_name|].
  intros a m Ha n c. rewrite (Harch a m Ha). apply elem_of_archive_of.
Qed.

(** ** Rollback *)

Lemma extract_over_entry a m n c :
  NoDup a.*1 -> (n, c) ∈ a -> extract_over a m !! n = Some c.
Proof.
  revert m. induction a as [|[x cx] a IH]; intros m Hnd Hin; [inversion Hin|].
  rewrite fmap_cons in Hnd. apply NoDup_cons in Hnd as [Hx Hnd].
  rewrite extract_over_cons.
  apply elem_of_cons in Hin as [Heq|Hin].
  - injection Heq as -> ->. rewrite extract_over_other by exact Hx.
    apply lookup_insert_eq.
  - apply IH; assumption.
Qed.

Section RollbackAnswer.

Context (w : World).

Lemma rollback_update_answer st p a m :
  backups st !! p = Some (a, m) ->
  exists ok st',
    rollback_update w p st = (Ret ok, st')
    /\ base st' = extract_over a (base st)
    /\ temp st' = temp st
    /\ (ok = true -> exists k out err, sc w k ScStart = ScDone 0 out err).
Proof.
  intros Hp. unfold rollback_update, _stop_service, _start_service, subprocess_run.
  msimpl.
  destruct (sc w (tick st) ScStop) as [|rc out err]; msimpl; rewrite Hp; msimpl;
    match goal with
    | |- context [sc w ?n ScStart] =>
        destruct (sc w n ScStart) as [|rc' out' err'] eqn:Hstart
    end; msimpl;
    try destruct (Z.eqb_spec rc' 0) as [->|Hrc]; msimpl;
    eexists _, _; (split; [reflexivity|]); (split; [reflexivity|]);
    (split; [reflexivity|]); first [discriminate | intros _; eauto].
Qed.

End RollbackAnswer.

(** X8. With the archive in the backup directory, [rollback_update]
    writes the archive's entries over the installation whether or not
    the service could be stopped: a file the archive does not name is
    left as it is, a file it names (once) has the archived content, the
    backup and scratch directories are untouched, and the answer is true
    only when a start of the service returned 0. Without the archive it
    answers false and the files are as they were. *)
Theorem rollback_update_restores_archive (w : World) (st : State) (p : string) :
  (forall a m, backups st !! p = Some (a, m) ->
     exists ok st',
       rollback_update w p st = (Ret ok, st')
       /\ (forall n, n ∉ a.*1 -> base st' !! n = base st !! n)
       /\ (NoDup a.*1 -> forall n c, (n, c) ∈ a -> base st' !! n = Some c)
       /\ backups st' = backups st
       /\ temp st' = temp st
       /\ (ok = true -> exists k out err, sc w k ScStart = ScDone 0 out err))
  /\ (backups st !! p = None ->
      exists st', rollback_update w p st = (Ret false, st') /\ base st' = base st).
Proof.
  split.
  - intros a m Hp.
    destruct (rollback_update_answer w st p a m Hp) as (ok & st' & Hrun & Hb & Ht & Hok).
    destruct (rollback_update_present w st p a m Hp) as (ok' & st'' & Hrun' & _ & Hbk).
    rewrite Hrun in Hrun'. injection Hrun' as <- <-.
    exists ok, st'. split; [exact Hrun|]. rewrite Hb.
    split; [intros n Hn; apply extract_over_other, Hn|].
    split; [intros Hnd n c Hin; apply extract_over_entry; assumption|].
    split; [exact Hbk|]. split; [exact Ht | exact Hok].
  - apply rollback_update_absent.
Qed.

Lemma rollback_update_restores_archive_witness :
  let st := Demo.with_backups {[ "backup_v1.0.0_x.zip" := (Cases.two_files, 0) ]}
              (set_base (insert MAIN_FILE (Bytes "new code"))
                 (Demo.installation (Demo.record 7 JNull))) in
  (exists ok st',
     rollback_update Demo.world "backup_v1.0.0_x.zip" st = (Ret ok, st')
     /\ base st' !! VERSION_FILE = base st !! VERSION_FILE
     /\ base st' !! MAIN_FILE = Some (Bytes "old code"))
  /\ exists st', rollback_update Demo.world "backup_v0.9.0_x.zip" st = (Ret false, st')
                 /\ base st' = base st.
Proof.
  intros st. split.
  - destruct (proj1 (rollback_update_restores_archive Demo.world st "backup_v1.0.0_x.zip")
                Cases.two_files 0 eq_refl)
      as (ok & st' & Hrun & Hother & Hentry & _).
    exists ok, st'. split; [exact Hrun|]. split.
    + apply Hother. vm_compute. intros H.
      apply list_elem_of_In in H. simpl in H. intuition discriminate.
    + apply Hentry.
      * apply (bool_decide_unpack (NoDup Cases.two_files.*1)). vm_compute. exact I.
      * left.
  - apply (proj2 (rollback_update_restores_archive Demo.world st "backup_v0.9.0_x.zip")).
    reflexivity.
Defined.

(** ** Download *)

(** X9. A candidate without a checksum (none, or the empty string) is
    taken on trust: when the download completes, [download_update]
    answers the artifact, which holds the bytes received, after the one
    request for the download URL; the digest is not looked at. *)
Theorem download_update_without_checksum (w : World) (st : State)
    (update_info : UpdateInfo) (url payload : string) :
  ui_download_url update_info = Some url -> url <> "" ->
  ui_checksum update_info = None \/ ui_checksum update_info = Some EmptyString ->
  http_get_stream w (tick st) url = StreamBody payload ->
  exists st' td,
    download_update w update_info st = (Ret (Some (download_file_name update_info)), st')
    /\ temp st' = Some td
    /\ downloads td !! download_file_name update_info = Some payload
    /\ requests st' = requests st ++ [url].
Proof.
  intros Hurl Hne Hsum Hget.
  unfold download_update, stream_to_file.
  rewrite Hurl, (truthy_str_Some url Hne).
  assert (truthy_str (ui_checksum update_info) = false) as ->
    by (destruct Hsum as [-> | ->]; reflexivity).
  msimpl. rewrite mkdir_temp_eq. msimpl. rewrite Hget.
  erewrite write_download_eq by reflexivity. msimpl.
  eexists _, _. refine (conj eq_refl _). split; [reflexivity|].
  split; [apply lookup_insert_eq | reflexivity].
Qed.

Lemma download_update_without_checksum_witness :
  exists st' td,
    download_update (Demo.with_digest "0badc0de" Demo.world) Cases.unsigned
      (Demo.installation (Demo.record 7 JNull))
    = (Ret (Some "update_v1.1.0.zip"), st')
    /\ temp st' = Some td
    /\ downloads td !! "update_v1.1.0.zip" = Some "PK-1.1.0"
    /\ requests st' = [] ++ ["https://feed/monitor.zip"].
Proof.
  refine (download_update_without_checksum (Demo.with_digest "0badc0de" Demo.world)
            (Demo.installation (Demo.record 7 JNull)) Cases.unsigned
            "https://feed/monitor.zip" "PK-1.1.0" eq_refl _ (or_introl eq_refl) eq_refl).
  discriminate.
Defined.

(** X10. The ways a download fails. Without a download URL (none, or
    the empty string) [download_update] answers [None] without creating
    the scratch directory or requesting anything. When the request fails
    before any byte is written it answers [None] and the scratch
    directory exists, with what it held. When the connection breaks
    midway it answers [None] and the partial file stays in the scratch
    directory under the artifact's name. *)
Theorem download_update_failures (w : World) (st : State) (update_info : UpdateInfo) :
  (truthy_str (ui_download_url update_info) = false ->
   exists st', download_update w update_info st = (Ret None, st')
               /\ temp st' = temp st /\ requests st' = requests st)
  /\ (forall url, ui_download_url update_info = Some url -> url <> "" ->
        http_get_stream w (tick st) url = StreamError ->
        exists st', download_update w update_info st = (Ret None, st')
                    /\ temp st' = Some (default empty_temp (temp st)))
  /\ (forall url partial, ui_download_url update_info = Some url -> url <> "" ->
        http_get_stream w (tick st) url = StreamBroken partial ->
        exists st' td, download_update w update_info st = (Ret None, st')
                       /\ temp st' = Some td
                       /\ downloads td !! download_file_name update_info = Some partial).
Proof.
  unfold download_update, stream_to_file. split; [|split].
  - intros ->. msimpl. eexists. split; [reflexivity|]. split; reflexivity.
  - intros url Hurl Hne Hget. rewrite Hurl, (truthy_str_Some url Hne).
    msimpl. rewrite mkdir_temp_eq. msimpl. rewrite Hget. msimpl.
    eexists. split; reflexivity.
  - intros url partial Hurl Hne Hget. rewrite Hurl, (truthy_str_Some url Hne).
    msimpl. rewrite mkdir_temp_eq. msimpl. rewrite Hget.
    erewrite write_download_eq by reflexivity. msimpl.
    eexists _, _. refine (conj eq_refl _). split; [reflexivity|]. apply lookup_insert_eq.
Qed.

Lemma download_update_failures_witness :
  let st := Demo.installation (Demo.record 7 JNull) in
  (exists st', download_update (Demo.offline Demo.world) Demo.candidate st = (Ret None, st')
               /\ temp st' = Some empty_temp)
  /\ exists st' td,
       download_update (Cases.broken_stream "PK-" Demo.world) Demo.candidate st
       = (Ret None, st')
       /\ temp st' = Some td
       /\ downloads td !! "update_v1.1.0.zip" = Some "PK-".
Proof.
  intros st. split.
  - refine (proj1 (proj2 (download_update_failures (Demo.offline Demo.world) st
                            Demo.candidate))
              "https://feed/monitor.zip" eq_refl _ eq_refl). discriminate.
  - refine (proj2 (proj2 (download_update_failures (Cases.broken_stream "PK-" Demo.world)
                            st Demo.candidate))
              "https://feed/monitor.zip" "PK-" eq_refl _ eq_refl). discriminate.
Defined.

(** ** Installation, whatever the archive holds *)

Section InstallOutcome.

Context (w : World).

Lemma copy_updated_frame d names st :
  exists r st',
    copy_updated d names st = (r, st')
    /\ backups st' = backups st /\ temp st' = temp st
    /\ forall name, name ∉ names -> base st' !! name = base st !! name.
Proof.
  revert st. induction names as [|n names IH]; intros st.
  - eexists _, _. split; [reflexivity|]. auto.
  - simpl. destruct (lookup_entry n d) as [[b|sub]|].
    + msimpl.
      destruct (IH (add_journal INFO "Arquivo atualizado"
                      (set_base (insert n (Bytes b)) st)))
        as (r & st' & Hrun & Hbk & Ht & Hbase).
      exists r, st'. split; [exact Hrun|]. split; [exact Hbk|]. split; [exact Ht|].
      intros name Hn. rewrite Hbase.
      * cbn [base add_journal set_base]. apply lookup_insert_ne.
        intros ->. apply Hn. left.
      * intros Hin. apply Hn. right. exact Hin.
    + eexists _, _. split; [reflexivity|]. auto.
    + destruct (IH st) as (r & st' & Hrun & Hbk & Ht & Hbase).
      exists r, st'. split; [exact Hrun|]. split; [exact Hbk|]. split; [exact Ht|].
      intros name Hn. apply Hbase. intros Hin. apply Hn. right. exact Hin.
Qed.

Lemma install_update_outcome update_file update_info st :
  exists ok st',
    install_update w update_file update_info st = (Ret ok, st')
    /\ backups st' = backups st
    /\ (ok = true -> recorded_version st' = jopt (ui_version update_info))
    /\ (ok = false -> base st' !! VERSION_FILE = base st !! VERSION_FILE)
    /\ (forall name, name ∉ VERSION_FILE :: files_to_update ->
          base st' !! name = base st !! name).
Proof.
  assert (VERSION_FILE ∉ files_to_update) as Hvf.
  { intros H. apply list_elem_of_In in H. simpl in H. intuition discriminate. }
  assert (forall name, name ∉ VERSION_FILE :: files_to_update -> name ∉ files_to_update)
    as Htl.
  { intros name Hn Hin. apply Hn. right. exact Hin. }
  unfold install_update, _stop_service, subprocess_run. msimpl.
  destruct (sc w (tick st) ScStop) as [|rc out err]; msimpl.
  { eexists _, _. split; [reflexivity|]. repeat split; try discriminate; reflexivity. }
  destruct ((rc =? 0) || PyStr.contains "service is not started" (PyStr.lower err));
    msimpl.
  2: { eexists _, _. split; [reflexivity|]. repeat split; try discriminate; reflexivity. }
  unfold mkdir_extracted. msimpl.
  destruct (temp st) as [td|]; msimpl.
  2: { eexists _, _. split; [reflexivity|]. repeat split; try discriminate; reflexivity. }
  unfold read_download. msimpl.
  destruct (downloads td !! update_file) as [data|]; msimpl.
  2: { eexists _, _. split; [reflexivity|]. repeat split; try discriminate; reflexivity. }
  destruct (zip_extractall w data (default [] (extracted td))) as [tree|]; msimpl.
  2: { eexists _, _. split; [reflexivity|]. repeat split; try discriminate; reflexivity. }
  unfold set_extracted. msimpl.
  match goal with
  | |- context [copy_updated ?d ?ns ?s] =>
      destruct (copy_updated_frame d ns s) as (r & stc & -> & Hbk & _ & Hbase)
  end.
  cbn [base backups set_temp bump add_journal] in Hbk, Hbase.
  destruct r as [[]|e]; msimpl.
  2: { eexists _, _. split; [reflexivity|]. split; [exact Hbk|].
       split; [discriminate|]. split; [intros _; apply Hbase, Hvf|].
       intros name Hn. apply Hbase, Htl, Hn. }
  rewrite load_version_info_eq.
  destruct (base stc !! VERSION_FILE) as [[b|d0]|] eqn:Hv; msimpl;
    rewrite save_version_info_eq; msimpl.
  all: eexists _, _; split; [reflexivity|].
  all: cbn [base backups set_base bump add_journal].
  all: split; [exact Hbk|]. 
  all: split; [intros _|split; [discriminate|]].
  all: try (unfold recorded_version; cbn [base set_base bump add_journal];
            rewrite lookup_insert_eq;
            unfold dict_get;
            rewrite lookup_insert_ne, lookup_insert_ne, lookup_insert_eq by discriminate;
            reflexivity).
  all: intros name Hn; rewrite ?lookup_insert_ne;
    [apply Hbase, Htl, Hn | intros <-; apply Hn; left ..].
Qed.

End InstallOutcome.

(** X11. [install_update] never raises and never touches the backup
    directory. When it answers true, the version record holds the
    candidate's version; when it answers false, [version.json] is as it
    was. Either way no file other than [version.json] and the three
    updatable files is written. *)
Theorem install_update_answer (w : World) (update_file : string)
    (update_info : UpdateInfo) (st : State) :
  exists ok st',
    install_update w update_file update_info st = (Ret ok, st')
    /\ backups st' = backups st
    /\ (ok = true -> recorded_version st' = jopt (ui_version update_info))
    /\ (ok = false -> base st' !! VERSION_FILE = base st !! VERSION_FILE)
    /\ (forall name, name ∉ VERSION_FILE :: files_to_update ->
          base st' !! name = base st !! name).
Proof. apply install_update_outcome. Qed.

(** X12. When the service cannot be stopped ([sc stop] raises, or
    returns a non-zero code without "service is not started" in its error
    output), [install_update] answers false without extracting or copying
    anything: installation and scratch directory are as they were. When
    the service stops but the scratch directory or the artifact is
    missing, or the artifact is not a zip archive, it answers false and
    the installation's files are as they were. *)
Theorem install_update_refuses (w : World) (update_file : string)
    (update_info : UpdateInfo) (st : State) :
  ((forall rc out err,
      sc w (tick st) ScStop = ScDone rc out err ->
      (rc =? 0) || PyStr.contains "service is not started" (PyStr.lower err) = false) ->
   exists st',
     install_update w update_file update_info st = (Ret false, st')
     /\ base st' = base st /\ temp st' = temp st)
  /\ ((temp st = None
       \/ exists td, temp st = Some td
            /\ (downloads td !! update_file = None
                \/ exists data, downloads td !! update_file = Some data
                     /\ zip_extractall w data (default [] (extracted td)) = None)) ->
      exists st',
        install_update w update_file update_info st = (Ret false, st')
        /\ base st' = base st).
Proof.
  unfold install_update, _stop_service, subprocess_run. msimpl. split.
  - intros Hstop. destruct (sc w (tick st) ScStop) as [|rc out err]; msimpl.
    + eexists. split; [reflexivity|]. split; reflexivity.
    + rewrite (Hstop rc out err eq_refl). msimpl.
      eexists. split; [reflexivity|]. split; reflexivity.
  - intros Hart. destruct (sc w (tick st) ScStop) as [|rc out err]; msimpl.
    { eexists. split; reflexivity. }
    destruct ((rc =? 0) || PyStr.contains "service is not started" (PyStr.lower err));
      msimpl.
    2: { eexists. split; reflexivity. }
    unfold mkdir_extracted, read_download. msimpl.
    destruct Hart as [Ht|(td & Ht & [Hd|(data & Hd & Hzip)])]; rewrite Ht; msimpl.
    + eexists. split; reflexivity.
    + rewrite Hd. msimpl. eexists. split; reflexivity.
    + rewrite Hd. msimpl. rewrite Hzip. msimpl. eexists. split; reflexivity.
Qed.

(** ** Validation *)

Section Validation.

Context (w : World).

Lemma read_log_lines_state lf encs st st0 :
  read_log_lines lf encs st = ((read_log_lines lf encs st0).1, st).
Proof.
  induction encs as [|enc encs IH]; simpl; [reflexivity|].
  destruct (read_text lf enc); [reflexivity | exact IH | reflexivity].
Qed.

Lemma _has_critical_errors_in_logs_tick st st0 :
  tick st = tick st0 ->
  (_has_critical_errors_in_logs w st).1 = (_has_critical_errors_in_logs w st0).1.
Proof.
  intros Ht. unfold _has_critical_errors_in_logs. msimpl. rewrite Ht.
  destruct (service_log w (tick st0)) as [lf|]; [|reflexivity].
  rewrite (read_log_lines_state lf encodings (bump st) (bump st0)).
  rewrite (read_log_lines_state lf encodings (bump st0) (bump st0)).
  destruct (read_log_lines lf encodings (bump st0)).1 as [[|l ls]|e]; msimpl;
    try reflexivity.
  destruct (read_binary lf); reflexivity.
Qed.

Lemma _has_critical_errors_in_logs_total st :
  exists b, (_has_critical_errors_in_logs w st).1 = Ret b.
Proof.
  unfold _has_critical_errors_in_logs. msimpl.
  destruct (service_log w (tick st)) as [lf|]; [|eauto].
  destruct (read_log_lines_spec lf encodings (bump st)) as (r & -> & _).
  destruct r as [[|l ls]|e]; msimpl; eauto.
  destruct (read_binary lf); eauto.
Qed.

Lemma read_log_lines_first lf tried enc rest ls st :
  (forall e, e ∈ tried -> read_text lf e = TextDecodeError) ->
  read_text lf enc = TextLines ls ->
  read_log_lines lf (tried ++ enc :: rest) st = (Ret (last_n 50 ls), st).
Proof.
  intros Htried Henc. induction tried as [|e tried IH]; simpl.
  - rewrite Henc. reflexivity.
  - rewrite (Htried e) by left. apply IH. intros e' He'. apply Htried. right. exact He'.
Qed.

Lemma last_n_app {A} (older recent : list A) n :
  length recent = n \/ (older = [] /\ (length recent <= n)%nat) ->
  last_n n (older ++ recent) = recent.
Proof.
  unfold last_n. intros [<-|[-> Hle]].
  - rewrite length_app, Nat.add_sub. apply drop_app_length.
  - simpl. replace (length recent - n)%nat with 0%nat by lia. reflexivity.
Qed.

End Validation.

(** X13. [validate_update] never raises, and it passes exactly when
    starting the service returns 0, the output of the status query that
    follows the pause contains "RUNNING" (the query's return code is not
    looked at), and the log check made after that finds nothing
    critical. *)
Theorem validate_update_passes_iff (w : World) (st st3 : State) :
  tick st3 = (3 + tick st)%nat ->
  ((validate_update w st).1 = Ret true \/ (validate_update w st).1 = Ret false)
  /\ ((validate_update w st).1 = Ret true <->
      (exists out err, sc w (tick st) ScStart = ScDone 0 out err)
      /\ (exists rc out err, sc w (2 + tick st)%nat ScQuery = ScDone rc out err
                             /\ PyStr.contains "RUNNING" out = true)
      /\ (_has_critical_errors_in_logs w st3).1 = Ret false).
Proof.
  intros Ht3. cbn [Nat.add] in *.
  unfold validate_update, _start_service, _is_service_running, subprocess_run. msimpl.
  destruct (sc w (tick st) ScStart) as [|rc out err]; msimpl.
  { split; [right; reflexivity|]. split; [discriminate|].
    intros [(o & e & H) _]. discriminate H. }
  destruct (Z.eqb_spec rc 0) as [->|Hrc]; msimpl.
  2: { split; [right; reflexivity|]. split; [discriminate|].
       intros [(o & e & H) _]. congruence. }
  destruct (sc w (S (S (tick st))) ScQuery) as [|rc' out' err']; msimpl.
  { split; [right; reflexivity|]. split; [discriminate|].
    intros (_ & (r & o & e & H & _) & _). discriminate H. }
  destruct (PyStr.contains "RUNNING" out') eqn:Hrun; msimpl.
  2: { split; [right; reflexivity|]. split; [discriminate|].
       intros (_ & (r & o & e & H & Hc) & _). congruence. }
  match goal with
  | |- context [_has_critical_errors_in_logs w ?s] =>
      rewrite <- (_has_critical_errors_in_logs_tick w s st3) by (rewrite Ht3; reflexivity);
      destruct (_has_critical_errors_in_logs_total w s) as [b Hb];
      destruct (_has_critical_errors_in_logs w s) as [r5 st5]
  end.
  cbn [fst] in *. subst r5. destruct b; msimpl.
  - split; [right; reflexivity|]. split; [discriminate|].
    intros (_ & _ & H). discriminate H.
  - split; [left; reflexivity|]. split; [|reflexivity].
    intros _. split; [eauto|]. split; [eauto 6 | reflexivity].
Qed.

(** X14. The log check judges the last fifty lines of the first
    reading of the log that decodes, and nothing else: with a reading of
    [older ++ recent], where [recent] are the last fifty lines (or all of
    them, when there are fewer), the check answers whether a line of
    [recent] carries a marker; a marker in [older] goes unnoticed. *)
Theorem log_check_reads_last_lines (w : World) (st : State) (lf : LogFile)
    (tried : list string) (enc : string) (rest : list string)
    (older recent : list string) :
  service_log w (tick st) = Some lf ->
  encodings = tried ++ enc :: rest ->
  (forall e, e ∈ tried -> read_text lf e = TextDecodeError) ->
  read_text lf enc = TextLines (older ++ recent) ->
  recent <> [] ->
  length recent = 50%nat \/ (older = [] /\ (length recent <= 50)%nat) ->
  (_has_critical_errors_in_logs w st).1 = Ret (existsb has_pattern recent).
Proof.
  intros Hlog Henc Htried Hread Hne Hlen.
  unfold _has_critical_errors_in_logs. msimpl. rewrite Hlog, Henc.
  rewrite (read_log_lines_first lf tried enc rest (older ++ recent) _ Htried Hread).
  rewrite (last_n_app older recent 50 Hlen).
  destruct recent as [|l ls]; [congruence|]. reflexivity.
Qed.

Lemma install_update_refuses_witness :
  let st := Demo.installation (Demo.record 7 JNull) in
  exists st',
    install_update Demo.world "update_v1.1.0.zip" Demo.candidate st = (Ret false, st')
    /\ base st' = base st.
Proof.
  intros st.
  apply (proj2 (install_update_refuses Demo.world "update_v1.1.0.zip" Demo.candidate st)).
  left. reflexivity.
Defined.

Lemma validate_update_passes_iff_witness :
  (validate_update Demo.world (Demo.installation (Demo.record 7 JNull))).1 = Ret true.
Proof.
  apply (proj2 (proj2 (validate_update_passes_iff Demo.world
                         (Demo.installation (Demo.record 7 JNull))
                         (bump (bump (bump (Demo.installation (Demo.record 7 JNull)))))
                         eq_refl))).
  split; [exists "", ""; reflexivity|].
  split; [exists 0, "STATE : 4 RUNNING", ""; split; [reflexivity|vm_compute; reflexivity]|].
  vm_compute. reflexivity.
Defined.

Lemma log_check_reads_last_lines_witness :
  (_has_critical_errors_in_logs (Demo.with_log (Some Cases.long_log) Demo.world)
     (Demo.installation (Demo.record 7 JNull))).1
  = Ret (existsb has_pattern Cases.heartbeats)
  /\ existsb has_pattern Cases.heartbeats = false
  /\ has_pattern "CRITICAL database unreachable" = true.
Proof.
  split; [|split; vm_compute; reflexivity].
  apply (log_check_reads_last_lines (Demo.with_log (Some Cases.long_log) Demo.world)
           (Demo.installation (Demo.record 7 JNull)) Cases.long_log
           [] "utf-8" ["latin-1"; "cp1252"; "iso-8859-1"]
           ["CRITICAL database unreachable"] Cases.heartbeats).
  - reflexivity.
  - reflexivity.
  - intros e He. inversion He.
  - reflexivity.
  - discriminate.
  - left. reflexivity.
Defined.

(** ** A last check that cannot be compared *)

(** X15. A record whose last check is a text [fromisoformat] rejects, or
    a timestamp without an offset, or whose check interval is not a
    number, makes [check_for_updates] fail before it asks the feed: it
    answers [None], requests nothing and leaves every file as it is, the
    record included, so the next check meets the same record. *)
Theorem check_for_updates_bad_last_check (w : World) (st : State)
    (d : gmap string jval) (s : string) :
  base st !! VERSION_FILE = Some (Json d) ->
  truthy (dict_get_default d "auto_update_enabled" (JBool true)) = true ->
  dict_get d "last_update_check" = JStr s -> s <> "" ->
  fromisoformat w s = IsoInvalid \/ fromisoformat w s = IsoNaive
  \/ as_number (dict_get_default d "update_check_interval" (JNum 86400)) = None ->
  exists st',
    check_for_updates w st = (Ret None, st')
    /\ base st' = base st /\ requests st' = requests st.
Proof.
  intros Hfile Hon Hlast Hne Hbad.
  apply String.eqb_neq in Hne.
  unfold check_for_updates, py_fromisoformat, elapsed_less. msimpl.
  rewrite load_version_info_eq, Hfile, Hon, Hlast. cbn [truthy negb]. rewrite Hne.
  cbn [negb].
  destruct Hbad as [Hiso|[Hiso|Hint]].
  - rewrite Hiso. msimpl. eexists. split; [reflexivity|]. split; reflexivity.
  - rewrite Hiso. msimpl. eexists. split; [reflexivity|]. split; reflexivity.
  - destruct (fromisoformat w s); msimpl; rewrite ?Hint; msimpl;
      eexists; (split; [reflexivity|]); split; reflexivity.
Qed.

Lemma check_for_updates_bad_last_check_witness :
  exists st',
    check_for_updates Demo.world
      (Demo.installation (Demo.record 7 (JStr "yesterday")))
    = (Ret None, st')
    /\ base st' = base (Demo.installation (Demo.record 7 (JStr "yesterday")))
    /\ requests st' = [].
Proof.
  refine (check_for_updates_bad_last_check Demo.world
            (Demo.installation (Demo.record 7 (JStr "yesterday")))
            (Demo.record 7 (JStr "yesterday")) "yesterday"
            eq_refl eq_refl eq_refl _ (or_introl eq_refl)).
  discriminate.
Defined.

(** ** The update cycle, path by path *)

Ltac after_cleanup :=
  match goal with
  | |- context [cleanup_temp_files ?s] =>
      let Hb := fresh "Hb" in
      let Hk := fresh "Hk" in
      let Hu := fresh "Hu" in
      pose proof (cleanup_temp_files_base s) as Hb;
      pose proof (cleanup_temp_files_backups s) as Hk;
      pose proof (cleanup_temp_files_total s) as [[] Hu];
      unfold same in Hb, Hk;
      destruct (cleanup_temp_files s) as [r7 st7];
      cbn [fst snd] in Hu, Hb, Hk; subst r7; msimpl
  end.

(** X16. A cycle in which [check_for_updates] answers no candidate, be
    it that there is none or that the check failed (the feed cannot be
    reached, say), reports success: [perform_update] answers true, the
    files are as the check left them, and no backup is made. *)
Theorem perform_update_without_candidate (w : World) (st0 st1 : State) :
  check_for_updates w
    (add_journal INFO "=== Iniciando processo de atualização ===" st0)
  = (Ret None, st1) ->
  (perform_update w st0).1 = Ret true
  /\ base (perform_update w st0).2 = base st1
  /\ backups (perform_update w st0).2 = backups st0.
Proof.
  intros Hcheck.
  pose proof (same_eq backups _ _ _ _ (check_for_updates_backups w) Hcheck) as Hbk.
  unfold perform_update, try_finally. msimpl. rewrite Hcheck. msimpl.
  after_cleanup. rewrite Hb, Hk. auto.
Qed.

Lemma perform_update_without_candidate_witness :
  let w := Demo.offline Demo.world in
  let st0 := Demo.installation (Demo.record 7 JNull) in
  (perform_update w st0).1 = Ret true
  /\ backups (perform_update w st0).2 = ∅.
Proof.
  intros w st0.
  pose (r1 := check_for_updates w
                (add_journal INFO "=== Iniciando processo de atualização ===" st0)).
  assert (r1.1 = Ret None) as H1 by (vm_compute; reflexivity).
  destruct (perform_update_without_candidate w st0 _ (run_eq r1 _ H1))
    as (Hres & _ & Hbk).
  split; [exact Hres | exact Hbk].
Defined.

(** X17. A cycle whose download fails ends there: [perform_update]
    answers false, and the installation and the backup directory are as
    [create_backup] left them (nothing is restored and the fresh archive
    is kept). *)
Theorem perform_update_download_failure (w : World) (st0 : State) (ui : UpdateInfo)
    (st1 : State) (p : string) (st2 st3 : State) :
  check_for_updates w
    (add_journal INFO "=== Iniciando processo de atualização ===" st0)
  = (Ret (Some ui), st1) ->
  create_backup w (add_journal INFO "Nova versão encontrada" st1)
  = (Ret (Some p), st2) ->
  download_update w ui st2 = (Ret None, st3) ->
  (perform_update w st0).1 = Ret false
  /\ base (perform_update w st0).2 = base st2
  /\ backups (perform_update w st0).2 = backups st2.
Proof.
  intros Hcheck Hbackup Hdl.
  destruct (check_for_updates_candidate _ _ _ _ Hcheck) as [[v Hv] _].
  pose proof (same_eq base _ _ _ _ (download_update_base w ui) Hdl) as Hb3.
  pose proof (same_eq backups _ _ _ _ (download_update_backups w ui) Hdl) as Hk3.
  unfold perform_update, update_from_backup, try_finally. msimpl.
  rewrite Hcheck, Hv. msimpl. rewrite Hbackup. msimpl. rewrite Hdl. msimpl.
  after_cleanup. rewrite Hb, Hk. auto.
Qed.

Lemma perform_update_download_failure_witness :
  let w := Demo.with_digest "0badc0de" Demo.world in
  let st0 := Demo.installation (Demo.record 7 JNull) in
  (perform_update w st0).1 = Ret false
  /\ base (perform_update w st0).2 !! MAIN_FILE = Some (Bytes "old code").
Proof.
  intros w st0.
  pose (r1 := check_for_updates w
                (add_journal INFO "=== Iniciando processo de atualização ===" st0)).
  pose (r2 := create_backup w (add_journal INFO "Nova versão encontrada" r1.2)).
  pose (r3 := download_update w Demo.candidate r2.2).
  assert (r1.1 = Ret (Some Demo.candidate)) as H1 by (vm_compute; reflexivity).
  assert (r2.1 = Ret (Some "backup_v1.0.0_1700000000000003.zip")) as H2
    by (vm_compute; reflexivity).
  assert (r3.1 = Ret None) as H3 by (vm_compute; reflexivity).
  assert (base r2.2 !! MAIN_FILE = Some (Bytes "old code")) as Hmain
    by (vm_compute; reflexivity).
  destruct (perform_update_download_failure w st0 _ _ _ _ _
              (run_eq r1 _ H1) (run_eq r2 _ H2) (run_eq r3 _ H3))
    as (Hres & Hbase & _).
  split; [exact Hres|]. rewrite Hbase. exact Hmain.
Defined.

(** X18. A cycle whose installation fails ends there as well:
    [perform_update] answers false and the files are as [install_update]
    left them; the backup is not restored, so the files copied before the
    failure stay, under the old version record. *)
Theorem perform_update_install_failure (w : World) (st0 : State) (ui : UpdateInfo)
    (st1 : State) (p : string) (st2 : State) (f : string) (st3 st4 : State) :
  check_for_updates w
    (add_journal INFO "=== Iniciando processo de atualização ===" st0)
  = (Ret (Some ui), st1) ->
  create_backup w (add_journal INFO "Nova versão encontrada" st1)
  = (Ret (Some p), st2) ->
  download_update w ui st2 = (Ret (Some f), st3) ->
  install_update w f ui st3 = (Ret false, st4) ->
  (perform_update w st0).1 = Ret false
  /\ base (perform_update w st0).2 = base st4
  /\ backups (perform_update w st0).2 = backups st2.
Proof.
  intros Hcheck Hbackup Hdl Hinst.
  destruct (check_for_updates_candidate _ _ _ _ Hcheck) as [[v Hv] _].
  pose proof (same_eq backups _ _ _ _ (download_update_backups w ui) Hdl) as Hk3.
  pose proof (same_eq backups _ _ _ _ (install_update_backups w f ui) Hinst) as Hk4.
  unfold perform_update, update_from_backup, try_finally. msimpl.
  rewrite Hcheck, Hv. msimpl. rewrite Hbackup. msimpl. rewrite Hdl. msimpl.
  rewrite Hinst. msimpl.
  after_cleanup. rewrite Hb, Hk. split; [reflexivity|]. split; [reflexivity|]. congruence.
Qed.

Lemma perform_update_install_failure_witness :
  let w := Demo.with_tree Cases.half_tree Demo.world in
  let st0 := Demo.installation (Demo.record 7 JNull) in
  (perform_update w st0).1 = Ret false
  /\ base (perform_update w st0).2 !! MAIN_FILE = Some (Bytes "new code")
  /\ recorded_version (perform_update w st0).2 = JStr "1.0.0".
Proof.
  intros w st0.
  pose (r1 := check_for_updates w
                (add_journal INFO "=== Iniciando processo de atualização ===" st0)).
  pose (r2 := create_backup w (add_journal INFO "Nova versão encontrada" r1.2)).
  pose (r3 := download_update w Demo.candidate r2.2).
  pose (r4 := install_update w "update_v1.1.0.zip" Demo.candidate r3.2).
  assert (r1.1 = Ret (Some Demo.candidate)) as H1 by (vm_compute; reflexivity).
  assert (r2.1 = Ret (Some "backup_v1.0.0_1700000000000003.zip")) as H2
    by (vm_compute; reflexivity).
  assert (r3.1 = Ret (Some "update_v1.1.0.zip")) as H3 by (vm_compute; reflexivity).
  assert (r4.1 = Ret false) as H4 by (vm_compute; reflexivity).
  assert (base r4.2 !! MAIN_FILE = Some (Bytes "new code")) as Hmain
    by (vm_compute; reflexivity).
  assert (recorded_version r4.2 = JStr "1.0.0") as Hver by (vm_compute; reflexivity).
  destruct (perform_update_install_failure w st0 _ _ _ _ _ _ _
              (run_eq r1 _ H1) (run_eq r2 _ H2) (run_eq r3 _ H3) (run_eq r4 _ H4))
    as (Hres & Hbase & _).
  split; [exact Hres|]. unfold recorded_version. rewrite Hbase.
  split; [exact Hmain | exact Hver].
Defined.

(** X19. A cycle in which every step succeeds: [perform_update] answers
    true, the files are as [install_update] left them, the version record
    holds the candidate's version, and the backup made before the
    installation is kept. *)
Theorem perform_update_success (w : World) (st0 : State) (ui : UpdateInfo)
    (st1 : State) (p : string) (st2 : State) (f : string) (st3 st4 st5 : State) :
  check_for_updates w
    (add_journal INFO "=== Iniciando processo de atualização ===" st0)
  = (Ret (Some ui), st1) ->
  create_backup w (add_journal INFO "Nova versão encontrada" st1)
  = (Ret (Some p), st2) ->
  download_update w ui st2 = (Ret (Some f), st3) ->
  install_update w f ui st3 = (Ret true, st4) ->
  validate_update w st4 = (Ret true, st5) ->
  (perform_update w st0).1 = Ret true
  /\ base (perform_update w st0).2 = base st4
  /\ recorded_version (perform_update w st0).2 = jopt (ui_version ui)
  /\ backups (perform_update w st0).2 = backups st2.
Proof.
  intros Hcheck Hbackup Hdl Hinst Hval.
  destruct (check_for_updates_candidate _ _ _ _ Hcheck) as [[v Hv] _].
  pose proof (same_eq backups _ _ _ _ (download_update_backups w ui) Hdl) as Hk3.
  pose proof (same_eq backups _ _ _ _ (install_update_backups w f ui) Hinst) as Hk4.
  pose proof (same_eq backups _ _ _ _ (validate_update_backups w) Hval) as Hk5.
  pose proof (same_eq base _ _ _ _ (validate_update_base w) Hval) as Hb5.
  destruct (install_update_outcome w f ui st3) as (ok & st4' & Hrun & _ & Hver & _).
  rewrite Hinst in Hrun. injection Hrun as <- <-. specialize (Hver eq_refl).
  unfold perform_update, update_from_backup, try_finally. msimpl.
  rewrite Hcheck, Hv. msimpl. rewrite Hbackup. msimpl. rewrite Hdl. msimpl.
  rewrite Hinst. msimpl. rewrite Hval. msimpl.
  after_cleanup.
  assert (base st7 = base st4) as Hbase by congruence.
  split; [reflexivity|]. split; [exact Hbase|]. split; [|congruence].
  unfold recorded_version in *. rewrite Hbase. rewrite Hv in Hver. exact Hver.
Qed.

Lemma perform_update_success_witness :
  let st0 := Demo.installation (Demo.record 7 JNull) in
  (perform_update Demo.world st0).1 = Ret true
  /\ recorded_version (perform_update Demo.world st0).2 = JStr "1.1.0".
Proof.
  intros st0.
  pose (r1 := check_for_updates Demo.world
                (add_journal INFO "=== Iniciando processo de atualização ===" st0)).
  pose (r2 := create_backup Demo.world (add_journal INFO "Nova versão encontrada" r1.2)).
  pose (r3 := download_update Demo.world Demo.candidate r2.2).
  pose (r4 := install_update Demo.world "update_v1.1.0.zip" Demo.candidate r3.2).
  pose (r5 := validate_update Demo.world r4.2).
  assert (r1.1 = Ret (Some Demo.candidate)) as H1 by (vm_compute; reflexivity).
  assert (r2.1 = Ret (Some "backup_v1.0.0_1700000000000003.zip")) as H2
    by (vm_compute; reflexivity).
  assert (r3.1 = Ret (Some "update_v1.1.0.zip")) as H3 by (vm_compute; reflexivity).
  assert (r4.1 = Ret true) as H4 by (vm_compute; reflexivity).
  assert (r5.1 = Ret true) as H5 by (vm_compute; reflexivity).
  destruct (perform_update_success Demo.world st0 _ _ _ _ _ _ _ _
              (run_eq r1 _ H1) (run_eq r2 _ H2) (run_eq r3 _ H3)
              (run_eq r4 _ H4) (run_eq r5 _ H5))
    as (Hres & _ & Hver & _).
  split; [exact Hres | exact Hver].
Defined.

(** ** Which steps write installation files *)

Section OtherFiles.

Context (w : World) (name : string).
Hypothesis Hname : name <> VERSION_FILE.

Local Instance other_preorder : PreOrder (same (fun st => base st !! name)).
Proof. apply same_preorder. Qed.

Lemma load_version_info_other :
  respects (same (fun st => base st !! name)) (load_version_info w).
Proof.
  intros st. unfold same. rewrite load_version_info_eq.
  destruct (base st !! VERSION_FILE) as [[b|d]|]; cbn [snd base add_journal set_base bump];
    try reflexivity.
  apply lookup_insert_ne. congruence.
Qed.

Lemma save_version_info_other d :
  respects (same (fun st => base st !! name)) (save_version_info d).
Proof.
  intros st. unfold same. rewrite save_version_info_eq. cbn [snd base set_base].
  apply lookup_insert_ne. congruence.
Qed.

Lemma _get_checksum_loop_other l :
  respects (same (fun st => base st !! name)) (_get_checksum_loop w l).
Proof.
  intros st. unfold same. rewrite (_get_checksum_loop_base w l st). reflexivity.
Qed.

Local Hint Resolve load_version_info_other save_version_info_other
  _get_checksum_loop_other : respects.

Lemma check_for_updates_other :
  respects (same (fun st => base st !! name)) (check_for_updates w).
Proof. unfold check_for_updates. respects_auto. Qed.

Lemma create_backup_other :
  respects (same (fun st => base st !! name)) (create_backup w).
Proof.
  intros st. unfold same.
  destruct (create_backup_spec w st) as (p & st' & -> & Hbase & _).
  cbn [snd]. rewrite Hbase. apply load_version_info_other.
Qed.

End OtherFiles.

(** X20. Of the steps of a cycle only [install_update] and
    [rollback_update] write files of the installation: loading the
    record, checking for updates and making a backup leave every file
    other than [version.json] as it is, and downloading, validating and
    removing the scratch directory leave all of them as they are. *)
Theorem only_install_and_rollback_write_files (w : World) (name : string) (st : State) :
  name <> VERSION_FILE ->
  base (load_version_info w st).2 !! name = base st !! name
  /\ base (check_for_updates w st).2 !! name = base st !! name
  /\ base (create_backup w st).2 !! name = base st !! name
  /\ (forall update_info, base (download_update w update_info st).2 = base st)
  /\ base (validate_update w st).2 = base st
  /\ base (cleanup_temp_files st).2 = base st.
Proof.
  intros Hname.
  split; [apply (load_version_info_other w name Hname)|].
  split; [apply (check_for_updates_other w name Hname)|].
  split; [apply (create_backup_other w name Hname)|].
  split; [intros ui; apply (download_update_base w ui)|].
  split; [apply (validate_update_base w) | apply cleanup_temp_files_base].
Qed.

Lemma only_install_and_rollback_write_files_witness :
  let st := Demo.installation (Demo.record 7 JNull) in
  base (check_for_updates Demo.world st).2 !! MAIN_FILE = base st !! MAIN_FILE
  /\ base (create_backup Demo.world st).2 !! ".env" = base st !! ".env".
Proof.
  intros st. split.
  - apply (only_install_and_rollback_write_files Demo.world MAIN_FILE st). discriminate.
  - apply (only_install_and_rollback_write_files Demo.world ".env" st). discriminate.
Defined.

(** ** The scheduler *)

Lemma seconds_app a b : seconds (a ++ b) = seconds a + seconds b.
Proof.
  unfold seconds. induction a as [|x a IH]; simpl; [reflexivity|]. rewrite IH. lia.
Qed.

Lemma sleep_in_slices_spec fuel running k interval t slept st :
  interval - t <= 60 * Z.of_nat fuel ->
  exists slices st',
    sleep_in_slices (S fuel) running k interval t slept st
    = (Ret (Some (slept ++ slices)), st')
    /\ Forall (fun s => 0 < s <= 60) slices
    /\ seconds slices <= Z.max 0 (interval - t)
    /\ ((forall i, running (k + i)%nat = true) -> seconds slices = Z.max 0 (interval - t))
    /\ tick st' = (tick st + length slices)%nat
    /\ base st' = base st /\ backups st' = backups st /\ temp st' = temp st
    /\ requests st' = requests st.
Proof.
  revert k t slept st. induction fuel as [|fuel IH]; intros k t slept st Hfuel.
  - cbn [sleep_in_slices].
    destruct (Z.ltb_spec t interval) as [Hlt|Hge]; [lia|]. cbn [andb].
    exists [], st. rewrite app_nil_r. split; [reflexivity|].
    split; [constructor|]. unfold seconds. cbn [foldr length].
    repeat split; try reflexivity; try lia.
  - change (sleep_in_slices (S (S fuel)) running k interval t slept st)
      with ((if (t <? interval) && running k then
               sleep;;
               sleep_in_slices (S fuel) running (S k) interval (t + 60)
                 (slept ++ [Z.min 60 (interval - t)])
             else mret (Some slept)) st).
    destruct (Z.ltb_spec t interval) as [Hlt|Hge]; cbn [andb].
    + destruct (running k) eqn:Hk.
      * destruct (IH (S k) (t + 60) (slept ++ [Z.min 60 (interval - t)]) (bump st))
          as (slices & st' & Hrun & Hall & Hle & Heq & Htick & Hrest); [lia|].
        exists (Z.min 60 (interval - t) :: slices), st'. msimpl. rewrite Hrun.
        rewrite <- app_assoc. split; [reflexivity|].
        split; [constructor; [lia | exact Hall]|].
        change (seconds (Z.min 60 (interval - t) :: slices))
          with (Z.min 60 (interval - t) + seconds slices).
        split; [lia|]. split.
        -- intros Hrunning. rewrite Heq; [lia|].
           intros i. specialize (Hrunning (S i)).
           rewrite Nat.add_succ_r in Hrunning. exact Hrunning.
        -- cbn [tick bump length] in *. split; [lia | exact Hrest].
      * exists [], st. rewrite app_nil_r. split; [reflexivity|].
        split; [constructor|]. unfold seconds. cbn [foldr length].
        split; [lia|]. split.
        -- intros Hrunning. specialize (Hrunning 0%nat).
           rewrite Nat.add_0_r in Hrunning. congruence.
        -- repeat split; try reflexivity; lia.
    + exists [], st. rewrite app_nil_r. split; [reflexivity|].
      split; [constructor|]. unfold seconds. cbn [foldr length].
      repeat split; try reflexivity; lia.
Qed.

Lemma sleep_in_slices_sleeps_interval_lemma (fuel : nat) (running : nat -> bool)
    (interval : Z) (st : State) :
  interval <= 60 * Z.of_nat fuel ->
  exists slices st',
    sleep_in_slices (S fuel) running 0 interval 0 [] st = (Ret (Some slices), st')
    /\ Forall (fun s => 0 < s <= 60) slices
    /\ seconds slices <= Z.max 0 interval
    /\ ((forall i, running i = true) -> seconds slices = Z.max 0 interval)
    /\ (running 0%nat = false -> slices = [])
    /\ base st' = base st /\ backups st' = backups st /\ temp st' = temp st
    /\ requests st' = requests st.
Proof.
  intros Hfuel.
  destruct (sleep_in_slices_spec fuel running 0 interval 0 [] st)
    as (slices & st' & Hrun & Hall & Hle & Heq & Htick & Hb & Hk & Ht & Hr); [lia|].
  rewrite Z.sub_0_r in *. cbn [app] in Hrun.
  exists slices, st'. split; [exact Hrun|]. split; [exact Hall|].
  split; [exact Hle|]. split; [exact Heq|]. split; [|auto].
  intros Hstop. cbn [sleep_in_slices] in Hrun. rewrite Hstop, andb_false_r in Hrun.
  injection Hrun as -> _. reflexivity.
Qed.

(** X21. The scheduler's sleep between two checks: given fuel for the
    slices the interval needs, the loop ends; every slice it sleeps is
    positive and at most 60 seconds; together they never exceed the
    interval; when [running] stays set they add up to exactly the
    interval (nothing when the interval is not positive); when
    [running] is already cleared at the first test nothing is slept; and
    sleeping touches neither files nor backups nor the network. *)
Theorem sleep_in_slices_sleeps_interval (fuel : nat) (running : nat -> bool)
    (interval : Z) (st : State) :
  interval <= 60 * Z.of_nat fuel ->
  exists slices st',
    sleep_in_slices (S fuel) running 0 interval 0 [] st = (Ret (Some slices), st')
    /\ Forall (fun s => 0 < s <= 60) slices
    /\ seconds slices <= Z.max 0 interval
    /\ ((forall i, running i = true) -> seconds slices = Z.max 0 interval)
    /\ (running 0%nat = false -> slices = [])
    /\ base st' = base st /\ backups st' = backups st /\ requests st' = requests st.
Proof.
  intros Hfuel.
  destruct (sleep_in_slices_sleeps_interval_lemma fuel running interval st Hfuel)
    as (slices & st' & Hrun & Hall & Hle & Heq & Hstop & Hb & Hk & _ & Hr).
  exists slices, st'. auto 10.
Qed.

Lemma sleep_in_slices_sleeps_interval_witness :
  exists slices st',
    sleep_in_slices 4 (fun _ => true) 0 130 0 []
      (Demo.installation (Demo.record 7 JNull))
    = (Ret (Some slices), st')
    /\ seconds slices = 130.
Proof.
  destruct (sleep_in_slices_sleeps_interval 3 (fun _ => true) 130
              (Demo.installation (Demo.record 7 JNull)))
    as (slices & st' & Hrun & _ & _ & Heq & _); [lia|].
  exists slices, st'. split; [exact Hrun|]. apply Heq. reflexivity.
Defined.

(** X22. One turn of the scheduler, with a record whose check interval
    is a number and fuel for its slices: the turn ends without an error,
    whatever the update cycle did, having slept at most the interval read
    before the cycle, in slices of at most 60 seconds, and exactly the
    interval when [running] stays set. With auto-update switched off the
    cycle is not run: the files are as loading the record left them, and
    backups, scratch directory and network are untouched. *)
Theorem scheduler_turn_sleeps_interval (w : World) (fuel : nat) (running : nat -> bool)
    (st : State) (version_info : gmap string jval) (n : Z) :
  (load_version_info w st).1 = Ret version_info ->
  as_number (dict_get_default version_info "update_check_interval" (JNum 86400)) = Some n ->
  n <= 60 * Z.of_nat fuel ->
  exists slices st',
    scheduler_turn w (S fuel) running st = (Ret (Some slices), st')
    /\ Forall (fun s => 0 < s <= 60) slices
    /\ seconds slices <= Z.max 0 n
    /\ ((forall i, running i = true) -> seconds slices = Z.max 0 n)
    /\ (truthy (dict_get_default version_info "auto_update_enabled" (JBool true)) = false ->
        base st' = base (load_version_info w st).2
        /\ backups st' = backups st
        /\ temp st' = temp st
        /\ requests st' = requests st).
Proof.
  intros Hload Hn Hfuel. unfold scheduler_turn. msimpl.
  pose proof (load_version_info_backups w st) as Hlb.
  pose proof (load_version_info_temp w st) as Hlt.
  pose proof (load_version_info_requests w st) as Hlr.
  unfold same in *.
  destruct (load_version_info w st) as [r st1]. cbn [fst snd] in *. subst r.
  msimpl.
  destruct (truthy (dict_get_default version_info "auto_update_enabled" (JBool true))).
  - msimpl.
    match goal with
    | |- context [perform_update w ?s] =>
        destruct (perform_update_total w s) as [ok Hok];
        destruct (perform_update w s) as [r2 st2]
    end.
    cbn [fst] in Hok. subst r2. rewrite Hn.
    destruct ok; msimpl;
      match goal with
      | |- context [sleep_in_slices _ _ _ _ _ _ ?s] =>
          destruct (sleep_in_slices_sleeps_interval_lemma fuel running n s Hfuel)
            as (slices & st' & -> & Hall & Hle & Heq & _)
      end;
      exists slices, st'; (split; [reflexivity|]); (split; [exact Hall|]);
      (split; [exact Hle|]); (split; [exact Heq | discriminate]).
  - rewrite Hn.
    destruct (sleep_in_slices_sleeps_interval_lemma fuel running n st1 Hfuel)
      as (slices & st' & -> & Hall & Hle & Heq & _ & Hb & Hk & Ht & Hr).
    exists slices, st'. split; [reflexivity|]. split; [exact Hall|].
    split; [exact Hle|]. split; [exact Heq|]. intros _.
    split; [exact Hb|]. split; [congruence|]. split; congruence.
Qed.

Lemma scheduler_turn_sleeps_interval_witness :
  let st := Demo.installation Cases.switched_off in
  exists slices st',
    scheduler_turn Demo.world 3 (fun _ => true) st = (Ret (Some slices), st')
    /\ seconds slices = 90
    /\ requests st' = [].
Proof.
  intros st.
  destruct (scheduler_turn_sleeps_interval Demo.world 2 (fun _ => true) st
              Cases.switched_off 90 eq_refl eq_refl)
    as (slices & st' & Hrun & _ & _ & Hsum & Hoff); [lia|].
  exists slices, st'. split; [exact Hrun|]. split.
  - apply Hsum. reflexivity.
  - apply Hoff. reflexivity.
Defined.

(** X23. A record whose check interval is not a number ends the turn in
    the scheduler's error handler, after the update cycle has run (when
    auto-update is on): the error is logged and the turn sleeps 300
    seconds, once, whatever [running] says. *)
Theorem scheduler_turn_bad_interval (w : World) (fuel : nat) (running : nat -> bool)
    (st : State) (version_info : gmap string jval) :
  (load_version_info w st).1 = Ret version_info ->
  as_number (dict_get_default version_info "update_check_interval" (JNum 86400)) = None ->
  exists st',
    scheduler_turn w fuel running st = (Ret (Some [300]), st')
    /\ exists l, journal st' = l ++ [(ERROR, "Erro no agendador de atualizações")].
Proof.
  intros Hload Hn. unfold scheduler_turn. msimpl.
  destruct (load_version_info w st) as [r st1]. cbn [fst snd] in *. subst r.
  msimpl.
  destruct (truthy (dict_get_default version_info "auto_update_enabled" (JBool true))).
  - msimpl.
    match goal with
    | |- context [perform_update w ?s] =>
        destruct (perform_update_total w s) as [ok Hok];
        destruct (perform_update w s) as [r2 st2]
    end.
    cbn [fst] in Hok. subst r2. rewrite Hn.
    destruct ok; msimpl; eexists; (split; [reflexivity|]); eexists; reflexivity.
  - rewrite Hn. msimpl. eexists. split; [reflexivity|]. eexists. reflexivity.
Qed.

Lemma scheduler_turn_bad_interval_witness :
  exists st',
    scheduler_turn (Demo.offline Demo.world) 1 (fun _ => false)
      (Demo.installation Cases.bad_interval)
    = (Ret (Some [300]), st')
    /\ exists l, journal st' = l ++ [(ERROR, "Erro no agendador de atualizações")].
Proof.
  exact (scheduler_turn_bad_interval (Demo.offline Demo.world) 1 (fun _ => false)
           (Demo.installation Cases.bad_interval) Cases.bad_interval eq_refl eq_refl).
Defined.
